(** * figma-asset-downloader: component resolution and asset export

    A shallow embedding of the v1.2.0 command line tool (the iOS-capable,
    multi-page variant of [src/index.js]) and the properties of its
    component extraction, name resolution, duplicate detection and the
    icon and image export pipelines.

    The loader of the configuration file ([ConfigFile]), the first
    release ([V100]) and the single-page variant ([Legacy]) are embedded
    in modules of their own.

    Conventions of the embedding.
    - JavaScript strings are [string] (a sequence of UTF-8 bytes).
    - A field that may be absent is an [option]; JavaScript truthiness of
      a string field ([if (x)], [!x], [x || d]) is [truthy]: absent and
      the empty string are both falsy.
    - A [Map] whose iteration order is observable is an insertion-ordered
      association list ([JsMap]); the [componentSets] index, which is only
      ever queried with [get], is a [gmap].
    - Console output, network requests and filesystem operations are
      recorded, in order, in a trace of events; the replies of the outside
      world are given by a [World] of oracles that may depend on everything
      that has happened so far.
    - [process.exit(n)] ends the run with [Exit n]; a thrown exception is
      [Throw e] until a [try]/[catch] handles it. *)

From Stdlib Require Import String Ascii List ZArith QArith Bool Lia DecimalString.
From stdpp Require Import base gmap strings list.
Import ListNotations.
Local Open Scope string_scope.
Local Open Scope list_scope.
Set Warnings "-register-all".

(** ** Strings *)

Module Str.

(** [s.startsWith(p)] *)
Definition startsWith (s p : string) : bool := String.prefix p s.

(** [s.includes(p)] *)
Fixpoint includes (s p : string) : bool :=
  String.prefix p s ||
  match s with
  | EmptyString => false
  | String _ rest => includes rest p
  end.

(** [s.replace(pat, rep)] with a string pattern: the first occurrence
    only. *)
Fixpoint replace (s pat rep : string) : string :=
  if String.prefix pat s
  then rep +:+ String.substring (String.length pat)
                 (String.length s - String.length pat) s
  else match s with
       | EmptyString => EmptyString
       | String c rest => String c (replace rest pat rep)
       end.

(** [arr.join(sep)] *)
Definition join (sep : string) (arr : list string) : string :=
  String.concat sep arr.

(** [arr.includes(x)] on an array of strings *)
Definition mem (x : string) (arr : list string) : bool :=
  existsb (String.eqb x) arr.

(** Template-literal rendering of a non-negative integer. *)
Definition of_nat (n : nat) : string :=
  NilEmpty.string_of_uint (Nat.to_uint n).

(** Truthiness of an optional string: [undefined], [null] and [""] are
    falsy. *)
Definition truthy (o : option string) : option string :=
  match o with
  | Some EmptyString => None
  | other => other
  end.

Definition is_truthy (o : option string) : bool :=
  match truthy o with Some _ => true | None => false end.

Definition hex_digit (n : N) : ascii :=
  match n with
  | 0%N => "0" | 1%N => "1" | 2%N => "2" | 3%N => "3" | 4%N => "4"
  | 5%N => "5" | 6%N => "6" | 7%N => "7" | 8%N => "8" | 9%N => "9"
  | 10%N => "A" | 11%N => "B" | 12%N => "C" | 13%N => "D" | 14%N => "E"
  | _ => "F"
  end%char.

Definition between (lo hi n : N) : bool := (lo <=? n)%N && (n <=? hi)%N.

(** The characters [encodeURIComponent] leaves alone:
    [A-Z a-z 0-9 - _ . ! ~ * ' ( )]. *)
Definition uri_unreserved (c : ascii) : bool :=
  let n := N_of_ascii c in
  between 65 90 n || between 97 122 n || between 48 57 n ||
  existsb (N.eqb n) [45; 95; 46; 33; 126; 42; 39; 40; 41]%N.

(** [encodeURIComponent(s)]: every other byte of the UTF-8 encoding is
    written [%XX] with upper-case hexadecimal digits. *)
Fixpoint encodeURIComponent (s : string) : string :=
  match s with
  | EmptyString => EmptyString
  | String c rest =>
      if uri_unreserved c
      then String c (encodeURIComponent rest)
      else let n := N_of_ascii c in
           String "%" (String (hex_digit (n / 16)) (String (hex_digit (n mod 16))
             (encodeURIComponent rest)))
  end.

End Str.

(** ** Insertion-ordered maps ([new Map()]) with string keys *)

Module JsMap.
Section Ops.
Context {V : Type}.

Definition t := list (string * V).

Fixpoint get (k : string) (m : list (string * V)) : option V :=
  match m with
  | [] => None
  | (k', v) :: rest => if String.eqb k' k then Some v else get k rest
  end.

Definition has (k : string) (m : list (string * V)) : bool :=
  match get k m with Some _ => true | None => false end.

(** [m.set(k, v)]: a new key goes last, an existing key keeps its
    place and takes the new value. *)
Fixpoint set (k : string) (v : V) (m : list (string * V)) : list (string * V) :=
  match m with
  | [] => [(k, v)]
  | (k', v') :: rest =>
      if String.eqb k' k then (k', v) :: rest else (k', v') :: set k v rest
  end.

Definition keys (m : list (string * V)) : list string := map fst m.
Definition values (m : list (string * V)) : list V := map snd m.
Definition size (m : list (string * V)) : nat := length m.
End Ops.
End JsMap.

(** ** The document tree *)

Record BoundingBox := { bb_width : Q; bb_height : Q }.

Inductive Node := mkNode {
  node_id : string;
  node_name : option string;
  node_type : string;
  node_children : list Node;          (* an absent [children] is [[]] *)
  node_absoluteBoundingBox : option BoundingBox;
  node_description : option string;
  node_componentSetId : option string
}.

Record FileData := { document : Node }.

Record ComponentSetRef := {
  cs_id : string;
  cs_name : option string;
  cs_path : list string
}.

Record Component := {
  c_id : string;
  c_name : string;
  c_path : string;
  c_type : string;
  c_description : string;
  c_width : option Q;
  c_height : option Q;
  c_componentSetId : option string;
  c_componentSet : option ComponentSetRef
}.

(** The guard at the head of [traverseNode]:
    [!node.name || node.name.startsWith('#')]. *)
Definition skipped (node : Node) : bool :=
  match node_name node with
  | None => true
  | Some nm => String.eqb nm "" || Str.startsWith nm "#"
  end.

Definition name_of (node : Node) : string :=
  match node_name node with Some nm => nm | None => "" end.

(** [traverseNode(node, callback, path = [], depth = 0)].  The callback
    acts on a state of type [St] (what the JavaScript closure mutates). *)
Fixpoint traverseNode {St : Type} (node : Node)
    (callback : Node -> list string -> nat -> St -> St)
    (path : list string) (depth : nat) (s : St) {struct node} : St :=
  if skipped node then s
  else
    let currentPath := path ++ [name_of node] in
    let s1 := callback node currentPath depth s in
    (fix each (cs : list Node) (s : St) {struct cs} : St :=
       match cs with
       | [] => s
       | child :: rest =>
           each rest (traverseNode child callback currentPath (depth + 1) s)
       end) (node_children node) s1.

(** The loop over the children, as a definition of its own. *)
Definition traverseChildren {St : Type} (cs : list Node)
    (callback : Node -> list string -> nat -> St -> St)
    (path : list string) (depth : nat) (s : St) : St :=
  fold_left (fun s child => traverseNode child callback path depth s) cs s.

(** ** Events, errors and the outside world *)

Inductive Color := Plain | Red | Green | Yellow | Blue | Cyan.
Inductive Stream := Stdout | Stderr.

(** [path.join(a, b)]: a path is kept as its list of segments. *)
Definition Path := list string.
Definition path_join (p : Path) (seg : string) : Path := p ++ [seg].

(** A small JSON value and what is handed to [fs.writeFile]:
    [Manifest j] is the text [JSON.stringify(j, null, 2)]. *)
Inductive Json :=
| JString (s : string)
| JNumber (z : Z)
| JArray (items : list Json)
| JObject (fields : list (string * Json)).

Inductive FileContent :=
| Utf8 (text : string)
| Buffer (bytes : string)
| Manifest (j : Json).

Inductive Event :=
| Console (st : Stream) (col : Color) (text : string)
| SpinnerStart (text : string)
| SpinnerSucceed (text : string)
| SpinnerFail (text : string)
| GetFile (fileId : string)
| GetImages (fileId ids format : string) (scale : Q)
| HttpGet (url : string)
| EnsureDir (p : Path) (ok : bool)
| EmptyDir (p : Path) (ok : bool)
| WriteFile (p : Path) (content : FileContent) (ok : bool).

Definition Trace := list Event.

(** A JavaScript [Error] as [handleApiError] looks at it. *)
Record JsError := {
  message : string;
  response : option (Z * string);     (* status, JSON.stringify(data) *)
  request : bool
}.

Definition Error (msg : string) : JsError :=
  {| message := msg; response := None; request := false |}.

Definition Result (A : Type) : Type := JsError + A.

(** [pageId] and [pageName] are a string or an array of strings. *)
Inductive Selector :=
| SelStr (s : string)
| SelArr (items : list string).

(** The configuration as [loadConfig] returns it.  On Android the loader
    leaves [icons.path] or [images.path] undefined when the block is
    given without a path: the two paths are optional. *)
Record Config := {
  fileId : string;
  pageId : Selector;
  pageName : Selector;
  platform : string;
  icons_path : option string;
  icons_prefix : string;
  images_path : option string;
  images_format : string;
  images_quality : Z;
  images_prefix : string;
  images_skipDpi : option (list string)
}.

(** The command line as [commander] parsed it. *)
Record Cli := {
  componentNames : list string;
  downloadAll : bool;
  findDuplicate : bool;
  sectionName : option string
}.

(** What [program.parse(process.argv)] does with the command line.
    Commander answers [--version] and [--help] itself, on standard
    output, and leaves with status 0; it rejects an unknown option or an
    option without its argument on standard error and leaves with status
    1; otherwise it returns the options. *)
Inductive Argv :=
| Parsed (cli : Cli)
| Answered (text : string)
| Rejected (message : string).

(** The collaborators.  A reply may depend on the whole history.  The
    three converters are functions of their input alone.  [loadConfig]
    is [None] when it printed a diagnostic and left with status 1. *)
Record World := {
  FIGMA_TOKEN : option string;
  loadConfig : option Config;
  figma_get_file : Trace -> string -> Result FileData;
  figma_get_images :
    Trace -> string -> string -> string -> Q -> Result (option (string -> option string));
  axios_get : Trace -> string -> Result string;
  svgo_optimize : string -> Result string;
  svg2vectordrawable : string -> Result string;
  sharp_webp : string -> Z -> Result string;
  fs_ensureDir : Trace -> Path -> Result unit;
  fs_emptyDir : Trace -> Path -> Result unit;
  fs_writeFile : Trace -> Path -> FileContent -> Result unit;
  (** [s.replace(/\s+/g, '_')], [s.toLowerCase()] and the rendering of a
      number in a template literal *)
  replace_whitespace_runs : string -> string;
  toLowerCase : string -> string;
  number_toString : Q -> string
}.

(** ** Component extraction *)

Definition show_name (o : option string) : string :=
  match o with Some s => s | None => "undefined" end.

(** [Array.isArray(x) ? x : (x ? [x] : [])] *)
Definition toArray (sel : Selector) : list string :=
  match sel with
  | SelArr items => items
  | SelStr s => if String.eqb s "" then [] else [s]
  end.

Definition idMatch (pageIds : list string) (node : Node) : bool :=
  Str.mem (node_id node) pageIds.

Definition nameMatch (pageNames : list string) (node : Node) : bool :=
  match node_name node with
  | Some nm => Str.mem nm pageNames
  | None => false
  end.

Definition isPageMatch (pageIds pageNames : list string) (node : Node) : bool :=
  String.eqb (node_type node) "CANVAS" &&
  (idMatch pageIds node || nameMatch pageNames node).

(** What [findPages] prints when it keeps a page. *)
Definition pageLogs (pageIds pageNames : list string) (node : Node) : list Event :=
  (if idMatch pageIds node
   then [Console Stdout Green
           ("Found page with ID: " +:+ node_id node +:+ " (" +:+ show_name (node_name node) +:+ ")")]
   else []) ++
  (if nameMatch pageNames node
   then [Console Stdout Green
           ("Found page with name: " +:+ show_name (node_name node) +:+ " (" +:+ node_id node +:+ ")")]
   else []).

(** The local function [findPages] of [extractComponents]: the console
    lines it prints and the pages it returns.  It looks at every node,
    also at those [traverseNode] would skip. *)
Fixpoint findPages (pageIds pageNames : list string) (node : Node)
    {struct node} : list Event * list Node :=
  let here :=
    if isPageMatch pageIds pageNames node
    then (pageLogs pageIds pageNames node, [node])
    else ([], []) in
  let below :=
    (fix each (cs : list Node) {struct cs} : list Event * list Node :=
       match cs with
       | [] => ([], [])
       | child :: rest =>
           let childMatches := findPages pageIds pageNames child in
           let others := each rest in
           (fst childMatches ++ fst others, snd childMatches ++ snd others)
       end) (node_children node) in
  (fst here ++ fst below, snd here ++ snd below).

(** The first-pass callback. *)
Definition collectSet (node : Node) (path : list string) (depth : nat)
    (componentSets : gmap string (Node * list string)) : gmap string (Node * list string) :=
  if String.eqb (node_type node) "COMPONENT_SET"
  then <[node_id node := (node, path)]> componentSets
  else componentSets.

(** [parentComponentSet] of the second-pass callback. *)
Definition parentComponentSet (componentSets : gmap string (Node * list string))
    (node : Node) : option ComponentSetRef :=
  match Str.truthy (node_componentSetId node) with
  | Some sid =>
      match componentSets !! sid with
      | Some componentSetInfo =>
          Some {| cs_id := sid;
                  cs_name := node_name (fst componentSetInfo);
                  cs_path := snd componentSetInfo |}
      | None => None
      end
  | None => None
  end.

Definition toComponent (componentSets : gmap string (Node * list string))
    (node : Node) (path : list string) : Component :=
  {| c_id := node_id node;
     c_name := name_of node;
     c_path := Str.join " / " path;
     c_type := node_type node;
     c_description :=
       match Str.truthy (node_description node) with Some d => d | None => "" end;
     c_width := option_map bb_width (node_absoluteBoundingBox node);
     c_height := option_map bb_height (node_absoluteBoundingBox node);
     c_componentSetId := Str.truthy (node_componentSetId node);
     c_componentSet := parentComponentSet componentSets node |}.

(** The second-pass callback. *)
Definition collectComponent (componentSets : gmap string (Node * list string))
    (node : Node) (path : list string) (depth : nat)
    (components : list Component) : list Component :=
  if String.eqb (node_type node) "COMPONENT"
  then components ++ [toComponent componentSets node path]
  else components.

(** The page search: console lines and [foundPages]. *)
Definition searchPages (rootNode : Node) (pageIds pageNames : list string)
    : list Event * list Node :=
  if (0 <? length pageIds)%nat || (0 <? length pageNames)%nat
  then
    let found := findPages pageIds pageNames rootNode in
    (fst found ++
       [if (0 <? length (snd found))%nat
        then Console Stdout Green
               ("Found " +:+ Str.of_nat (length (snd found)) +:+ " matching pages")
        else Console Stdout Yellow
               "Warning: No pages found matching the specified criteria. Searching the entire file instead."],
     snd found)
  else ([], []).

Definition nodesToProcess (rootNode : Node) (foundPages : list Node) : list Node :=
  if (0 <? length foundPages)%nat then foundPages else [rootNode].

Definition firstPass (roots : list Node) : gmap string (Node * list string) :=
  fold_left (fun sets node => traverseNode node collectSet [] 0 sets) roots ∅.

Definition secondPass (componentSets : gmap string (Node * list string))
    (roots : list Node) : list Component :=
  fold_left (fun acc node => traverseNode node (collectComponent componentSets) [] 0 acc)
    roots [].

(** [extractComponents(fileData, pageId = '', pageName = '')]: what it
    prints and what it returns. *)
Definition extractComponents (fileData : FileData) (pageId pageName : Selector)
    : list Event * list Component :=
  let rootNode := document fileData in
  let pageIds := toArray pageId in
  let pageNames := toArray pageName in
  let search := searchPages rootNode pageIds pageNames in
  let roots := nodesToProcess rootNode (snd search) in
  let componentSets := firstPass roots in
  (fst search, secondPass componentSets roots).

(** ** The effect monad *)

Inductive Outcome (A : Type) :=
| Ret (a : A)
| Throw (e : JsError)
| Exit (code : Z).
Arguments Ret {A} a.
Arguments Throw {A} e.
Arguments Exit {A} code.

Definition M (A : Type) : Type := Trace -> Trace * Outcome A.

Definition ret {A} (a : A) : M A := fun t => (t, Ret a).

Definition bind {A B} (m : M A) (f : A -> M B) : M B :=
  fun t =>
    match m t with
    | (t', Ret a) => f a t'
    | (t', Throw e) => (t', Throw e)
    | (t', Exit code) => (t', Exit code)
    end.

Definition throw {A} (e : JsError) : M A := fun t => (t, Throw e).

(** [process.exit(code)] *)
Definition process_exit {A} (code : Z) : M A := fun t => (t, Exit code).

(** [try { m } catch (error) { handler error }] *)
Definition try_catch {A} (m : M A) (handler : JsError -> M A) : M A :=
  fun t =>
    match m t with
    | (t', Throw e) => handler e t'
    | other => other
    end.

Definition emit (ev : Event) : M unit := fun t => (t ++ [ev], Ret tt).

Definition emit_all (evs : list Event) : M unit := fun t => (t ++ evs, Ret tt).

Declare Scope js_scope.
Delimit Scope js_scope with js.
Notation "x <- m ;; k" := (bind m (fun x => k))
  (at level 100, m at next level, right associativity) : js_scope.
Notation "m ;; k" := (bind m (fun _ => k))
  (at level 100, right associativity) : js_scope.
Local Open Scope js_scope.

(** [for (const x of xs) { body x }] *)
Fixpoint for_of {A} (xs : list A) (body : A -> M unit) : M unit :=
  match xs with
  | [] => ret tt
  | x :: rest => body x ;; for_of rest body
  end.

(** A request to the outside world: the request is recorded, the reply
    comes from the oracle. *)
Definition request_of {A} (ev : Event) (reply : Trace -> Result A) : M A :=
  fun t =>
    (t ++ [ev], match reply t with inl e => Throw e | inr v => Ret v end).

(** A filesystem operation: recorded with whether it succeeded. *)
Definition fs_op (ev : bool -> Event) (reply : Trace -> Result unit) : M unit :=
  fun t =>
    match reply t with
    | inl e => (t ++ [ev false], Throw e)
    | inr _ => (t ++ [ev true], Ret tt)
    end.

Definition dquote : string := String (ascii_of_nat 34) EmptyString.

(** The line feed of a ['\n'] in a message. *)
Definition nl : string := String (ascii_of_nat 10) EmptyString.

Definition of_Z (z : Z) : string := NilEmpty.string_of_int (Z.to_int z).

(** [new Set()] of strings, in insertion order. *)
Definition set_add (x : string) (s : list string) : list string :=
  if Str.mem x s then s else s ++ [x].

(** ** Platform-specific scales *)

Definition ANDROID_DPI_SCALES : list (string * Q) :=
  [("ldpi", 0.75%Q); ("mdpi", 1%Q); ("hdpi", 1.5%Q);
   ("xhdpi", 2%Q); ("xxhdpi", 3%Q); ("xxxhdpi", 4%Q)].

Definition IOS_SCALES : list (string * Q) :=
  [("1x", 1%Q); ("2x", 2%Q); ("3x", 3%Q); ("ipad_1x", 2%Q); ("ipad_2x", 3%Q)].

(** ** Contents.json *)

Definition imageEntry (filename idiom : string) (scale : option string) : Json :=
  JObject ([("filename", JString filename); ("idiom", JString idiom)] ++
           match scale with Some s => [("scale", JString s)] | None => [] end).

(** [createContentsJson(name, format = 'png')], before [JSON.stringify]. *)
Definition createContentsJson (name format : string) : Json :=
  if String.eqb format "svg"
  then
    JObject
      [("images", JArray [imageEntry (name +:+ "." +:+ format) "universal" None]);
       ("info", JObject [("author", JString "Figma Asset Downloader");
                         ("version", JNumber 1)]);
       ("properties", JObject [("template-rendering-intent", JString "original")])]
  else
    JObject
      [("images", JArray
          [imageEntry (name +:+ "." +:+ format) "universal" (Some "1x");
           imageEntry (name +:+ "@2x." +:+ format) "universal" (Some "2x");
           imageEntry (name +:+ "@3x." +:+ format) "universal" (Some "3x");
           imageEntry (name +:+ "~ipad." +:+ format) "ipad" (Some "1x");
           imageEntry (name +:+ "~ipad@2x." +:+ format) "ipad" (Some "2x")]);
       ("info", JObject [("version", JNumber 1); ("author", JString "xcode")]);
       ("properties", JObject [("template-rendering-intent", JString "original")])].

(** ** Name resolution (pure part of [fetchComponents]) *)

Definition exactMatches (allComponents : list Component) (requestedName : string)
    : list Component :=
  List.filter (fun component => String.eqb (c_name component) requestedName) allComponents.

(** One step of [componentNames.forEach]: the state is the pair
    [(nameMap, duplicates)]. *)
Definition classify (allComponents : list Component)
    (maps : list (string * Component) * list (string * list Component))
    (requestedName : string)
    : list (string * Component) * list (string * list Component) :=
  let matches := exactMatches allComponents requestedName in
  if (1 <? length matches)%nat
  then (fst maps, JsMap.set requestedName matches (snd maps))
  else match matches with
       | [only] => (JsMap.set requestedName only (fst maps), snd maps)
       | _ => maps
       end.

Definition matchNames (allComponents : list Component) (names : list string)
    : list (string * Component) * list (string * list Component) :=
  fold_left (classify allComponents) names ([], []).

Definition figmaLink (fileId : string) (component : Component) : string :=
  "https://www.figma.com/file/" +:+ fileId +:+ "?node-id=" +:+
  Str.encodeURIComponent (c_id component).

Fixpoint linkLines (color : Color) (indent fileId : string) (index : nat)
    (components : list Component) : list Event :=
  match components with
  | [] => []
  | component :: rest =>
      Console Stdout color
        (indent +:+ Str.of_nat (index + 1) +:+ ". " +:+ c_path component +:+ " - " +:+
         figmaLink fileId component)
      :: linkLines color indent fileId (index + 1) rest
  end.

(** What [fetchComponents] prints for one entry of [duplicates]. *)
Definition ambiguityReport (fileId : string) (entry : string * list Component)
    : list Event :=
  [Console Stderr Red
     ("Error: Multiple components found with the exact name " +:+ dquote +:+
      fst entry +:+ dquote);
   Console Stderr Red
     "Cannot download because of ambiguity. Please rename components to be unique.";
   Console Stdout Yellow (nl +:+ "Links to duplicated components:")] ++
  linkLines Cyan "" fileId 0 (snd entry).

(** ** Duplicate detection (pure part of [findDuplicateComponents]) *)

Definition isRelevant (component : Component) : bool :=
  Str.startsWith (c_name component) "icon/" || Str.startsWith (c_name component) "img/".

(** One step of [relevantComponents.forEach]. *)
Definition groupStep (componentsByName : list (string * list Component))
    (component : Component) : list (string * list Component) :=
  let byName :=
    if negb (JsMap.has (c_name component) componentsByName)
    then JsMap.set (c_name component) [] componentsByName
    else componentsByName in
  match JsMap.get (c_name component) byName with
  | Some group => JsMap.set (c_name component) (group ++ [component]) byName
  | None => byName
  end.

Definition groupByName (components : list Component) : list (string * list Component) :=
  fold_left groupStep components [].

(** The [duplicates] map of [findDuplicateComponents]. *)
Definition findDuplicates (allComponents : list Component)
    : list (string * list Component) :=
  let relevantComponents := List.filter isRelevant allComponents in
  let componentsByName := groupByName relevantComponents in
  fold_left
    (fun duplicates entry =>
       if (1 <? length (snd entry))%nat
       then JsMap.set (fst entry) (snd entry) duplicates
       else duplicates)
    componentsByName [].

Definition duplicateReport (fileId : string) (entry : string * list Component)
    : list Event :=
  Console Stdout Red
    (nl +:+ fst entry +:+ " (" +:+ Str.of_nat (length (snd entry)) +:+ " duplicates):")
  :: linkLines Cyan "  " fileId 0 (snd entry).

(** ** The program *)

Section Program.

Variable world : World.
Variable cli : Cli.

(** [handleApiError(error)] *)
Definition handleApiError (error : JsError) : M unit :=
  match response error with
  | Some (status, data) =>
      emit (Console Stderr Red ("Status: " +:+ of_Z status)) ;;
      emit (Console Stderr Red ("Message: " +:+ data)) ;;
      if (status =? 403)%Z
      then emit (Console Stderr Yellow
                   "This might be due to an invalid Figma token or insufficient permissions.")
      else if (status =? 404)%Z
      then emit (Console Stderr Yellow "The Figma file could not be found.") ;;
           emit (Console Stderr Yellow
                   "Make sure the file ID is correct and that you have access to this file.")
      else ret tt
  | None =>
      if request error
      then emit (Console Stderr Red "No response received from the Figma API.") ;;
           emit (Console Stderr Yellow
                   "Please check your internet connection and try again.")
      else emit (Console Stderr Red ("Message: " +:+ message error))
  end.

(** [fetchComponents(fileId, componentNames, pageId = '', pageName = '')] *)
Definition fetchComponents (fileId : string) (componentNames : list string)
    (pageId pageName : Selector) : M (list Component) :=
  emit (SpinnerStart "Fetching components from Figma...") ;;
  try_catch
    (fileData <- request_of (GetFile fileId) (fun t => figma_get_file world t fileId) ;;
     let extracted := extractComponents fileData pageId pageName in
     emit_all (fst extracted) ;;
     let allComponents := snd extracted in
     filteredComponents <-
       match Str.truthy (sectionName cli) with
       | Some section =>
           let inSection :=
             List.filter (fun component => Str.includes (c_path component) section)
               allComponents in
           if (length inSection =? 0)%nat
           then emit (SpinnerFail ("No components found in section: " +:+ section)) ;;
                process_exit 1
           else emit (SpinnerSucceed
                        ("Found " +:+ Str.of_nat (length inSection) +:+
                         " components in section: " +:+ section)) ;;
                ret inSection
       | None => ret allComponents
       end ;;
     filteredComponents <-
       (if (0 <? length componentNames)%nat
        then
          let maps := matchNames allComponents componentNames in
          let nameMap := fst maps in
          let duplicates := snd maps in
          (if (0 <? JsMap.size duplicates)%nat
           then emit (SpinnerFail "Found duplicate components with the same name") ;;
                emit_all (flat_map (ambiguityReport fileId) duplicates) ;;
                process_exit 1
           else ret tt) ;;
          ret (JsMap.values nameMap)
        else if negb (downloadAll cli) && negb (Str.is_truthy (sectionName cli))
        then emit (SpinnerFail
                     "No component names provided. Use --all flag to download all components or --section to specify a section.") ;;
             process_exit 1
        else ret filteredComponents) ;;
     if (length filteredComponents =? 0)%nat
     then emit (SpinnerFail "No components found matching the provided names exactly") ;;
          process_exit 1
     else
       emit (SpinnerSucceed
               ("Found " +:+ Str.of_nat (length filteredComponents) +:+
                " components with exact name matches")) ;;
       ret filteredComponents)
    (fun error =>
       emit (SpinnerFail "Error fetching components from Figma") ;;
       handleApiError error ;;
       process_exit 1).

(** [findDuplicateComponents(fileId, pageId = '', pageName = '')] *)
Definition findDuplicateComponents (fileId : string) (pageId pageName : Selector)
    : M bool :=
  emit (SpinnerStart "Fetching components from Figma to find duplicates...") ;;
  try_catch
    (fileData <- request_of (GetFile fileId) (fun t => figma_get_file world t fileId) ;;
     let extracted := extractComponents fileData pageId pageName in
     emit_all (fst extracted) ;;
     let allComponents := snd extracted in
     let relevantComponents := List.filter isRelevant allComponents in
     emit (SpinnerSucceed
             ("Found " +:+ Str.of_nat (length relevantComponents) +:+
              " icon and image components")) ;;
     let duplicates := findDuplicates allComponents in
     (if (JsMap.size duplicates =? 0)%nat
      then emit (Console Stdout Green (nl +:+ "No duplicate components found!"))
      else
        emit (Console Stdout Red
                (nl +:+ "Found " +:+ Str.of_nat (JsMap.size duplicates) +:+
                 " component names with duplicates:")) ;;
        emit_all (flat_map (duplicateReport fileId) duplicates) ;;
        emit (Console Stdout Yellow
                (nl +:+ "Please rename these components to ensure they have unique names."))) ;;
     ret (0 <? JsMap.size duplicates)%nat)
    (fun error =>
       emit (SpinnerFail "Error fetching components from Figma") ;;
       handleApiError error ;;
       process_exit 1).

Definition lift {A} (r : Result A) : M A :=
  match r with inl e => throw e | inr v => ret v end.

(** [getImageUrls(fileId, components, format = 'svg', scale = 1, platform)] *)
Definition getImageUrls (fileId : string) (components : list Component)
    (format : string) (scale : Q) (platform : string) : M (string -> option string) :=
  try_catch
    (let componentIds := Str.join "," (map c_id components) in
     images <- request_of (GetImages fileId componentIds format scale)
                 (fun t => figma_get_images world t fileId componentIds format scale) ;;
     match images with
     | None =>
         throw (Error ("No image URLs returned from Figma API (format: " +:+ format +:+
                       ", scale: " +:+ number_toString world scale +:+ ")"))
     | Some urls => ret urls
     end)
    (fun error => handleApiError error ;; throw error).

(** [downloadSvg(url)] *)
Definition downloadSvg (url : string) : M string :=
  try_catch
    (request_of (HttpGet url) (fun t => axios_get world t url))
    (fun error =>
       emit (Console Stderr Red ("Error downloading SVG: " +:+ message error)) ;;
       throw error).

(** [optimizeSvg(svgContent)] *)
Definition optimizeSvg (svgContent : string) : M string :=
  try_catch
    (lift (svgo_optimize world svgContent))
    (fun error =>
       emit (Console Stderr Red ("Error optimizing SVG: " +:+ message error)) ;;
       ret svgContent).

(** [convertSvgForPlatform(svgContent, platform)] *)
Definition convertSvgForPlatform (svgContent platform : string) : M string :=
  try_catch
    (if String.eqb platform "android"
     then lift (svg2vectordrawable world svgContent)
     else ret svgContent)
    (fun error =>
       emit (Console Stderr Red
               ("Error converting SVG for " +:+ platform +:+ ": " +:+ message error)) ;;
       throw error).

(** [downloadImage(url)] *)
Definition downloadImage (url : string) : M string :=
  try_catch
    (request_of (HttpGet url) (fun t => axios_get world t url))
    (fun error =>
       emit (Console Stderr Red ("Error downloading image: " +:+ message error)) ;;
       throw error).

(** [path.join(root, segment)] on a configured root: [path.join] throws
    a [TypeError] when an argument is not a string. *)
Definition pathTypeError : JsError :=
  Error ("The " +:+ dquote +:+ "path" +:+ dquote +:+
         " argument must be of type string. Received undefined").

Definition path_join_root (root : option string) (segment : string) : M Path :=
  match root with
  | Some directory => ret (path_join [directory] segment)
  | None => throw pathTypeError
  end.

Definition ensureDir (p : Path) : M unit :=
  fs_op (EnsureDir p) (fun t => fs_ensureDir world t p).

Definition emptyDir (p : Path) : M unit :=
  fs_op (EmptyDir p) (fun t => fs_emptyDir world t p).

Definition writeFile (p : Path) (content : FileContent) : M unit :=
  fs_op (WriteFile p content) (fun t => fs_writeFile world t p content).

(** [name.replace(prefix, '').replace(/\s+/g, '_').toLowerCase()] *)
Definition sanitizedName (name pfx : string) : string :=
  toLowerCase world (replace_whitespace_runs world (Str.replace name pfx "")).

(** [(${counter}/${total})] *)
Definition progress (counter total : nat) : string :=
  "(" +:+ Str.of_nat counter +:+ "/" +:+ Str.of_nat total +:+ ")".

(** *** Icons *)

(** The body of the loop of [processIcons] for one component; it
    returns the new [processedComponentNames]. *)
Definition processIcon (config : Config) (iconUrls : string -> option string)
    (totalIcons : nat) (component : Component) (iconCounter : nat)
    (processedComponentNames : list string) : M (list string) :=
  match Str.truthy (iconUrls (c_id component)) with
  | Some imageUrl =>
      emit (SpinnerStart ("Processing icon " +:+ progress iconCounter totalIcons +:+ ": " +:+
                          c_name component)) ;;
      try_catch
        (let fileName := icons_prefix config +:+ sanitizedName (c_name component) "icon/" in
         svgContent <- downloadSvg imageUrl ;;
         optimizedSvg <- optimizeSvg svgContent ;;
         (if String.eqb (platform config) "android"
          then
            xmlContent <- convertSvgForPlatform optimizedSvg "android" ;;
            drawablePath <- path_join_root (icons_path config) "drawable" ;;
            ensureDir drawablePath ;;
            writeFile (path_join drawablePath (fileName +:+ ".xml")) (Utf8 xmlContent)
          else
            assetPath <- path_join_root (icons_path config) (fileName +:+ ".imageset") ;;
            ensureDir assetPath ;;
            emptyDir assetPath ;;
            writeFile (path_join assetPath (fileName +:+ ".svg")) (Utf8 optimizedSvg) ;;
            writeFile (path_join assetPath "Contents.json")
              (Manifest (createContentsJson fileName (images_format config)))) ;;
         emit (SpinnerSucceed ("Icon saved " +:+ progress iconCounter totalIcons +:+ ": " +:+
                               fileName)) ;;
         ret (set_add (c_name component) processedComponentNames))
        (fun error =>
           emit (SpinnerFail ("Failed to process icon " +:+ progress iconCounter totalIcons +:+
                              ": " +:+ c_name component)) ;;
           emit (Console Stderr Red (message error)) ;;
           ret processedComponentNames)
  | None =>
      emit (Console Stderr Red
              ("No image URL found for icon " +:+ progress iconCounter totalIcons +:+ ": " +:+
               c_name component)) ;;
      ret processedComponentNames
  end.

(** [for (const component of iconComponents)] *)
Fixpoint iconLoop (config : Config) (iconUrls : string -> option string)
    (totalIcons : nat) (iconComponents : list Component) (iconCounter : nat)
    (processedComponentNames : list string) : M (list string) :=
  match iconComponents with
  | [] => ret processedComponentNames
  | component :: rest =>
      names <- processIcon config iconUrls totalIcons component (iconCounter + 1)
                 processedComponentNames ;;
      iconLoop config iconUrls totalIcons rest (iconCounter + 1) names
  end.

(** [processIcons(components, fileId, config)] *)
Definition processIcons (components : list Component) (fileId : string)
    (config : Config) : M (list string) :=
  let iconComponents :=
    List.filter (fun component => Str.startsWith (c_name component) "icon/") components in
  if (length iconComponents =? 0)%nat then ret []
  else
    emit (Console Stdout Yellow
            (nl +:+ "Processing " +:+ Str.of_nat (length iconComponents) +:+ " icons...")) ;;
    emit (SpinnerStart "Getting image URLs from Figma...") ;;
    urls <- try_catch
              (iconUrls <- getImageUrls fileId iconComponents "svg" 1 (platform config) ;;
               emit (SpinnerSucceed "Successfully retrieved image URLs") ;;
               ret (Some iconUrls))
              (fun error =>
                 emit (SpinnerFail "Error getting image URLs from Figma") ;;
                 emit (Console Stderr Red (message error)) ;;
                 ret None) ;;
    match urls with
    | None => ret []
    | Some iconUrls =>
        iconLoop config iconUrls (length iconComponents) iconComponents 0 []
    end.
(** *** Images *)

(** [Object.keys(ANDROID_DPI_SCALES).filter(dpi =>
      !config.images.skipDpi || !config.images.skipDpi.includes(dpi))] *)
Definition dpisToProcess (config : Config) : list string :=
  List.filter
    (fun dpi =>
       match images_skipDpi config with
       | None => true
       | Some skip => negb (Str.mem dpi skip)
       end)
    (JsMap.keys ANDROID_DPI_SCALES).

(** [ANDROID_DPI_SCALES[dpi]] *)
Definition scaleOf (dpi : string) : Q :=
  match JsMap.get dpi ANDROID_DPI_SCALES with Some scale => scale | None => 0%Q end.

(** The body of the Android loop over [dpisToProcess]; it returns
    whether it set [failed]. *)
Definition processDpi (config : Config) (fileId : string) (component : Component)
    (fileNameBase : string) (imageCounter totalImages : nat) (dpi : string) : M bool :=
  let scale := scaleOf dpi in
  emit (SpinnerStart ("Processing image " +:+ progress imageCounter totalImages +:+ ": " +:+
                      c_name component +:+ " [" +:+ dpi +:+ "]")) ;;
  try_catch
    (drawablePath <- path_join_root (images_path config) ("drawable-" +:+ dpi) ;;
     ensureDir drawablePath ;;
     let fileName := fileNameBase +:+ "." +:+ images_format config in
     let filePath := path_join drawablePath fileName in
     imageUrls <- getImageUrls fileId [component] "png" scale (platform config) ;;
     match Str.truthy (imageUrls (c_id component)) with
     | None =>
         emit (SpinnerFail ("No image URL found for image " +:+
                            progress imageCounter totalImages +:+ " [" +:+ dpi +:+ "]: " +:+
                            c_name component)) ;;
         ret true
     | Some imageUrl =>
         downloaded <- downloadImage imageUrl ;;
         processedImage <-
           (if String.eqb (images_format config) "webp"
            then lift (sharp_webp world downloaded (images_quality config))
            else ret downloaded) ;;
         writeFile filePath (Buffer processedImage) ;;
         emit (SpinnerSucceed ("Image saved " +:+ progress imageCounter totalImages +:+ ": " +:+
                               fileNameBase +:+ " [" +:+ dpi +:+ "]")) ;;
         ret false
     end)
    (fun error =>
       emit (SpinnerFail ("Failed to process image " +:+ progress imageCounter totalImages +:+
                          ": " +:+ c_name component +:+ " [" +:+ dpi +:+ "]")) ;;
       emit (Console Stderr Red (message error)) ;;
       ret true).

(** [for (const dpi of dpisToProcess)], threading [failed]. *)
Fixpoint dpiLoop (config : Config) (fileId : string) (component : Component)
    (fileNameBase : string) (imageCounter totalImages : nat) (dpis : list string)
    (failed : bool) : M bool :=
  match dpis with
  | [] => ret failed
  | dpi :: rest =>
      failedHere <- processDpi config fileId component fileNameBase imageCounter
                      totalImages dpi ;;
      dpiLoop config fileId component fileNameBase imageCounter totalImages rest
        (failed || failedHere)
  end.

(** The name of the file of one iOS scale. *)
Definition scaleFileName (fileNameBase scale : string) : string :=
  if Str.startsWith scale "ipad_"
  then
    let ipadScale := Str.replace scale "ipad_" "" in
    if String.eqb ipadScale "1x"
    then fileNameBase +:+ "~ipad"
    else fileNameBase +:+ "~ipad@" +:+ ipadScale
  else
    if String.eqb scale "1x"
    then fileNameBase
    else fileNameBase +:+ "@" +:+ scale.

(** The body of the iOS loop over [Object.entries(IOS_SCALES)]. *)
Definition processScale (config : Config) (fileId : string) (component : Component)
    (fileNameBase : string) (assetPath : Path) (imageCounter totalImages : nat)
    (entry : string * Q) : M bool :=
  let scale := fst entry in
  let factor := snd entry in
  emit (SpinnerStart ("Processing image " +:+ progress imageCounter totalImages +:+ ": " +:+
                      c_name component +:+ " [" +:+ scale +:+ "]")) ;;
  imageUrls <- getImageUrls fileId [component] (images_format config) factor
                 (platform config) ;;
  match Str.truthy (imageUrls (c_id component)) with
  | None =>
      emit (Console Stderr Red
              ("No image URL found for image " +:+ progress imageCounter totalImages +:+
               " [" +:+ scale +:+ "]: " +:+ c_name component)) ;;
      ret true
  | Some imageUrl =>
      try_catch
        (let filePath :=
           path_join assetPath
             (scaleFileName fileNameBase scale +:+ "." +:+ images_format config) in
         processedImage <- downloadImage imageUrl ;;
         writeFile filePath (Buffer processedImage) ;;
         emit (SpinnerSucceed ("Image saved " +:+ progress imageCounter totalImages +:+ ": " +:+
                               fileNameBase +:+ " [" +:+ scale +:+ "]")) ;;
         ret false)
        (fun error =>
           emit (SpinnerFail ("Failed to process image " +:+
                              progress imageCounter totalImages +:+ ": " +:+
                              c_name component +:+ " [" +:+ scale +:+ "]")) ;;
           emit (Console Stderr Red (message error)) ;;
           ret true)
  end.

Fixpoint scaleLoop (config : Config) (fileId : string) (component : Component)
    (fileNameBase : string) (assetPath : Path) (imageCounter totalImages : nat)
    (entries : list (string * Q)) (failed : bool) : M bool :=
  match entries with
  | [] => ret failed
  | entry :: rest =>
      failedHere <- processScale config fileId component fileNameBase assetPath
                      imageCounter totalImages entry ;;
      scaleLoop config fileId component fileNameBase assetPath imageCounter totalImages
        rest (failed || failedHere)
  end.

(** The body of the loop of [processImages] for one component. *)
Definition processImage (config : Config) (fileId : string) (totalImages : nat)
    (component : Component) (imageCounter : nat)
    (processedComponentNames : list string) : M (list string) :=
  let fileNameBase := images_prefix config +:+ sanitizedName (c_name component) "img/" in
  failed <-
    (if String.eqb (platform config) "android"
     then dpiLoop config fileId component fileNameBase imageCounter totalImages
            (dpisToProcess config) false
     else
       assetPath <- path_join_root (images_path config) (fileNameBase +:+ ".imageset") ;;
       ensureDir assetPath ;;
       emptyDir assetPath ;;
       failed <- scaleLoop config fileId component fileNameBase assetPath imageCounter
                   totalImages IOS_SCALES false ;;
       writeFile (path_join assetPath "Contents.json")
         (Manifest (createContentsJson fileNameBase (images_format config))) ;;
       ret failed) ;;
  if negb failed
  then ret (set_add (c_name component) processedComponentNames)
  else ret processedComponentNames.

(** [for (const component of imageComponents)] *)
Fixpoint imageLoop (config : Config) (fileId : string) (totalImages : nat)
    (imageComponents : list Component) (imageCounter : nat)
    (processedComponentNames : list string) : M (list string) :=
  match imageComponents with
  | [] => ret processedComponentNames
  | component :: rest =>
      names <- processImage config fileId totalImages component (imageCounter + 1)
                 processedComponentNames ;;
      imageLoop config fileId totalImages rest (imageCounter + 1) names
  end.

(** [processImages(components, fileId, config)] *)
Definition processImages (components : list Component) (fileId : string)
    (config : Config) : M (list string) :=
  let imageComponents :=
    List.filter (fun component => Str.startsWith (c_name component) "img/") components in
  if (length imageComponents =? 0)%nat then ret []
  else
    emit (Console Stdout Yellow
            (nl +:+ "Processing " +:+ Str.of_nat (length imageComponents) +:+ " images...")) ;;
    imageLoop config fileId (length imageComponents) imageComponents 0 [].

(** *** The entry points *)

Definition notProcessedLine (components : list Component) (componentName : string)
    : Event :=
  let componentExists :=
    existsb (fun c => String.eqb (c_name c) componentName) components in
  Console Stdout Red
    ("- " +:+ componentName +:+ (if negb componentExists then " (not found)" else "")).

(** [main()] *)
Definition main : M unit :=
  emit (Console Stdout Blue "Figma Asset Downloader") ;;
  emit (Console Stdout Blue "======================") ;;
  try_catch
    (match loadConfig world with
     | None => process_exit 1
     | Some config =>
         emit (Console Stdout Green
                 ("Loaded configuration for file: " +:+ fileId config)) ;;
         emit (Console Stdout Green ("Platform: " +:+ platform config)) ;;
         if findDuplicate cli
         then
           _ <- findDuplicateComponents (fileId config) (pageId config) (pageName config) ;;
           ret tt
         else
           components <- fetchComponents (fileId config) (componentNames cli)
                           (pageId config) (pageName config) ;;
           processedIconNames <- processIcons components (fileId config) config ;;
           processedImageNames <- processImages components (fileId config) config ;;
           let allProcessedComponentNames :=
             fold_left (fun names name => set_add name names)
               (processedIconNames ++ processedImageNames) [] in
           let unprocessedComponentNames :=
             List.filter
               (fun componentName => negb (Str.mem componentName allProcessedComponentNames))
               (componentNames cli) in
           (if (0 <? length unprocessedComponentNames)%nat
            then
              emit (Console Stdout Red
                      (nl +:+ "The following components were not processed:")) ;;
              emit_all (map (notProcessedLine components) unprocessedComponentNames)
            else ret tt) ;;
           emit (Console Stdout Green (nl +:+ "Asset download and processing complete!"))
     end)
    (fun error =>
       emit (Console Stderr Red ("An error occurred: " +:+ message error)) ;;
       process_exit 1).

Definition usage : list Event :=
  map (Console Stdout Plain)
    [nl +:+ "Usage:";
     "  figma-asset-downloader [options] [componentNames...]";
     nl +:+ "Options:";
     "  -a, --all                Download all components";
     "  -f, --find-duplicate     Find and list all duplicate components";
     "  -s, --section <section>  Download components from a specific section";
     "  -V, --version            Output the version number";
     "  -h, --help               Display help for command";
     nl +:+ "Examples:";
     "  figma-asset-downloader icon/home      # Download a specific icon";
     "  figma-asset-downloader img/banner     # Download a specific image";
     "  figma-asset-downloader icon/home img/logo    # Download multiple components";
     "  figma-asset-downloader --all                 # Download all components";
     "  figma-asset-downloader --find-duplicate      # Find and list all duplicate components";
     "  figma-asset-downloader --section=" +:+ dquote +:+ "Section Name" +:+ dquote +:+
       " # Download components from a specific section"].

(** The exit status of a finished run. *)
Definition status {A} (r : Trace * Outcome A) : Z :=
  match snd r with
  | Ret _ => 0
  | Throw _ => 1
  | Exit code => code
  end.

End Program.

(** The script from its first line: the token check, the parsing of the
    command line, the usage screen, then [main()].  Leaving through the
    end is exit status 0. *)
Definition program (world : World) (argv : Argv) : M unit :=
  if negb (Str.is_truthy (FIGMA_TOKEN world))
  then
    emit (Console Stderr Red "Error: Figma token is required") ;;
    emit (Console Stdout Plain "Please set the FIGMA_TOKEN environment variable") ;;
    emit (Console Stdout Plain "Example: export FIGMA_TOKEN=your_figma_api_token") ;;
    process_exit 1
  else
    match argv with
    | Answered text => emit (Console Stdout Plain text) ;; process_exit 0
    | Rejected message => emit (Console Stderr Plain message) ;; process_exit 1
    | Parsed cli =>
        if (length (componentNames cli) =? 0)%nat && negb (downloadAll cli) &&
           negb (findDuplicate cli) && negb (Str.is_truthy (sectionName cli))
        then
          emit (Console Stdout Blue "Figma Asset Downloader") ;;
          emit (Console Stdout Blue "======================") ;;
          emit_all usage ;;
          process_exit 0
        else main world cli
    end.

(** ** The single-page variant (v1.0.7)

    The older command line takes one page identifier and has no section
    option; its name resolution is the one of v1.2.0. *)

Module Legacy.

(** The local function [findPage] of [extractComponents]: the first
    node, in document order, whose identifier is [pageId]. *)
Fixpoint findPage (pageId : string) (node : Node) {struct node} : option Node :=
  if String.eqb (node_id node) pageId then Some node
  else
    (fix each (cs : list Node) {struct cs} : option Node :=
       match cs with
       | [] => None
       | child :: rest =>
           match findPage pageId child with
           | Some found => Some found
           | None => each rest
           end
       end) (node_children node).

(** [extractComponents(fileData, pageId = '')] *)
Definition extractComponents (fileData : FileData) (pageId : string)
    : list Event * list Component :=
  let search :=
    if String.eqb pageId "" then ([], document fileData)
    else match findPage pageId (document fileData) with
         | Some page =>
             ([Console Stdout Green
                 ("Found page with ID: " +:+ pageId +:+ " (" +:+ show_name (node_name page) +:+
                  ")")],
              page)
         | None =>
             ([Console Stdout Yellow
                 ("Warning: Page with ID " +:+ pageId +:+
                  " not found. Searching the entire file instead.")],
              document fileData)
         end in
  let rootNode := snd search in
  let componentSets := traverseNode rootNode collectSet [] 0 ∅ in
  (fst search, traverseNode rootNode (collectComponent componentSets) [] 0 []).

(** [fetchComponents(fileId, componentNames, pageId = '')] *)
Definition fetchComponents (world : World) (downloadAll : bool) (fileId : string)
    (componentNames : list string) (pageId : string) : M (list Component) :=
  emit (SpinnerStart "Fetching components from Figma...") ;;
  try_catch
    (fileData <- request_of (GetFile fileId) (fun t => figma_get_file world t fileId) ;;
     let extracted := extractComponents fileData pageId in
     emit_all (fst extracted) ;;
     let allComponents := snd extracted in
     filteredComponents <-
       (if (0 <? length componentNames)%nat
        then
          let maps := matchNames allComponents componentNames in
          let nameMap := fst maps in
          let duplicates := snd maps in
          (if (0 <? JsMap.size duplicates)%nat
           then emit (SpinnerFail "Found duplicate components with the same name") ;;
                emit_all (flat_map (ambiguityReport fileId) duplicates) ;;
                process_exit 1
           else ret tt) ;;
          let notFound :=
            List.filter (fun name => negb (JsMap.has name nameMap)) componentNames in
          (if (0 <? length notFound)%nat
           then emit (Console Stdout Yellow
                        ("Warning: The following components were not found: " +:+
                         Str.join ", " notFound))
           else ret tt) ;;
          ret (JsMap.values nameMap)
        else if negb downloadAll
        then emit (SpinnerFail
                     "No component names provided. Use --all flag to download all components.") ;;
             process_exit 1
        else ret allComponents) ;;
     if (length filteredComponents =? 0)%nat
     then emit (SpinnerFail "No components found matching the provided names exactly") ;;
          process_exit 1
     else
       emit (SpinnerSucceed
               ("Found " +:+ Str.of_nat (length filteredComponents) +:+
                " components with exact name matches")) ;;
       ret filteredComponents)
    (fun error =>
       emit (SpinnerFail "Error fetching components from Figma") ;;
       handleApiError error ;;
       process_exit 1).

End Legacy.

(** * Reference notions used in the statements *)

(** ** Occurrences in a tree

    A position is the list of child indices leading from the root to an
    occurrence of a node. *)

(** The node at a position. *)
Fixpoint subtree (node : Node) (pos : list nat) : option Node :=
  match pos with
  | [] => Some node
  | i :: rest =>
      match nth_error (node_children node) i with
      | Some child => subtree child rest
      | None => None
      end
  end.

(** No node on the way from the root down to the position, both ends
    included, is one that [traverseNode] skips. *)
Fixpoint visible (node : Node) (pos : list nat) : bool :=
  negb (skipped node) &&
  match pos with
  | [] => true
  | i :: rest =>
      match nth_error (node_children node) i with
      | Some child => visible child rest
      | None => false
      end
  end.

(** The positions below a node: those of each child, in order, behind the
    child's index. *)
Definition child_positions (below : Node -> list (list nat))
    : list Node -> nat -> list (list nat) :=
  fix each (cs : list Node) (i : nat) {struct cs} : list (list nat) :=
    match cs with
    | [] => []
    | child :: rest => map (cons i) (below child) ++ each rest (i + 1)
    end.

(** Every position of the tree, in document (pre-)order. *)
Fixpoint positions (node : Node) : list (list nat) :=
  [] :: child_positions positions (node_children node) 0.

(** What the visitor is handed for the occurrence at a position: the
    node, the names from the root down to it appended to the initial
    path, and its depth. *)
Fixpoint visit_at (node : Node) (path : list string) (depth : nat) (pos : list nat)
    : option (Node * list string * nat) :=
  match pos with
  | [] => Some (node, path ++ [name_of node], depth)
  | i :: rest =>
      match nth_error (node_children node) i with
      | Some child => visit_at child (path ++ [name_of node]) (depth + 1) rest
      | None => None
      end
  end.

(** Applying the visitor to the occurrence at a position. *)
Definition invoke {St : Type} (callback : Node -> list string -> nat -> St -> St)
    (root : Node) (path : list string) (depth : nat) (s : St) (pos : list nat) : St :=
  match visit_at root path depth pos with
  | Some (node, p, d) => callback node p d s
  | None => s
  end.

(** The sequence of calls a traversal makes, recorded by a visitor that
    appends its arguments. *)
Definition visits (node : Node) (path : list string) (depth : nat)
    : list (Node * list string * nat) :=
  traverseNode node (fun n p d acc => acc ++ [(n, p, d)]) path depth [].

(** ** Extraction *)

(** Every node of a tree in document order, skipped ones included. *)
Fixpoint allNodes (node : Node) : list Node :=
  node :: flat_map allNodes (node_children node).

(** The calls of one traversal pass over the roots. *)
Definition visitsAll (roots : list Node) : list (Node * list string * nat) :=
  flat_map (fun root => visits root [] 0) roots.

Definition isSetVisit (sid : string) (v : Node * list string * nat) : bool :=
  String.eqb (node_type (fst (fst v))) "COMPONENT_SET" &&
  String.eqb (node_id (fst (fst v))) sid.

Definition isComponentVisit (v : Node * list string * nat) : bool :=
  String.eqb (node_type (fst (fst v))) "COMPONENT".

(** The component set collected under an identifier: the last one the
    first pass visits, with the path it was visited at. *)
Definition collectedSet (roots : list Node) (sid : string) : option (Node * list string) :=
  option_map fst (last (List.filter (isSetVisit sid) (visitsAll roots))).

(** ** Names *)

(** The distinct strings of a list, each at its first occurrence. *)
Definition distinct (names : list string) : list string :=
  fold_left (fun seen name => set_add name seen) names [].

Definition ambiguous (allComponents : list Component) (name : string) : bool :=
  (1 <? length (exactMatches allComponents name))%nat.

Definition uniquelyMatched (allComponents : list Component) (name : string) : bool :=
  (length (exactMatches allComponents name) =? 1)%nat.

(** ** Traces *)

(** The directories [fs.ensureDir] was called on, in order. *)
Definition ensureDirs (evs : Trace) : list Path :=
  flat_map (fun ev => match ev with EnsureDir p _ => [p] | _ => [] end) evs.

(** The files [fs.writeFile] wrote, in order. *)
Definition written (evs : Trace) : list Path :=
  flat_map (fun ev => match ev with WriteFile p _ true => [p] | _ => [] end) evs.

(** The files [fs.writeFile] was called on, in order. *)
Definition writeAttempts (evs : Trace) : list Path :=
  flat_map (fun ev => match ev with WriteFile p _ _ => [p] | _ => [] end) evs.

(** Requests for rendered images, downloads and filesystem operations:
    the events of an export. *)
Definition isExport (ev : Event) : bool :=
  match ev with
  | GetImages _ _ _ _ | HttpGet _ | EnsureDir _ _ | EmptyDir _ _ | WriteFile _ _ _ => true
  | _ => false
  end.

(** The configured directory; the empty string stands for an undefined
    path, under which nothing is ever ensured or written. *)
Definition root_of (path : option string) : string :=
  match path with Some directory => directory | None => "" end.

(** A list that is empty when the path is undefined. *)
Definition ifDefined {A} (path : option string) (l : list A) : list A :=
  match path with Some _ => l | None => [] end.

(** The directory of one Android density. *)
Definition drawableDir (config : Config) (dpi : string) : Path :=
  [root_of (images_path config); "drawable-" +:+ dpi].

(** ** Tables, groups and the resolver *)

(** The map holding [f k] under each key [k] of a list. *)
Definition tabulate {V} (f : string -> V) (ks : list string) : list (string * V) :=
  map (fun k => (k, f k)) ks.

(** The same for a partial [g]: keys without a value are left out. *)
Definition tabulate_some {V} (g : string -> option V) (ks : list string)
    : list (string * V) :=
  flat_map (fun k => match g k with Some v => [(k, v)] | None => [] end) ks.

(** The single exact match of a name, when it has exactly one. *)
Definition theMatch (allComponents : list Component) (name : string) : option Component :=
  match exactMatches allComponents name with
  | [only] => Some only
  | _ => None
  end.

(** The first event of [fetchComponents]. *)
Definition startFetch : Event := SpinnerStart "Fetching components from Figma...".

(** What [main] prints before it fetches anything. *)
Definition banner (config : Config) : list Event :=
  [Console Stdout Blue "Figma Asset Downloader";
   Console Stdout Blue "======================";
   Console Stdout Green ("Loaded configuration for file: " +:+ fileId config);
   Console Stdout Green ("Platform: " +:+ platform config)].

Definition isConsole (ev : Event) : bool :=
  match ev with Console _ _ _ => true | _ => false end.

(** The components whose path contains the section name. *)
Definition inSection (section : string) (allComponents : list Component) : list Component :=
  List.filter (fun component => Str.includes (c_path component) section) allComponents.

(** What [fetchComponents] prints about a section that has components. *)
Definition sectionLog (cli : Cli) (allComponents : list Component) : list Event :=
  match Str.truthy (sectionName cli) with
  | Some section =>
      [SpinnerSucceed ("Found " +:+ Str.of_nat (length (inSection section allComponents)) +:+
                       " components in section: " +:+ section)]
  | None => []
  end.

(** The set explicit names resolve to: the single matches of the
    uniquely matched names, each once, in the order of first request. *)
Definition resolvedByName (allComponents : list Component) (names : list string)
    : list Component :=
  flat_map (exactMatches allComponents)
    (distinct (List.filter (uniquelyMatched allComponents) names)).

(** The command line with the section option taken away. *)
Definition withoutSection (cli : Cli) : Cli :=
  {| componentNames := componentNames cli; downloadAll := downloadAll cli;
     findDuplicate := findDuplicate cli; sectionName := None |}.

(** A name in one of the two exported namespaces. *)
Definition relevantName (name : string) : bool :=
  Str.startsWith name "icon/" || Str.startsWith name "img/".

(** The components grouped by name: one group for each distinct name, in
    the order of first occurrence. *)
Definition grouped (l : list Component) : list (string * list Component) :=
  tabulate (exactMatches l) (distinct (map c_name l)).

(** The calls made at a list of positions. *)
Definition callsAt (root : Node) (path : list string) (depth : nat)
    (poss : list (list nat)) : list (Node * list string * nat) :=
  flat_map (fun pos => match visit_at root path depth pos with
                       | Some v => [v]
                       | None => []
                       end) poss.

(** Handing a recorded call to a visitor. *)
Definition replay {St : Type} (callback : Node -> list string -> nat -> St -> St)
    (s : St) (v : Node * list string * nat) : St :=
  callback (fst (fst v)) (snd (fst v)) (snd v) s.

(** Whether page selectors were supplied. *)
Definition selectorsSupplied (pageId pageName : Selector) : bool :=
  (0 <? length (toArray pageId))%nat || (0 <? length (toArray pageName))%nat.

Definition noPagesWarning : Event :=
  Console Stdout Yellow
    "Warning: No pages found matching the specified criteria. Searching the entire file instead.".

(** The file of one Android density. *)
Definition drawableFile (config : Config) (fileNameBase dpi : string) : Path :=
  path_join (drawableDir config dpi) (fileNameBase +:+ "." +:+ images_format config).

(** Every collaborator of the image pipeline answers, and the rendering
    API has a URL for the component. *)
Definition cooperative (world : World) (component : Component) : Prop :=
  (forall t fileId ids format scale,
     exists urls url,
       figma_get_images world t fileId ids format scale = inr (Some urls) /\
       Str.truthy (urls (c_id component)) = Some url) /\
  (forall t url, exists data, axios_get world t url = inr data) /\
  (forall image quality, exists data, sharp_webp world image quality = inr data) /\
  (forall t p, fs_ensureDir world t p = inr tt) /\
  (forall t p content, fs_writeFile world t p content = inr tt).

(** ** What a run exports *)

(** The two namespaces the pipelines select by. *)
Definition isIcon (component : Component) : bool := Str.startsWith (c_name component) "icon/".
Definition isImage (component : Component) : bool := Str.startsWith (c_name component) "img/".

Definition iconFileName (world : World) (config : Config) (component : Component) : string :=
  icons_prefix config +:+ sanitizedName world (c_name component) "icon/".

Definition imageFileName (world : World) (config : Config) (component : Component) : string :=
  images_prefix config +:+ sanitizedName world (c_name component) "img/".

(** The files of an exported icon: the vector drawable on Android, the
    SVG and the manifest of its image set on iOS. *)
Definition iconFiles (world : World) (config : Config) (component : Component) : list Path :=
  let fileName := iconFileName world config component in
  let root := root_of (icons_path config) in
  if String.eqb (platform config) "android"
  then [[root; "drawable"; fileName +:+ ".xml"]]
  else [[root; fileName +:+ ".imageset"; fileName +:+ ".svg"];
        [root; fileName +:+ ".imageset"; "Contents.json"]].

(** The files of an exported image: one for each density that is not
    skipped on Android, one for each scale and the manifest on iOS. *)
Definition imageFiles (world : World) (config : Config) (component : Component) : list Path :=
  let fileNameBase := imageFileName world config component in
  let root := root_of (images_path config) in
  if String.eqb (platform config) "android"
  then map (fun dpi => [root; "drawable-" +:+ dpi;
                        fileNameBase +:+ "." +:+ images_format config])
         (dpisToProcess config)
  else map (fun entry => [root; fileNameBase +:+ ".imageset";
                          scaleFileName fileNameBase (fst entry) +:+ "." +:+
                          images_format config]) IOS_SCALES ++
       [[root; fileNameBase +:+ ".imageset"; "Contents.json"]].

(** The files of one component: none outside the two namespaces. *)
Definition filesOf (world : World) (config : Config) (component : Component) : list Path :=
  if isIcon component then iconFiles world config component
  else if isImage component then imageFiles world config component
  else [].

(** The files of a resolved set: those of its icons, then those of its
    images. *)
Definition exportedFiles (world : World) (config : Config) (components : list Component)
    : list Path :=
  flat_map (iconFiles world config) (List.filter isIcon components) ++
  flat_map (imageFiles world config) (List.filter isImage components).

(** The names of the given components added to a list of processed
    names. *)
Definition addNames (components : list Component) (processed : list string) : list string :=
  fold_left (fun names name => set_add name names) (map c_name components) processed.

(** Every collaborator of the two pipelines answers for the given
    components: the rendering API has a URL for each of them, downloads,
    conversions and filesystem operations succeed. *)
Definition cooperativeRun (world : World) (components : list Component) : Prop :=
  (forall component, In component components -> cooperative world component) /\
  (forall svg, exists xml, svg2vectordrawable world svg = inr xml) /\
  (forall t p, fs_emptyDir world t p = inr tt).

(** Filesystem operations. *)
Definition isFs (ev : Event) : bool :=
  match ev with
  | EnsureDir _ _ | EmptyDir _ _ | WriteFile _ _ _ => true
  | _ => false
  end.

Definition noFs (evs : Trace) : Prop := forallb (fun ev => negb (isFs ev)) evs = true.

(** The set a run resolves to before [fetchComponents] checks that it is
    not empty: by name when names are requested, else the components of
    the section when one is given, else every component. *)
Definition resolvedSet (cli : Cli) (allComponents : list Component) : list Component :=
  if (0 <? length (componentNames cli))%nat
  then resolvedByName allComponents (componentNames cli)
  else match Str.truthy (sectionName cli) with
       | Some section => inSection section allComponents
       | None => allComponents
       end.

(** The names [main] reports as not processed. *)
Definition unprocessed (cli : Cli) (processedIconNames processedImageNames : list string)
    : list string :=
  List.filter
    (fun componentName =>
       negb (Str.mem componentName
               (fold_left (fun names name => set_add name names)
                  (processedIconNames ++ processedImageNames) [])))
    (componentNames cli).

(** What [main] prints after the pipelines. *)
Definition closingReport (cli : Cli) (components : list Component)
    (processedIconNames processedImageNames : list string) : list Event :=
  (if (0 <? length (unprocessed cli processedIconNames processedImageNames))%nat
   then Console Stdout Red (nl +:+ "The following components were not processed:")
        :: map (notProcessedLine components)
             (unprocessed cli processedIconNames processedImageNames)
   else []) ++
  [Console Stdout Green (nl +:+ "Asset download and processing complete!")].

(** ** Sample data *)

Module Sample.

Definition node (id name type : string) (children : list Node) : Node :=
  mkNode id (Some name) type children None None None.

Definition variant (id name setId : string) : Node :=
  mkNode id (Some name) "COMPONENT" [] None None (Some setId).

(** A component as [extractComponents] builds it for a COMPONENT named
    [name] directly under the page [page]. *)
Definition component (id name page : string) : Component :=
  {| c_id := id; c_name := name; c_path := page +:+ " / " +:+ name;
     c_type := "COMPONENT"; c_description := ""; c_width := None; c_height := None;
     c_componentSetId := None; c_componentSet := None |}.

Definition lower (c : ascii) : ascii :=
  let n := N_of_ascii c in
  if Str.between 65 90 n then ascii_of_N (n + 32) else c.

(** [toLowerCase] on ASCII text. *)
Fixpoint ascii_toLowerCase (s : string) : string :=
  match s with
  | EmptyString => EmptyString
  | String c rest => String (lower c) (ascii_toLowerCase rest)
  end.

Definition isSpace (c : ascii) : bool :=
  let n := N_of_ascii c in Str.between 9 13 n || N.eqb n 32.

(** [replace(/\s+/g, '_')] on ASCII text. *)
Fixpoint ascii_replace_whitespace (s : string) : string :=
  match s with
  | EmptyString => EmptyString
  | String c rest =>
      if isSpace c
      then match rest with
           | String c' _ =>
               if isSpace c' then ascii_replace_whitespace rest
               else String "_" (ascii_replace_whitespace rest)
           | EmptyString => String "_" EmptyString
           end
      else String c (ascii_replace_whitespace rest)
  end.

Definition android : Config :=
  {| fileId := "FILE"; pageId := SelStr ""; pageName := SelStr "";
     platform := "android";
     icons_path := Some "res"; icons_prefix := "ic_";
     images_path := Some "res"; images_format := "webp"; images_quality := 90;
     images_prefix := "img_"; images_skipDpi := Some ["ldpi"; "mdpi"] |}.

Definition ios : Config :=
  {| fileId := "FILE"; pageId := SelStr ""; pageName := SelStr "";
     platform := "ios";
     icons_path := Some "Assets.xcassets"; icons_prefix := "";
     images_path := Some "Assets.xcassets"; images_format := "png"; images_quality := 90;
     images_prefix := ""; images_skipDpi := None |}.

(** A world in which every collaborator answers. *)
Definition world (doc : Node) (config : Config) : World :=
  {| FIGMA_TOKEN := Some "token";
     loadConfig := Some config;
     figma_get_file := fun _ _ => inr {| document := doc |};
     figma_get_images := fun _ _ _ _ _ => inr (Some (fun id => Some ("https://cdn/" +:+ id)));
     axios_get := fun _ url => inr ("<" +:+ url +:+ ">");
     svgo_optimize := fun svg => inr svg;
     svg2vectordrawable := fun svg => inr ("<vector>" +:+ svg +:+ "</vector>");
     sharp_webp := fun image _ => inr image;
     fs_ensureDir := fun _ _ => inr tt;
     fs_emptyDir := fun _ _ => inr tt;
     fs_writeFile := fun _ _ _ => inr tt;
     replace_whitespace_runs := ascii_replace_whitespace;
     toLowerCase := ascii_toLowerCase;
     number_toString := fun _ => "1" |}.

(** The same world, except that the rendering API answers a request
    at scale [bad] with a server error. *)
Definition worldFailingAt (bad : Q) (doc : Node) (config : Config) : World :=
  {| FIGMA_TOKEN := Some "token";
     loadConfig := Some config;
     figma_get_file := fun _ _ => inr {| document := doc |};
     figma_get_images := fun _ _ _ _ scale =>
       if Qeq_bool scale bad
       then inl {| message := "Request failed with status code 500";
                   response := Some (500%Z, "{}"); request := true |}
       else inr (Some (fun id => Some ("https://cdn/" +:+ id)));
     axios_get := fun _ url => inr ("<" +:+ url +:+ ">");
     svgo_optimize := fun svg => inr svg;
     svg2vectordrawable := fun svg => inr ("<vector>" +:+ svg +:+ "</vector>");
     sharp_webp := fun image _ => inr image;
     fs_ensureDir := fun _ _ => inr tt;
     fs_emptyDir := fun _ _ => inr tt;
     fs_writeFile := fun _ _ _ => inr tt;
     replace_whitespace_runs := ascii_replace_whitespace;
     toLowerCase := ascii_toLowerCase;
     number_toString := fun _ => "1" |}.

Definition names (requested : list string) : Cli :=
  {| componentNames := requested; downloadAll := false; findDuplicate := false;
     sectionName := None |}.

Definition namesInSection (requested : list string) (section : string) : Cli :=
  {| componentNames := requested; downloadAll := false; findDuplicate := false;
     sectionName := Some section |}.

(** A document with one page holding the given nodes. *)
Definition doc (children : list Node) : Node :=
  node "0:0" "Document" "DOCUMENT" [node "0:1" "Page 1" "CANVAS" children].

End Sample.

(** ** Sample documents *)

Module Docs.

(** Two images on one page. *)
Definition twoImages : Node :=
  Sample.doc [Sample.node "1:2" "img/banner" "COMPONENT" [];
              Sample.node "1:3" "img/logo" "COMPONENT" []].

(** One icon. *)
Definition oneIcon : Node :=
  Sample.doc [Sample.node "1:2" "icon/home" "COMPONENT" []].

(** Two distinct components both named [icon/a]. *)
Definition sameIconTwice : Node :=
  Sample.doc [Sample.node "1:2" "icon/a" "COMPONENT" [];
              Sample.node "1:3" "icon/a" "COMPONENT" []].

(** Two distinct components both named [button/x]. *)
Definition sameButtonTwice : Node :=
  Sample.doc [Sample.node "1:2" "button/x" "COMPONENT" [];
              Sample.node "1:3" "button/x" "COMPONENT" []].

(** A component set whose identifier is the empty string, and a
    variant that names it. *)
Definition emptySetId : Node :=
  Sample.doc [Sample.node "" "Button" "COMPONENT_SET" [Sample.variant "1:3" "state=on" ""]].

(** A component set and its variant. *)
Definition buttonSet : Node :=
  Sample.doc [Sample.node "1:2" "Button" "COMPONENT_SET"
                [Sample.variant "1:3" "state=on" "1:2"]].

Definition file (doc : Node) : FileData := {| document := doc |}.

End Docs.
(** ** Further reference notions *)

(** The names of the nodes from the root down to a position. *)
Fixpoint namesAlong (node : Node) (pos : list nat) : list string :=
  name_of node ::
  match pos with
  | [] => []
  | i :: rest =>
      match nth_error (node_children node) i with
      | Some child => namesAlong child rest
      | None => []
      end
  end.

(** A document whose only page is hidden. *)
Definition hiddenPageDoc : Node :=
  Sample.node "0:0" "Document" "DOCUMENT"
    [Sample.node "0:1" "#Archive" "CANVAS"
       [Sample.node "1:2" "icon/old" "COMPONENT" []]].

(** The field of a JSON object. *)
Definition field (key : string) (j : Json) : option Json :=
  match j with
  | JObject fields => JsMap.get key fields
  | _ => None
  end.

(** The file names a [Contents.json] manifest lists. *)
Definition manifestFilenames (j : Json) : list string :=
  match field "images" j with
  | Some (JArray items) =>
      flat_map (fun item => match field "filename" item with
                            | Some (JString name) => [name]
                            | _ => []
                            end) items
  | _ => []
  end.

(** The first event of [findDuplicateComponents]. *)
Definition startDuplicates : Event :=
  SpinnerStart "Fetching components from Figma to find duplicates...".

(** What [findDuplicateComponents] prints once it has the components. *)
Definition duplicatesOutput (fileId : string) (allComponents : list Component)
    : list Event :=
  SpinnerSucceed
    ("Found " +:+ Str.of_nat (length (List.filter isRelevant allComponents)) +:+
     " icon and image components")
  :: (if (JsMap.size (findDuplicates allComponents) =? 0)%nat
      then [Console Stdout Green (nl +:+ "No duplicate components found!")]
      else
        Console Stdout Red
          (nl +:+ "Found " +:+ Str.of_nat (JsMap.size (findDuplicates allComponents)) +:+
           " component names with duplicates:")
        :: flat_map (duplicateReport fileId) (findDuplicates allComponents) ++
        [Console Stdout Yellow
           (nl +:+ "Please rename these components to ensure they have unique names.")]).

(** The start of one iOS variant. *)
Definition startScale (component : Component) (imageCounter totalImages : nat)
    (scale : string) : Event :=
  SpinnerStart ("Processing image " +:+ progress imageCounter totalImages +:+ ": " +:+
                c_name component +:+ " [" +:+ scale +:+ "]").

(** ** Further sample data *)

Module Cases.

(** An Android configuration whose skip-list names every density. *)
Definition androidSkippingAll : Config :=
  {| fileId := "FILE"; pageId := SelStr ""; pageName := SelStr "";
     platform := "android";
     icons_path := Some "res"; icons_prefix := "ic_";
     images_path := Some "res"; images_format := "webp"; images_quality := 90;
     images_prefix := "img_";
     images_skipDpi := Some ["ldpi"; "mdpi"; "hdpi"; "xhdpi"; "xxhdpi"; "xxxhdpi"] |}.

(** The configuration [loadConfig] leaves on Android when the [images]
    block gives a skip-list and no path. *)
Definition androidWithoutImagesPath : Config :=
  {| fileId := "FILE"; pageId := SelStr ""; pageName := SelStr "";
     platform := "android";
     icons_path := Some "res"; icons_prefix := "ic_";
     images_path := None; images_format := "webp"; images_quality := 90;
     images_prefix := "img_"; images_skipDpi := Some ["ldpi"; "mdpi"] |}.

(** An icon and a component outside the two namespaces. *)
Definition iconAndButton : Node :=
  Sample.doc [Sample.node "1:2" "icon/home" "COMPONENT" [];
              Sample.node "1:3" "button/ok" "COMPONENT" []].

(** Two pages: an icon on the first, an icon and a component outside
    the two namespaces on the second. *)
Definition twoPages : Node :=
  Sample.node "0:0" "Document" "DOCUMENT"
    [Sample.node "0:1" "Page 1" "CANVAS" [Sample.node "1:2" "icon/home" "COMPONENT" []];
     Sample.node "0:2" "Page 2" "CANVAS"
       [Sample.node "2:2" "icon/away" "COMPONENT" [];
        Sample.node "2:3" "button/ok" "COMPONENT" []]].

(** The command line [--find-duplicate]. *)
Definition findDuplicates : Cli :=
  {| componentNames := []; downloadAll := false; findDuplicate := true;
     sectionName := None |}.

(** The world of [Sample.world], except that SVGO fails. *)
Definition worldWithoutSvgo (doc : Node) (config : Config) : World :=
  {| FIGMA_TOKEN := Some "token";
     loadConfig := Some config;
     figma_get_file := fun _ _ => inr {| document := doc |};
     figma_get_images := fun _ _ _ _ _ => inr (Some (fun id => Some ("https://cdn/" +:+ id)));
     axios_get := fun _ url => inr ("<" +:+ url +:+ ">");
     svgo_optimize := fun _ => inl (Error "svgo failed");
     svg2vectordrawable := fun svg => inr ("<vector>" +:+ svg +:+ "</vector>");
     sharp_webp := fun image _ => inr image;
     fs_ensureDir := fun _ _ => inr tt;
     fs_emptyDir := fun _ _ => inr tt;
     fs_writeFile := fun _ _ _ => inr tt;
     replace_whitespace_runs := Sample.ascii_replace_whitespace;
     toLowerCase := Sample.ascii_toLowerCase;
     number_toString := fun _ => "1" |}.

End Cases.

(** ** The configuration file (v1.2.0)

    [loadConfig] reads one of two YAML files, checks the two required
    keys and fills in the defaults of the platform.  [yaml.load] is a
    collaborator; the keys it returns are taken to have the types the
    README gives them (strings, a number for [quality], a string or an
    array of strings for the page selectors); a key that is absent or
    null is [None].  The assignment to the undeclared [configPath] has
    no effect in a CommonJS script and is left out. *)

Module ConfigFile.

Definition NEW_CONFIG_PATH : string := ".figma/figma-asset-downloader.config.yaml".
Definition OLD_CONFIG_PATH : string := ".figma/asset_download.yaml".

(** [config.icons] *)
Record Icons := {
  i_path : option string;
  i_prefix : option string
}.

(** [config.images] *)
Record Images := {
  m_path : option string;
  m_format : option string;
  m_quality : option Z;
  m_prefix : option string;
  m_skipDpi : option (list string)
}.

(** The object [loadConfig] works on and returns. *)
Record Settings := {
  s_fileId : option string;
  s_platform : option string;
  s_pageId : option Selector;
  s_pageName : option Selector;
  s_icons : option Icons;
  s_images : option Images
}.

(** What [yaml.load] returns: [undefined] or [null], a mapping, or any
    other value (a scalar or a sequence), which has none of the keys. *)
Inductive Yaml :=
| Nullish
| Mapping (settings : Settings)
| Other.

(** The collaborators of [loadConfig].  [typeError] is the error the
    engine throws when a property of [undefined] or [null] is read. *)
Record Disk := {
  existsSync : string -> bool;
  readFileSync : string -> Result string;
  yaml_load : string -> Result Yaml;
  typeError : JsError
}.

(** Truthiness of a page selector: an array is truthy even when empty. *)
Definition selector_truthy (o : option Selector) : bool :=
  match o with
  | Some (SelStr s) => negb (String.eqb s "")
  | Some (SelArr _) => true
  | None => false
  end.

(** Truthiness of a number. *)
Definition number_truthy (o : option Z) : bool :=
  match o with
  | Some n => negb (n =? 0)%Z
  | None => false
  end.

(** [if (!x) x = d] on a string key. *)
Definition string_or (o : option string) (d : string) : option string :=
  if Str.is_truthy o then o else Some d.

(** [config.platform === 'android'] *)
Definition isAndroid (settings : Settings) : bool :=
  match s_platform settings with
  | Some platform => String.eqb platform "android"
  | None => false
  end.

(** The defaults of Android. *)
Definition androidDefaults (settings : Settings) : Settings :=
  let icons :=
    match s_icons settings with
    | Some icons => icons
    | None => {| i_path := Some "res"; i_prefix := None |}
    end in
  let images :=
    match s_images settings with
    | Some images => images
    | None => {| m_path := Some "res"; m_format := Some "webp"; m_quality := Some 90%Z;
                 m_prefix := None; m_skipDpi := None |}
    end in
  {| s_fileId := s_fileId settings; s_platform := s_platform settings;
     s_pageId := s_pageId settings; s_pageName := s_pageName settings;
     s_icons := Some {| i_path := i_path icons;
                        i_prefix := string_or (i_prefix icons) "ic_" |};
     s_images := Some {| m_path := m_path images;
                         m_format := string_or (m_format images) "webp";
                         m_quality := if number_truthy (m_quality images)
                                      then m_quality images else Some 90%Z;
                         m_prefix := string_or (m_prefix images) "img_";
                         m_skipDpi := m_skipDpi images |} |}.

(** The defaults of iOS. *)
Definition iosDefaults (settings : Settings) : Settings :=
  let icons :=
    match s_icons settings with
    | Some icons => icons
    | None => {| i_path := None; i_prefix := None |}
    end in
  let images :=
    match s_images settings with
    | Some images => images
    | None => {| m_path := None; m_format := None; m_quality := None;
                 m_prefix := None; m_skipDpi := None |}
    end in
  {| s_fileId := s_fileId settings; s_platform := s_platform settings;
     s_pageId := s_pageId settings; s_pageName := s_pageName settings;
     s_icons := Some {| i_path := string_or (i_path icons) "Assets.xcassets";
                        i_prefix := string_or (i_prefix icons) "" |};
     s_images := Some {| m_path := string_or (m_path images) "Assets.xcassets";
                         m_format := string_or (m_format images) "png";
                         m_quality := if number_truthy (m_quality images)
                                      then m_quality images else Some 90%Z;
                         m_prefix := string_or (m_prefix images) "";
                         m_skipDpi := m_skipDpi images |} |}.

(** The part of [loadConfig] after the validation: the defaults of the
    page selectors, then those of the platform. *)
Definition withDefaults (settings : Settings) : Settings :=
  let paged :=
    {| s_fileId := s_fileId settings; s_platform := s_platform settings;
       s_pageId := if selector_truthy (s_pageId settings) then s_pageId settings
                   else Some (SelStr "");
       s_pageName := if selector_truthy (s_pageName settings) then s_pageName settings
                     else Some (SelStr "");
       s_icons := s_icons settings; s_images := s_images settings |} in
  if isAndroid settings then androidDefaults paged else iosDefaults paged.

(** [loadConfig()] *)
Definition loadConfig (disk : Disk) : M Settings :=
  try_catch
    (configFile <-
       (if existsSync disk NEW_CONFIG_PATH
        then
          configFile <- lift (readFileSync disk NEW_CONFIG_PATH) ;;
          emit (Console Stdout Green
                  ("Using configuration file from: " +:+ NEW_CONFIG_PATH)) ;;
          ret configFile
        else if existsSync disk OLD_CONFIG_PATH
        then
          configFile <- lift (readFileSync disk OLD_CONFIG_PATH) ;;
          emit (Console Stdout Green
                  ("Using configuration file from: " +:+ OLD_CONFIG_PATH)) ;;
          ret configFile
        else
          emit (Console Stderr Red
                  ("Error: Configuration file not found at " +:+ NEW_CONFIG_PATH +:+
                   " or " +:+ OLD_CONFIG_PATH)) ;;
          emit (Console Stdout Plain
                  "Please create a configuration file as described in the README") ;;
          process_exit 1) ;;
     config <- lift (yaml_load disk configFile) ;;
     match config with
     | Nullish => throw (typeError disk)
     | Other =>
         emit (Console Stderr Red "Error: fileId is required in the configuration file") ;;
         process_exit 1
     | Mapping settings =>
         if negb (Str.is_truthy (s_fileId settings))
         then emit (Console Stderr Red
                      "Error: fileId is required in the configuration file") ;;
              process_exit 1
         else if negb (Str.is_truthy (s_platform settings))
         then emit (Console Stderr Red
                      "Error: platform is required in the configuration file") ;;
              process_exit 1
         else if negb (match s_platform settings with
                       | Some platform => Str.mem platform ["android"; "ios"]
                       | None => false
                       end)
         then emit (Console Stderr Red
                      ("Error: platform must be either " +:+ dquote +:+ "android" +:+
                       dquote +:+ " or " +:+ dquote +:+ "ios" +:+ dquote)) ;;
              process_exit 1
         else ret (withDefaults settings)
     end)
    (fun error =>
       emit (Console Stderr Red ("Error loading configuration: " +:+ message error)) ;;
       process_exit 1).

(** The file [loadConfig] reads: the new path when it exists, else the
    old one. *)
Definition configPath (disk : Disk) : option string :=
  if existsSync disk NEW_CONFIG_PATH then Some NEW_CONFIG_PATH
  else if existsSync disk OLD_CONFIG_PATH then Some OLD_CONFIG_PATH
  else None.

(** A mapping that passes the validation. *)
Definition valid (settings : Settings) : Prop :=
  Str.is_truthy (s_fileId settings) = true /\
  (s_platform settings = Some "android" \/ s_platform settings = Some "ios").

(** The configuration as the rest of the program reads it, when every
    key it reads is defined. *)
Definition toConfig (settings : Settings) : option Config :=
  match s_fileId settings, s_platform settings, s_pageId settings, s_pageName settings,
        s_icons settings, s_images settings with
  | Some fileId, Some platform, Some pageId, Some pageName, Some icons, Some images =>
      match i_path icons, i_prefix icons, m_path images, m_format images,
            m_quality images, m_prefix images with
      | Some iconsPath, Some iconsPrefix, Some imagesPath, Some format, Some quality,
        Some imagesPrefix =>
          Some {| fileId := fileId; pageId := pageId; pageName := pageName;
                  platform := platform;
                  icons_path := Some iconsPath; icons_prefix := iconsPrefix;
                  images_path := Some imagesPath; images_format := format;
                  images_quality := quality; images_prefix := imagesPrefix;
                  images_skipDpi := m_skipDpi images |}
      | _, _, _, _, _, _ => None
      end
  | _, _, _, _, _, _ => None
  end.

(** [fileId] and [platform] only. *)
Definition minimal (platform : string) : Settings :=
  {| s_fileId := Some "FILE"; s_platform := Some platform; s_pageId := None;
     s_pageName := None; s_icons := None; s_images := None |}.

(** An Android configuration whose [icons] block gives a prefix and no
    path. *)
Definition prefixOnly : Settings :=
  {| s_fileId := Some "FILE"; s_platform := Some "android"; s_pageId := None;
     s_pageName := None;
     s_icons := Some {| i_path := None; i_prefix := Some "ico_" |};
     s_images := None |}.

(** An Android configuration whose [images] block gives a skip-list
    and nothing else. *)
Definition skipListOnly : Settings :=
  {| s_fileId := Some "FILE"; s_platform := Some "android"; s_pageId := None;
     s_pageName := None; s_icons := None;
     s_images := Some {| m_path := None; m_format := None; m_quality := None;
                         m_prefix := None; m_skipDpi := Some ["ldpi"; "mdpi"] |} |}.

End ConfigFile.

(** ** The first release (v1.0.0)

    The first release exports for Android only.  It resolves names by
    substring, asks for one rendering of each image at four times the
    design size and derives every density from it with [sharp].
    [traverseNode], [downloadSvg], [optimizeSvg], [downloadImage] and
    [handleApiError] are the functions of v1.2.0. *)

Module V100.

(** [sharp]: the size of an image, and resizing to a size followed by
    encoding at a quality. *)
Record Sharp := {
  metadata : string -> Result (Z * Z);
  resize_webp : string -> Z -> Z -> Z -> Result string;
  resize_png : string -> Z -> Z -> Z -> Result string
}.

Definition DPI_SCALES : list (string * Q) :=
  [("ldpi", 0.75%Q); ("mdpi", 1%Q); ("hdpi", 1.5%Q);
   ("xhdpi", 2%Q); ("xxhdpi", 3%Q); ("xxxhdpi", 4%Q)].

(** [DPI_SCALES[dpi]] *)
Definition scaleOf (dpi : string) : Q :=
  match JsMap.get dpi DPI_SCALES with Some scale => scale | None => 0%Q end.

(** [extractComponents(fileData)] *)
Definition extractComponents (fileData : FileData) : list Component :=
  let componentSets := traverseNode (document fileData) collectSet [] 0 ∅ in
  traverseNode (document fileData) (collectComponent componentSets) [] 0 [].

Section Program.
Variable world : World.
Variable sharp : Sharp.
(** [Math.round(original * (scale / DPI_SCALES.xxxhdpi))]: the script
    computes it in double precision; its value is left to the
    environment. *)
Variable newSize : Z -> Q -> Z.
(** The text of a path in a template literal. *)
Variable path_toString : Path -> string.

(** [fetchComponents(fileId, componentNames)] *)
Definition fetchComponents (fileId : string) (componentNames : list string)
    : M (list Component) :=
  emit (SpinnerStart "Fetching components from Figma...") ;;
  try_catch
    (fileData <- request_of (GetFile fileId) (fun t => figma_get_file world t fileId) ;;
     let allComponents := extractComponents fileData in
     let filteredComponents :=
       if (0 <? length componentNames)%nat
       then List.filter
              (fun component =>
                 existsb (fun name => Str.includes (c_name component) name) componentNames)
              allComponents
       else allComponents in
     if (length filteredComponents =? 0)%nat
     then emit (SpinnerFail "No components found matching the provided names") ;;
          process_exit 1
     else
       emit (SpinnerSucceed
               ("Found " +:+ Str.of_nat (length filteredComponents) +:+ " components")) ;;
       ret filteredComponents)
    (fun error =>
       emit (SpinnerFail "Error fetching components from Figma") ;;
       handleApiError error ;;
       process_exit 1).

(** [getImageUrls(fileId, components, format = 'svg', scale = 1)] *)
Definition getImageUrls (fileId : string) (components : list Component)
    (format : string) (scale : Q) : M (string -> option string) :=
  emit (SpinnerStart "Getting image URLs from Figma...") ;;
  try_catch
    (let componentIds := Str.join "," (map c_id components) in
     let scaleParam := if String.eqb format "png" then 4%Q else scale in
     images <- request_of (GetImages fileId componentIds format scaleParam)
                 (fun t => figma_get_images world t fileId componentIds format scaleParam) ;;
     match images with
     | None =>
         emit (SpinnerFail "No image URLs returned from Figma API") ;;
         process_exit 1
     | Some urls =>
         emit (SpinnerSucceed "Successfully retrieved image URLs") ;;
         ret urls
     end)
    (fun error =>
       emit (SpinnerFail "Error getting image URLs from Figma") ;;
       handleApiError error ;;
       process_exit 1).

(** [convertSvgToXml(svgContent)] *)
Definition convertSvgToXml (svgContent : string) : M string :=
  try_catch
    (lift (svg2vectordrawable world svgContent))
    (fun error =>
       emit (Console Stderr Red ("Error converting SVG to XML: " +:+ message error)) ;;
       throw error).

(** [processIconComponent(component, imageUrl, config)] *)
Definition processIconComponent (component : Component) (imageUrl : string)
    (config : Config) : M unit :=
  emit (SpinnerStart ("Processing icon: " +:+ c_name component)) ;;
  try_catch
    (let fileName := "ic_" +:+ sanitizedName world (c_name component) "icon/" +:+ ".xml" in
     drawablePath <- path_join_root (icons_path config) "drawable" ;;
     ensureDir world drawablePath ;;
     svgContent <- downloadSvg world imageUrl ;;
     optimizedSvg <- optimizeSvg world svgContent ;;
     xmlContent <- convertSvgToXml optimizedSvg ;;
     let filePath := path_join drawablePath fileName in
     writeFile world filePath (Utf8 xmlContent) ;;
     emit (SpinnerSucceed ("Icon saved: " +:+ path_toString filePath)))
    (fun error =>
       emit (SpinnerFail ("Failed to process icon: " +:+ c_name component)) ;;
       emit (Console Stderr Red (message error))).

(** [processImageForDpi(imageBuffer, dpi, format, quality, scale)] *)
Definition processImageForDpi (imageBuffer dpi format : string) (quality : Z)
    (scale : Q) : M string :=
  try_catch
    (size <- lift (metadata sharp imageBuffer) ;;
     let newWidth := newSize (fst size) scale in
     let newHeight := newSize (snd size) scale in
     if String.eqb format "webp"
     then lift (resize_webp sharp imageBuffer newWidth newHeight quality)
     else lift (resize_png sharp imageBuffer newWidth newHeight quality))
    (fun error =>
       emit (Console Stderr Red
               ("Error processing image for " +:+ dpi +:+ ": " +:+ message error)) ;;
       throw error).

(** [Object.keys(DPI_SCALES).filter(dpi =>
      !config.images.skipDpi || !config.images.skipDpi.includes(dpi))] *)
Definition dpisToProcess (config : Config) : list string :=
  List.filter
    (fun dpi =>
       match images_skipDpi config with
       | None => true
       | Some skip => negb (Str.mem dpi skip)
       end)
    (JsMap.keys DPI_SCALES).

(** The body of the loop of [processImageComponent]. *)
Definition processDpi (config : Config) (fileNameBase imageBuffer dpi : string) : M unit :=
  let scale := scaleOf dpi in
  drawablePath <- path_join_root (images_path config) ("drawable-" +:+ dpi) ;;
  ensureDir world drawablePath ;;
  let fileName := fileNameBase +:+ "." +:+ images_format config in
  let filePath := path_join drawablePath fileName in
  processedImage <- processImageForDpi imageBuffer dpi (images_format config)
                      (images_quality config) scale ;;
  writeFile world filePath (Buffer processedImage).

(** [processImageComponent(component, imageUrl, config)] *)
Definition processImageComponent (component : Component) (imageUrl : string)
    (config : Config) : M unit :=
  emit (SpinnerStart ("Processing image: " +:+ c_name component)) ;;
  try_catch
    (let fileNameBase := "img_" +:+ sanitizedName world (c_name component) "img/" in
     imageBuffer <- downloadImage world imageUrl ;;
     for_of (dpisToProcess config) (processDpi config fileNameBase imageBuffer) ;;
     emit (SpinnerSucceed
             ("Image saved for " +:+ Str.of_nat (length (dpisToProcess config)) +:+
              " DPI variants")))
    (fun error =>
       emit (SpinnerFail ("Failed to process image: " +:+ c_name component)) ;;
       emit (Console Stderr Red (message error))).

(** [main()] *)
Definition main (componentNames : list string) : M unit :=
  emit (Console Stdout Blue "Figma Asset Downloader") ;;
  emit (Console Stdout Blue "======================") ;;
  try_catch
    (match loadConfig world with
     | None => process_exit 1
     | Some config =>
         emit (Console Stdout Green
                 ("Loaded configuration for file: " +:+ fileId config)) ;;
         components <- fetchComponents (fileId config) componentNames ;;
         let iconComponents :=
           List.filter (fun component => Str.startsWith (c_name component) "icon/")
             components in
         (if (0 <? length iconComponents)%nat
          then
            emit (Console Stdout Yellow
                    (nl +:+ "Processing " +:+ Str.of_nat (length iconComponents) +:+
                     " icons...")) ;;
            iconUrls <- getImageUrls (fileId config) iconComponents "svg" 1 ;;
            for_of iconComponents
              (fun component =>
                 match Str.truthy (iconUrls (c_id component)) with
                 | Some imageUrl => processIconComponent component imageUrl config
                 | None =>
                     emit (Console Stderr Red
                             ("No image URL found for icon: " +:+ c_name component))
                 end)
          else ret tt) ;;
         let imageComponents :=
           List.filter (fun component => Str.startsWith (c_name component) "img/")
             components in
         (if (0 <? length imageComponents)%nat
          then
            emit (Console Stdout Yellow
                    (nl +:+ "Processing " +:+ Str.of_nat (length imageComponents) +:+
                     " images...")) ;;
            imageUrls <- getImageUrls (fileId config) imageComponents "png" 1 ;;
            for_of imageComponents
              (fun component =>
                 match Str.truthy (imageUrls (c_id component)) with
                 | Some imageUrl => processImageComponent component imageUrl config
                 | None =>
                     emit (Console Stderr Red
                             ("No image URL found for image: " +:+ c_name component))
                 end)
          else ret tt) ;;
         emit (Console Stdout Green (nl +:+ "Asset download and processing complete!"))
     end)
    (fun error =>
       emit (Console Stderr Red ("An error occurred: " +:+ message error)) ;;
       process_exit 1).

End Program.

(** What [main] prints before it fetches anything. *)
Definition banner (config : Config) : list Event :=
  [Console Stdout Blue "Figma Asset Downloader";
   Console Stdout Blue "======================";
   Console Stdout Green ("Loaded configuration for file: " +:+ fileId config)].

(** The rendering API has URLs for every request about a file. *)
Definition answers (world : World) (fileId : string) : Prop :=
  forall t ids format scale,
    exists urls, figma_get_images world t fileId ids format scale = inr (Some urls).

(** The file of one density. *)
Definition drawableFile (config : Config) (fileNameBase dpi : string) : Path :=
  [root_of (images_path config); "drawable-" +:+ dpi;
   fileNameBase +:+ "." +:+ images_format config].

(** A size function for the examples: the nearest integer to
    [original * scale / 4], a half going up. *)
Definition exactSize (original : Z) (scale : Q) : Z :=
  ((2 * original * Qnum scale + 4 * Z.pos (Qden scale)) / (8 * Z.pos (Qden scale)))%Z.

(** A [sharp] that cannot produce anything wider than 250 pixels, on
    a rendering of 400 by 200 pixels. *)
Definition sharpFailingAbove250 : Sharp :=
  {| metadata := fun _ => inr (400%Z, 200%Z);
     resize_webp := fun image width _ _ =>
       if (250 <? width)%Z then inl (Error "unsupported size") else inr image;
     resize_png := fun image _ _ _ => inr image |}.

End V100.

(** * Properties *)

(** ** Document traversal *)

Lemma Node_children_ind (P : Node -> Prop) :
  (forall i nm ty cs bb d sid, Forall P cs -> P (mkNode i nm ty cs bb d sid)) ->
  forall node, P node.
Proof.
  intros step. fix IH 1. intros [i nm ty cs bb d sid].
  apply step. induction cs as [|c r IHr]; constructor.
  - apply IH.
  - exact IHr.
Qed.

Lemma traverseNode_eq {St} (node : Node) (cb : Node -> list string -> nat -> St -> St) path depth s :
  traverseNode node cb path depth s =
  if skipped node then s
  else traverseChildren (node_children node) cb (path ++ [name_of node]) (depth + 1)
         (cb node (path ++ [name_of node]) depth s).
Proof.
  destruct node as [i nm ty cs bb d sid]; simpl.
  destruct (skipped _); [reflexivity|].
  unfold traverseChildren. simpl.
  generalize (cb (mkNode i nm ty cs bb d sid) (path ++ [name_of (mkNode i nm ty cs bb d sid)]) depth s).
  induction cs as [|c r IH]; intros s0; simpl; [reflexivity|]. apply IH.
Qed.

Lemma filter_visible_skipped node l :
  skipped node = true -> List.filter (visible node) l = [].
Proof.
  intros H. induction l as [|p l IH]; simpl; [reflexivity|].
  destruct p; simpl; rewrite H; simpl; exact IH.
Qed.

Lemma fold_invoke_children {St} (cb : Node -> list string -> nat -> St -> St) node path depth :
  skipped node = false ->
  forall cs pre, node_children node = pre ++ cs ->
  Forall (fun c => forall cb path depth (s : St),
            traverseNode c cb path depth s =
            fold_left (invoke cb c path depth) (List.filter (visible c) (positions c)) s) cs ->
  forall s,
  fold_left (invoke cb node path depth)
    (List.filter (visible node) (child_positions positions cs (length pre))) s =
  traverseChildren cs cb (path ++ [name_of node]) (depth + 1) s.
Proof.
  intros Hvis cs. induction cs as [|c r IH]; intros pre Hch Hall s; simpl.
  - reflexivity.
  - inversion Hall as [|? ? Hc Hr]; subst.
    assert (Hnth : nth_error (node_children node) (length pre) = Some c).
    { rewrite Hch. rewrite nth_error_app2 by lia. rewrite Nat.sub_diag. reflexivity. }
    rewrite List.filter_app, fold_left_app.
    assert (Hhere : forall l s0,
      fold_left (invoke cb node path depth)
        (List.filter (visible node) (map (cons (length pre)) l)) s0 =
      fold_left (invoke cb c (path ++ [name_of node]) (depth + 1))
        (List.filter (visible c) l) s0).
    { induction l as [|p l IHl]; intros s0; simpl; [reflexivity|].
      rewrite Hvis, Hnth. simpl.
      destruct (visible c p); simpl; [|apply IHl].
      rewrite <- IHl. f_equal.
      unfold invoke. simpl. rewrite Hnth. reflexivity. }
    rewrite Hhere, <- Hc.
    specialize (IH (pre ++ [c])).
    rewrite length_app in IH. simpl in IH.
    unfold traverseChildren in *. simpl.
    apply IH; [rewrite <- app_assoc; exact Hch | exact Hr].
Qed.

Lemma traverseNode_positions {St} node :
  forall (cb : Node -> list string -> nat -> St -> St) path depth s,
    traverseNode node cb path depth s =
    fold_left (invoke cb node path depth) (List.filter (visible node) (positions node)) s.
Proof.
  revert St. induction node as [i nm ty cs bb d sid IH] using Node_children_ind.
  intros St cb path depth s.
  rewrite traverseNode_eq.
  destruct (skipped _) eqn:Hs.
  - rewrite filter_visible_skipped by exact Hs. reflexivity.
  - set (node := mkNode i nm ty cs bb d sid) in *.
    change (positions node) with ([] :: child_positions positions (node_children node) 0).
    simpl List.filter. rewrite Hs. simpl.
    symmetry. 
    change (invoke cb node path depth s []) with (cb node (path ++ [name_of node]) depth s).
    apply (fold_invoke_children cb node path depth Hs cs []); [reflexivity|].
    eapply Forall_impl; [exact IH|]. intros c Hc cb' p' d' s'. apply Hc.
Qed.

Lemma visible_prefix root pos :
  visible root pos = true ->
  forall k n, subtree root (take k pos) = Some n -> skipped n = false.
Proof.
  revert root. induction pos as [|i rest IH]; intros root Hv k n Hsub.
  - rewrite take_nil in Hsub. simpl in *. inversion Hsub; subst.
    destruct (skipped n); [discriminate|reflexivity].
  - simpl in Hv. apply andb_true_iff in Hv as [Hroot Hrest].
    destruct k; simpl in Hsub.
    + inversion Hsub; subst. destruct (skipped n); [discriminate|reflexivity].
    + destruct (nth_error (node_children root) i) as [c|]; [|discriminate].
      eapply IH; eauto.
Qed.

Lemma skipped_spec (node : Node) :
  skipped node = true <->
  node_name node = None \/ node_name node = Some EmptyString \/
  exists rest, node_name node = Some (String "#" rest).
Proof.
  unfold skipped, Str.startsWith. destruct (node_name node) as [nm|].
  - destruct nm as [|c rest].
    + split; [intros _; right; left; reflexivity | reflexivity].
    + change (String.eqb (String c rest) EmptyString) with false.
      change (String.prefix "#" (String c rest))
        with (if ascii_dec "#" c then String.prefix EmptyString rest else false).
      destruct (ascii_dec "#" c) as [<-|Hne].
      * split; [intros _; right; right; exists rest; reflexivity|].
        intros _. destruct rest; reflexivity.
      * split; [discriminate|].
        intros [H|[H|[r H]]]; try discriminate. inversion H. congruence.
  - split; [intros _; left; reflexivity | reflexivity].
Qed.

(** C3.  For every tree, visitor, initial path, depth and visitor state,
    [traverseNode] calls the visitor once for each position of the tree,
    in pre-order, at which no node from the root down to the position is
    skipped, and for no other position: the visitor is never called on a
    node whose name is absent, empty or starts with [#], nor on any
    descendant of such a node. *)
Theorem C3_traverse_never_visits_hidden {St : Type} (root : Node)
    (visitor : Node -> list string -> nat -> St -> St)
    (path : list string) (depth : nat) (s : St) :
  traverseNode root visitor path depth s =
    fold_left (invoke visitor root path depth)
      (List.filter (visible root) (positions root)) s
  /\ (forall pos, In pos (List.filter (visible root) (positions root)) ->
      forall k n, subtree root (take k pos) = Some n ->
        node_name n <> None /\ node_name n <> Some EmptyString /\
        forall rest, node_name n <> Some (String "#" rest)).
Proof.
  split.
  - apply traverseNode_positions.
  - intros pos Hin k n Hsub.
    apply List.filter_In in Hin as [_ Hvis].
    pose proof (visible_prefix root pos Hvis k n Hsub) as Hn.
    assert (Hnot : ~ (skipped n = true)) by (rewrite Hn; discriminate).
    rewrite skipped_spec in Hnot.
    repeat split; [| |intros rest]; intros H; apply Hnot; eauto.
Qed.

(** ** Sets of names and insertion-ordered maps *)

Lemma mem_In (x : string) (l : list string) : Str.mem x l = true <-> In x l.
Proof.
  unfold Str.mem. rewrite existsb_exists. split.
  - intros [y [Hy Heq]]. apply String.eqb_eq in Heq. subst. exact Hy.
  - intros H. exists x. split; [exact H | apply String.eqb_refl].
Qed.

Lemma mem_false (x : string) (l : list string) : Str.mem x l = false <-> ~ In x l.
Proof.
  rewrite <- mem_In. destruct (Str.mem x l); split; congruence.
Qed.

Lemma set_add_In (x y : string) (s : list string) :
  In y (set_add x s) <-> y = x \/ In y s.
Proof.
  unfold set_add. destruct (Str.mem x s) eqn:H.
  - apply mem_In in H. split; [tauto|]. intros [->|?]; assumption.
  - rewrite in_app_iff. simpl. split; [intros [?|[->|[]]]; tauto | intros [->|?]; tauto].
Qed.

Lemma set_add_NoDup (x : string) (s : list string) : NoDup s -> NoDup (set_add x s).
Proof.
  intros H. unfold set_add. destruct (Str.mem x s) eqn:Hm; [exact H|].
  apply mem_false in Hm. apply NoDup_app. repeat split.
  - exact H.
  - intros y Hy Hy'. apply list_elem_of_In in Hy, Hy'.
    destruct Hy' as [->|[]]. contradiction.
  - apply NoDup_singleton.
Qed.

Lemma fold_set_add_In (l s : list string) (y : string) :
  In y (fold_left (fun seen name => set_add name seen) l s) <-> In y l \/ In y s.
Proof.
  revert s. induction l as [|x l IH]; intros s; simpl; [tauto|].
  rewrite IH, set_add_In. intuition (subst; auto).
Qed.

Lemma fold_set_add_NoDup (l s : list string) :
  NoDup s -> NoDup (fold_left (fun seen name => set_add name seen) l s).
Proof.
  revert s. induction l as [|x l IH]; intros s H; simpl; [exact H|].
  apply IH, set_add_NoDup, H.
Qed.

Lemma distinct_In (l : list string) (y : string) : In y (distinct l) <-> In y l.
Proof. unfold distinct. rewrite fold_set_add_In. simpl. tauto. Qed.

Lemma distinct_NoDup (l : list string) : NoDup (distinct l).
Proof. apply fold_set_add_NoDup, NoDup_nil_2. Qed.

Lemma distinct_snoc (l : list string) (x : string) :
  distinct (l ++ [x]) = set_add x (distinct l).
Proof. unfold distinct. rewrite fold_left_app. reflexivity. Qed.

Section Tabulate.
Context {V : Type}.

Lemma keys_tabulate (f : string -> V) ks : JsMap.keys (tabulate f ks) = ks.
Proof.
  unfold JsMap.keys, tabulate. rewrite map_map. simpl. apply map_id.
Qed.

Lemma get_tabulate (f : string -> V) ks k :
  JsMap.get k (tabulate f ks) = if Str.mem k ks then Some (f k) else None.
Proof.
  induction ks as [|k' ks IH]; simpl; [reflexivity|].
  rewrite (String.eqb_sym k k').
  destruct (String.eqb_spec k' k) as [->|Hne]; simpl; [reflexivity|].
  exact IH.
Qed.

Lemma set_fresh (m : list (string * V)) k v :
  Str.mem k (JsMap.keys m) = false -> JsMap.set k v m = m ++ [(k, v)].
Proof.
  induction m as [|[k' v'] m IH]; simpl; [reflexivity|].
  rewrite (String.eqb_sym k k').
  destruct (String.eqb k' k); simpl; [discriminate|].
  intros H. rewrite IH by exact H. reflexivity.
Qed.

(** Setting a key again to a value of the same table changes nothing;
    a new key is appended. *)
Lemma set_tabulate (f : string -> V) ks k :
  JsMap.set k (f k) (tabulate f ks) = tabulate f (set_add k ks).
Proof.
  unfold set_add. induction ks as [|k' ks IH]; simpl; [reflexivity|].
  rewrite (String.eqb_sym k k').
  destruct (String.eqb_spec k' k) as [->|Hne]; simpl; [reflexivity|].
  rewrite IH. destruct (Str.mem k ks); reflexivity.
Qed.

(** Overwriting the value of a key that occurs once. *)
Lemma set_tabulate_update (f g : string -> V) ks k :
  NoDup ks -> In k ks ->
  (forall k', k' <> k -> g k' = f k') ->
  JsMap.set k (g k) (tabulate f ks) = tabulate g ks.
Proof.
  intros Hnd Hin Hg. induction ks as [|k' ks IH]; simpl; [destruct Hin|].
  apply NoDup_cons in Hnd as [Hk' Hnd].
  destruct (String.eqb_spec k' k) as [->|Hne].
  - f_equal. unfold tabulate. apply map_ext_in. intros a Ha.
    rewrite Hg; [reflexivity|]. intros ->. apply Hk', list_elem_of_In, Ha.
  - rewrite (Hg k' Hne). f_equal. apply IH; [exact Hnd|].
    destruct Hin as [->|Hin]; [congruence | exact Hin].
Qed.

Lemma fold_set_tabulate (f : string -> V) (p : string -> bool) names ks :
  fold_left (fun m n => if p n then JsMap.set n (f n) m else m) names (tabulate f ks) =
  tabulate f (fold_left (fun seen n => set_add n seen) (List.filter p names) ks).
Proof.
  revert ks. induction names as [|n names IH]; intros ks; simpl; [reflexivity|].
  destruct (p n); simpl; [|apply IH].
  rewrite set_tabulate. apply IH.
Qed.

(** Copying the entries that satisfy a test into a new map keeps them
    in order when the keys are distinct. *)
Lemma fold_set_filter (p : string * V -> bool) (m acc : list (string * V)) :
  NoDup (JsMap.keys (acc ++ m)) ->
  fold_left (fun d e => if p e then JsMap.set (fst e) (snd e) d else d) m acc =
  acc ++ List.filter p m.
Proof.
  revert acc. induction m as [|[k v] m IH]; intros acc Hnd; simpl.
  - rewrite app_nil_r. reflexivity.
  - assert (Hnd' : NoDup (JsMap.keys ((acc ++ [(k, v)]) ++ m)))
      by (rewrite <- app_assoc; exact Hnd).
    unfold JsMap.keys in Hnd. rewrite map_app in Hnd. simpl in Hnd.
    apply NoDup_app in Hnd as (Hacc & Hdisj & Hkm).
    assert (Hfresh : Str.mem k (JsMap.keys acc) = false).
    { apply mem_false. intros Hin. apply (Hdisj k).
      - apply list_elem_of_In, Hin.
      - left. }
    destruct (p (k, v)); simpl.
    + rewrite set_fresh by exact Hfresh.
      rewrite IH by exact Hnd'. rewrite <- app_assoc. reflexivity.
    + apply IH. unfold JsMap.keys. rewrite map_app.
      apply NoDup_app. repeat split; [exact Hacc| |].
      * intros x Hx Hx'. apply (Hdisj x Hx). right. exact Hx'.
      * apply NoDup_cons in Hkm as [_ Hm]. exact Hm.
Qed.
End Tabulate.

(** ** Name resolution *)

Lemma theMatch_uniquelyMatched all n :
  uniquelyMatched all n = match theMatch all n with Some _ => true | None => false end.
Proof.
  unfold uniquelyMatched, theMatch. destruct (exactMatches all n) as [|c [|c' r]]; reflexivity.
Qed.

Lemma classify_fst all maps n :
  fst (classify all maps n) =
  match theMatch all n with
  | Some only => JsMap.set n only (fst maps)
  | None => fst maps
  end.
Proof.
  unfold classify, theMatch. destruct (exactMatches all n) as [|c [|c' r]]; reflexivity.
Qed.

Lemma classify_snd all maps n :
  snd (classify all maps n) =
  if ambiguous all n then JsMap.set n (exactMatches all n) (snd maps) else snd maps.
Proof.
  unfold classify, ambiguous. destruct (exactMatches all n) as [|c [|c' r]]; reflexivity.
Qed.

Lemma fold_classify_snd all names maps :
  snd (fold_left (classify all) names maps) =
  fold_left (fun m n => if ambiguous all n then JsMap.set n (exactMatches all n) m else m)
    names (snd maps).
Proof.
  revert maps. induction names as [|n names IH]; intros maps; simpl; [reflexivity|].
  rewrite IH, classify_snd. reflexivity.
Qed.

Lemma fold_classify_fst all names maps :
  fst (fold_left (classify all) names maps) =
  fold_left (fun m n => match theMatch all n with
                        | Some only => JsMap.set n only m
                        | None => m
                        end) names (fst maps).
Proof.
  revert maps. induction names as [|n names IH]; intros maps; simpl; [reflexivity|].
  rewrite IH, classify_fst. reflexivity.
Qed.

(** The [duplicates] map: every ambiguous requested name, once, in the
    order of first request, with all of its matches. *)
Lemma matchNames_duplicates all names :
  snd (matchNames all names) =
  tabulate (exactMatches all) (distinct (List.filter (ambiguous all) names)).
Proof.
  unfold matchNames. rewrite fold_classify_snd.
  exact (fold_set_tabulate (exactMatches all) (ambiguous all) names []).
Qed.

Section TabulateSome.
Context {V : Type}.

Lemma set_tabulate_some (g : string -> option V) ks k v :
  Forall (fun k => g k <> None) ks -> g k = Some v ->
  JsMap.set k v (tabulate_some g ks) = tabulate_some g (set_add k ks).
Proof.
  intros Hall Hk. unfold set_add.
  induction ks as [|k' ks IH]; simpl.
  - rewrite Hk. reflexivity.
  - apply Forall_cons in Hall as [Hk' Hall].
    rewrite (String.eqb_sym k k').
    destruct (g k') as [v'|] eqn:Hg; [|congruence]. simpl.
    destruct (String.eqb_spec k' k) as [->|Hne]; simpl.
    + rewrite Hg. simpl. congruence.
    + rewrite IH by exact Hall.
      destruct (Str.mem k ks); simpl; rewrite Hg; reflexivity.
Qed.

Lemma fold_set_tabulate_some (g : string -> option V) names ks :
  Forall (fun k => g k <> None) ks ->
  fold_left (fun m n => match g n with Some v => JsMap.set n v m | None => m end)
    names (tabulate_some g ks) =
  tabulate_some g
    (fold_left (fun seen n => set_add n seen)
       (List.filter (fun n => match g n with Some _ => true | None => false end) names) ks).
Proof.
  revert ks. induction names as [|n names IH]; intros ks Hall; simpl; [reflexivity|].
  destruct (g n) as [v|] eqn:Hg; simpl; [|apply IH, Hall].
  rewrite (set_tabulate_some g ks n v Hall Hg). apply IH.
  unfold set_add. destruct (Str.mem n ks); [exact Hall|].
  apply Forall_app. split; [exact Hall|]. constructor; [congruence|constructor].
Qed.
End TabulateSome.

Lemma values_tabulate_theMatch all ks :
  JsMap.values (tabulate_some (theMatch all) ks) =
  flat_map (exactMatches all) (List.filter (uniquelyMatched all) ks).
Proof.
  unfold JsMap.values, tabulate_some.
  induction ks as [|k ks IH]; simpl; [reflexivity|].
  rewrite map_app, IH, theMatch_uniquelyMatched. unfold theMatch.
  destruct (exactMatches all k) as [|c [|c' r]] eqn:Hk; simpl; try reflexivity.
  rewrite Hk. reflexivity.
Qed.

Lemma filter_distinct_all (p : string -> bool) (l : list string) :
  Forall (fun x => p x = true) l -> List.filter p (distinct l) = distinct l.
Proof.
  intros H. apply forallb_filter_id. apply forallb_forall. intros x Hx.
  apply (proj1 (distinct_In _ _)) in Hx. rewrite List.Forall_forall in H. apply H, Hx.
Qed.

(** The [nameMap]: the values are the single matches of the uniquely
    matched requested names, each once, in the order of first request. *)
Lemma matchNames_nameMap all names :
  JsMap.values (fst (matchNames all names)) =
  flat_map (exactMatches all) (distinct (List.filter (uniquelyMatched all) names)).
Proof.
  unfold matchNames. rewrite fold_classify_fst.
  rewrite (fold_set_tabulate_some (theMatch all) names [] (Forall_nil_2 _) : fold_left _ names (fst ([], [])) = _).
  rewrite values_tabulate_theMatch.
  replace (List.filter (fun n => match theMatch all n with Some _ => true | None => false end) names)
    with (List.filter (uniquelyMatched all) names)
    by (apply filter_ext; intros n; apply theMatch_uniquelyMatched).
  fold (distinct (List.filter (uniquelyMatched all) names)).
  rewrite filter_distinct_all; [reflexivity|].
  apply List.Forall_forall. intros x Hx. apply List.filter_In in Hx. tauto.
Qed.

(** ** [fetchComponents] *)

Lemma length_pos_neq {A} (l : list A) : l <> [] -> (0 <? length l)%nat = true.
Proof. destruct l; [congruence|reflexivity]. Qed.

(** The run of [fetchComponents] when names are requested, the document
    has arrived and the section, if one is given, has components. *)
Lemma fetchComponents_named world cli fileId names pageId pageName t fileData :
  names <> [] ->
  figma_get_file world (t ++ [startFetch]) fileId = inr fileData ->
  let extracted := extractComponents fileData pageId pageName in
  let maps := matchNames (snd extracted) names in
  match Str.truthy (sectionName cli) with
  | Some section => inSection section (snd extracted) <> []
  | None => True
  end ->
  let t1 := t ++ [startFetch; GetFile fileId] ++ fst extracted ++
            sectionLog cli (snd extracted) in
  fetchComponents world cli fileId names pageId pageName t =
  if (0 <? JsMap.size (snd maps))%nat
  then (t1 ++ SpinnerFail "Found duplicate components with the same name"
           :: flat_map (ambiguityReport fileId) (snd maps), Exit 1)
  else if (length (JsMap.values (fst maps)) =? 0)%nat
  then (t1 ++ [SpinnerFail "No components found matching the provided names exactly"],
        Exit 1)
  else (t1 ++ [SpinnerSucceed
                 ("Found " +:+ Str.of_nat (length (JsMap.values (fst maps))) +:+
                  " components with exact name matches")],
        Ret (JsMap.values (fst maps))).
Proof.
  intros Hnames Hfile extracted maps Hsec t1.
  unfold fetchComponents, try_catch, bind, emit, emit_all, request_of, ret, process_exit.
  fold startFetch. rewrite Hfile.
  rewrite (length_pos_neq names Hnames).
  fold extracted. fold maps. subst t1. unfold sectionLog.
  destruct (Str.truthy (sectionName cli)) as [section|].
  - fold (inSection section (snd extracted)).
    destruct (inSection section (snd extracted)) as [|c0 cs0] eqn:Hin; [congruence|].
    cbn [length Nat.eqb].
    destruct (0 <? JsMap.size (snd maps))%nat.
    + f_equal. rewrite <- !app_assoc. reflexivity.
    + destruct (length (JsMap.values (fst maps)) =? 0)%nat;
        f_equal; rewrite <- !app_assoc; reflexivity.
  - destruct (0 <? JsMap.size (snd maps))%nat.
    + f_equal. rewrite <- !app_assoc. reflexivity.
    + destruct (length (JsMap.values (fst maps)) =? 0)%nat;
        f_equal; rewrite <- !app_assoc; reflexivity.
Qed.

Lemma fetchComponents_explicit world cli fileId names pageId pageName t fileData :
  Str.truthy (sectionName cli) = None ->
  names <> [] ->
  figma_get_file world (t ++ [startFetch]) fileId = inr fileData ->
  let extracted := extractComponents fileData pageId pageName in
  let maps := matchNames (snd extracted) names in
  let t1 := t ++ [startFetch; GetFile fileId] ++ fst extracted in
  fetchComponents world cli fileId names pageId pageName t =
  if (0 <? JsMap.size (snd maps))%nat
  then (t1 ++ SpinnerFail "Found duplicate components with the same name"
           :: flat_map (ambiguityReport fileId) (snd maps), Exit 1)
  else if (length (JsMap.values (fst maps)) =? 0)%nat
  then (t1 ++ [SpinnerFail "No components found matching the provided names exactly"],
        Exit 1)
  else (t1 ++ [SpinnerSucceed
                 ("Found " +:+ Str.of_nat (length (JsMap.values (fst maps))) +:+
                  " components with exact name matches")],
        Ret (JsMap.values (fst maps))).
Proof.
  intros Hsec Hnames Hfile extracted maps t1.
  pose proof (fetchComponents_named world cli fileId names pageId pageName t fileData
                Hnames Hfile) as H.
  cbv zeta in H. unfold sectionLog in H. rewrite Hsec in H.
  rewrite app_nil_r in H. apply H. exact I.
Qed.

Lemma linkLines_In color indent fileId component components index :
  In component components ->
  exists i,
    In (Console Stdout color
          (indent +:+ Str.of_nat (i + 1) +:+ ". " +:+ c_path component +:+ " - " +:+
           figmaLink fileId component))
       (linkLines color indent fileId index components).
Proof.
  revert index. induction components as [|c cs IH]; intros index Hin; [destruct Hin|].
  destruct Hin as [->|Hin].
  - exists index. left. reflexivity.
  - destruct (IH (index + 1) Hin) as [i Hi]. exists i. right. exact Hi.
Qed.

Lemma linkLines_console color indent fileId components index :
  forallb isConsole (linkLines color indent fileId index components) = true.
Proof.
  revert index. induction components as [|c cs IH]; intros index; simpl; auto.
Qed.

Lemma forallb_flat_map {A B} (p : B -> bool) (f : A -> list B) (l : list A) :
  (forall a, forallb p (f a) = true) -> forallb p (flat_map f l) = true.
Proof.
  intros H. induction l as [|a l IH]; simpl; [reflexivity|].
  rewrite forallb_app, H, IH. reflexivity.
Qed.

Lemma forallb_impl {A} (p q : A -> bool) (l : list A) :
  (forall a, p a = true -> q a = true) -> forallb p l = true -> forallb q l = true.
Proof.
  intros H. rewrite !forallb_forall. intros Hp x Hx. apply H, Hp, Hx.
Qed.

Lemma ambiguityReport_console fileId entry :
  forallb isConsole (ambiguityReport fileId entry) = true.
Proof. unfold ambiguityReport. simpl. apply linkLines_console. Qed.

Lemma findPages_console pageIds pageNames node :
  forallb isConsole (fst (findPages pageIds pageNames node)) = true.
Proof.
  induction node as [i nm ty cs bb d sid IH] using Node_children_ind.
  simpl. rewrite forallb_app. apply andb_true_iff. split.
  - destruct (isPageMatch _ _ _); [|reflexivity]. simpl. unfold pageLogs.
    rewrite forallb_app.
    destruct (idMatch _ _), (nameMatch _ _); reflexivity.
  - induction cs as [|c r IHr]; [reflexivity|].
    apply Forall_cons in IH as [Hc Hr]. simpl.
    rewrite forallb_app, Hc. simpl. apply IHr, Hr.
Qed.

Lemma extractComponents_console fileData pageId pageName :
  forallb isConsole (fst (extractComponents fileData pageId pageName)) = true.
Proof.
  unfold extractComponents, searchPages. simpl.
  destruct (_ || _); [|reflexivity]. simpl.
  rewrite forallb_app, findPages_console. simpl.
  destruct (0 <? _)%nat; reflexivity.
Qed.

Lemma console_not_export ev : isConsole ev = true -> negb (isExport ev) = true.
Proof. destruct ev; simpl; congruence. Qed.

Lemma ambiguous_distinct all names name :
  In name names -> 1 < length (exactMatches all name) ->
  In name (distinct (List.filter (ambiguous all) names)).
Proof.
  intros Hin Hlen. apply distinct_In, List.filter_In. split; [exact Hin|].
  unfold ambiguous. apply Nat.ltb_lt, Hlen.
Qed.

(** C1.  In explicit-name mode (names requested, no section), when the
    document has arrived and some requested name has more than one exact
    match among the extracted components, the run ends with exit status
    1; before it ends it prints one report for every ambiguous requested
    name (each once, in the order of first request), every report lists
    every component matching the name with the link
    [https://www.figma.com/file/<fileId>?node-id=<encoded component id>],
    and nothing is exported: no image is requested or downloaded and no
    directory or file is touched. *)
Theorem C1_ambiguous_names_are_fatal (world : World) (cli : Cli) (config : Config)
    (t : Trace) (fileData : FileData) :
  loadConfig world = Some config ->
  findDuplicate cli = false ->
  Str.truthy (sectionName cli) = None ->
  figma_get_file world (t ++ banner config ++ [startFetch]) (fileId config) = inr fileData ->
  let extracted := extractComponents fileData (pageId config) (pageName config) in
  let allComponents := snd extracted in
  (exists name, In name (componentNames cli) /\
                1 < length (exactMatches allComponents name)) ->
  let ambiguousNames := distinct (List.filter (ambiguous allComponents) (componentNames cli)) in
  let output :=
    banner config ++ [startFetch; GetFile (fileId config)] ++ fst extracted ++
    SpinnerFail "Found duplicate components with the same name"
    :: flat_map (fun name => ambiguityReport (fileId config)
                               (name, exactMatches allComponents name)) ambiguousNames in
  main world cli t = (t ++ output, Exit 1)
  /\ (forall name, In name (componentNames cli) ->
        1 < length (exactMatches allComponents name) -> In name ambiguousNames)
  /\ (forall name component,
        In name ambiguousNames -> In component (exactMatches allComponents name) ->
        exists index,
          In (Console Stdout Cyan
                (Str.of_nat (index + 1) +:+ ". " +:+ c_path component +:+ " - " +:+
                 "https://www.figma.com/file/" +:+ fileId config +:+ "?node-id=" +:+
                 Str.encodeURIComponent (c_id component)))
             (ambiguityReport (fileId config) (name, exactMatches allComponents name)))
  /\ forallb (fun ev => negb (isExport ev)) output = true.
Proof.
  intros Hcfg Hdup Hsec Hfile extracted allComponents [name [Hin Hlen]] ambiguousNames output.
  assert (Hnames : componentNames cli <> []) by (intros H; rewrite H in Hin; destruct Hin).
  assert (Hamb : In name ambiguousNames) by (apply ambiguous_distinct; assumption).
  rewrite app_assoc in Hfile.
  pose proof (fetchComponents_explicit world cli (fileId config) (componentNames cli)
                (pageId config) (pageName config) (t ++ banner config) fileData
                Hsec Hnames Hfile) as Hfetch.
  cbv zeta in Hfetch. fold extracted allComponents in Hfetch.
  rewrite matchNames_duplicates in Hfetch. fold ambiguousNames in Hfetch.
  assert (Hsize : (0 <? JsMap.size (tabulate (exactMatches allComponents) ambiguousNames))%nat
                  = true).
  { unfold JsMap.size, tabulate. rewrite length_map.
    destruct ambiguousNames; [destruct Hamb | reflexivity]. }
  rewrite Hsize in Hfetch.
  repeat split.
  - unfold main, try_catch, bind, emit, ret. rewrite Hcfg, Hdup.
    replace (((((t ++ [Console Stdout Blue "Figma Asset Downloader"]) ++
                [Console Stdout Blue "======================"]) ++
               [Console Stdout Green ("Loaded configuration for file: " +:+ fileId config)]) ++
              [Console Stdout Green ("Platform: " +:+ platform config)]))
      with (t ++ banner config) by (unfold banner; rewrite <- !app_assoc; reflexivity).
    rewrite Hfetch. f_equal. subst output. unfold tabulate.
    rewrite flat_map_concat_map, map_map, <- flat_map_concat_map.
    rewrite <- !app_assoc. reflexivity.
  - intros n Hn Hl. apply ambiguous_distinct; assumption.
  - intros n c Hn Hc. unfold ambiguityReport. simpl.
    destruct (linkLines_In Cyan "" (fileId config) c _ 0 Hc) as [i Hi].
    exists i. right. right. right. exact Hi.
  - subst output. rewrite !forallb_app.
    apply andb_true_iff; split; [reflexivity|].
    apply andb_true_iff; split; [reflexivity|].
    apply andb_true_iff; split.
    + apply (forallb_impl _ _ _ console_not_export), extractComponents_console.
    + cbn [forallb isExport negb andb]. apply forallb_flat_map. intros n.
      apply (forallb_impl _ _ _ console_not_export), ambiguityReport_console.
Qed.

Lemma no_ambiguous_names all names :
  (forall name, In name names -> length (exactMatches all name) <= 1) ->
  snd (matchNames all names) = [].
Proof.
  intros H. rewrite matchNames_duplicates.
  replace (List.filter (ambiguous all) names) with (@nil string); [reflexivity|].
  symmetry. induction names as [|n names IH]; [reflexivity|]. simpl.
  assert (Hn : ambiguous all n = false).
  { unfold ambiguous. apply Nat.ltb_ge. apply H. left. reflexivity. }
  rewrite Hn. apply IH. intros name Hin. apply H. right. exact Hin.
Qed.

Lemma resolvedByName_In all names name component :
  In name names -> exactMatches all name = [component] ->
  In component (resolvedByName all names).
Proof.
  intros Hin Hem. unfold resolvedByName. apply in_flat_map. exists name. split.
  - apply distinct_In, List.filter_In. split; [exact Hin|].
    unfold uniquelyMatched. rewrite Hem. reflexivity.
  - rewrite Hem. left. reflexivity.
Qed.

Lemma exactMatches_name all name component :
  In component (exactMatches all name) -> In component all /\ c_name component = name.
Proof.
  unfold exactMatches. rewrite List.filter_In. intros [H1 H2].
  split; [exact H1 | apply String.eqb_eq, H2].
Qed.

Lemma resolvedByName_name all names component :
  In component (resolvedByName all names) ->
  In component all /\ In (c_name component) names /\
  exactMatches all (c_name component) = [component].
Proof.
  unfold resolvedByName. rewrite in_flat_map. intros [name [Hname Hc]].
  apply distinct_In, List.filter_In in Hname as [Hin Huniq].
  destruct (exactMatches_name all name component Hc) as [Hall <-].
  repeat split; try assumption.
  unfold uniquelyMatched in Huniq.
  destruct (exactMatches all (c_name component)) as [|c [|c' r]]; try discriminate.
  destruct Hc as [->|[]]. reflexivity.
Qed.

(** The outcome of [fetchComponents] when names are requested and none
    of them is ambiguous. *)
Lemma fetchComponents_unambiguous world cli fileId names pageId pageName t fileData :
  names <> [] ->
  figma_get_file world (t ++ [startFetch]) fileId = inr fileData ->
  let extracted := extractComponents fileData pageId pageName in
  let allComponents := snd extracted in
  match Str.truthy (sectionName cli) with
  | Some section => inSection section allComponents <> []
  | None => True
  end ->
  (forall name, In name names -> length (exactMatches allComponents name) <= 1) ->
  let t1 := t ++ [startFetch; GetFile fileId] ++ fst extracted ++
            sectionLog cli allComponents in
  let resolved := resolvedByName allComponents names in
  fetchComponents world cli fileId names pageId pageName t =
  if (length resolved =? 0)%nat
  then (t1 ++ [SpinnerFail "No components found matching the provided names exactly"],
        Exit 1)
  else (t1 ++ [SpinnerSucceed ("Found " +:+ Str.of_nat (length resolved) +:+
                               " components with exact name matches")],
        Ret resolved).
Proof.
  intros Hnames Hfile extracted allComponents Hsec Hunamb t1 resolved.
  pose proof (fetchComponents_named world cli fileId names pageId pageName t fileData
                Hnames Hfile Hsec) as H.
  cbv zeta in H. fold extracted allComponents in H.
  rewrite (no_ambiguous_names allComponents names Hunamb) in H.
  rewrite matchNames_nameMap in H. exact H.
Qed.

(** ** Duplicate detection *)

Lemma exactMatches_snoc l c n :
  exactMatches (l ++ [c]) n =
  exactMatches l n ++ (if String.eqb (c_name c) n then [c] else []).
Proof. unfold exactMatches. rewrite List.filter_app. reflexivity. Qed.

Lemma exactMatches_absent l n : ~ In n (map c_name l) -> exactMatches l n = [].
Proof.
  intros H. induction l as [|c l IH]; [reflexivity|]. simpl in *.
  destruct (String.eqb_spec (c_name c) n) as [Heq|Hne]; [tauto|].
  apply IH. tauto.
Qed.

Lemma groupStep_grouped l c : groupStep (grouped l) c = grouped (l ++ [c]).
Proof.
  unfold groupStep, grouped, JsMap.has.
  rewrite map_app. change (map c_name [c]) with [c_name c]. rewrite distinct_snoc.
  rewrite get_tabulate.
  set (ks := distinct (map c_name l)).
  unfold set_add. destruct (Str.mem (c_name c) ks) eqn:Hmem; cbn [negb].
  - rewrite get_tabulate, Hmem.
    replace (exactMatches l (c_name c) ++ [c]) with (exactMatches (l ++ [c]) (c_name c))
      by (rewrite exactMatches_snoc, String.eqb_refl; reflexivity).
    apply set_tabulate_update.
    + apply distinct_NoDup.
    + apply mem_In, Hmem.
    + intros k Hk. rewrite exactMatches_snoc.
      destruct (String.eqb_spec (c_name c) k) as [Heq|_]; [congruence|].
      apply app_nil_r.
  - assert (Hfresh : Str.mem (c_name c) (JsMap.keys (tabulate (exactMatches l) ks)) = false)
      by (rewrite keys_tabulate; exact Hmem).
    rewrite (set_fresh _ _ _ Hfresh).
    assert (Hget : JsMap.get (c_name c) (tabulate (exactMatches l) ks ++ [(c_name c, [])])
                   = Some []).
    { clear Hfresh. induction ks as [|k ks IH]; simpl.
      - rewrite String.eqb_refl. reflexivity.
      - simpl in Hmem. apply orb_false_iff in Hmem as [Hk Hks].
        rewrite String.eqb_sym, Hk. apply IH, Hks. }
    rewrite Hget. cbn [app].
    assert (Hset : forall m : list (string * list Component),
              Str.mem (c_name c) (JsMap.keys m) = false ->
              JsMap.set (c_name c) [c] (m ++ [(c_name c, [])]) = m ++ [(c_name c, [c])]).
    { induction m as [|[k v] m IH]; simpl.
      - intros _. rewrite String.eqb_refl. reflexivity.
      - intros H. apply orb_false_iff in H as [Hk Hm].
        rewrite String.eqb_sym, Hk, IH by exact Hm. reflexivity. }
    rewrite Hset by exact Hfresh.
    unfold tabulate. rewrite map_app. simpl. f_equal.
    + apply map_ext_in. intros k Hk. f_equal. rewrite exactMatches_snoc.
      destruct (String.eqb_spec (c_name c) k) as [Heq|_]; [|symmetry; apply app_nil_r].
      subst k. apply mem_false in Hmem. contradiction.
    + f_equal. f_equal. rewrite exactMatches_snoc, String.eqb_refl.
      rewrite exactMatches_absent; [reflexivity|].
      apply mem_false in Hmem. intros H. apply Hmem, distinct_In, H.
Qed.

Lemma groupByName_grouped l : groupByName l = grouped l.
Proof.
  unfold groupByName.
  assert (H : forall cs done, fold_left groupStep cs (grouped done) = grouped (done ++ cs)).
  { induction cs as [|c cs IH]; intros done; simpl.
    - rewrite app_nil_r. reflexivity.
    - rewrite groupStep_grouped, IH, <- app_assoc. reflexivity. }
  exact (H l []).
Qed.

Lemma findDuplicates_filter all :
  findDuplicates all =
  List.filter (fun entry => (1 <? length (snd entry))%nat)
    (grouped (List.filter isRelevant all)).
Proof.
  unfold findDuplicates. rewrite groupByName_grouped.
  apply (fold_set_filter (fun entry => (1 <? length (snd entry))%nat) _ []).
  simpl. unfold grouped. rewrite keys_tabulate. apply distinct_NoDup.
Qed.

Lemma exactMatches_relevant all name :
  relevantName name = true ->
  exactMatches (List.filter isRelevant all) name = exactMatches all name.
Proof.
  intros Hrel. unfold exactMatches.
  induction all as [|c all IH]; [reflexivity|]. simpl.
  destruct (String.eqb_spec (c_name c) name) as [Heq|Hne].
  - assert (Hc : isRelevant c = true) by (unfold isRelevant; rewrite Heq; exact Hrel).
    rewrite Hc. simpl. rewrite Heq, String.eqb_refl, <- IH, <- Heq. reflexivity.
  - destruct (isRelevant c); simpl; [|exact IH].
    destruct (String.eqb_spec (c_name c) name); [contradiction|exact IH].
Qed.

Lemma filter_filter_id {A} (p : A -> bool) (l : list A) :
  List.filter p (List.filter p l) = List.filter p l.
Proof.
  apply forallb_filter_id, forallb_forall. intros x Hx.
  apply List.filter_In in Hx. tauto.
Qed.

Lemma findDuplicates_In all name group :
  In (name, group) (findDuplicates all) <->
  relevantName name = true /\ group = exactMatches all name /\ 2 <= length group.
Proof.
  rewrite findDuplicates_filter, List.filter_In. unfold grouped, tabulate.
  rewrite in_map_iff. simpl. split.
  - intros [[k [Hk Hin]] Hlen]. inversion Hk; subst; clear Hk.
    apply distinct_In, in_map_iff in Hin as [c [Hname Hc]].
    apply List.filter_In in Hc as [_ Hrel].
    assert (Hr : relevantName name = true) by (rewrite <- Hname; exact Hrel).
    rewrite exactMatches_relevant in * by exact Hr.
    repeat split; [exact Hr|]. apply Nat.ltb_lt in Hlen. lia.
  - intros (Hr & -> & Hlen). split.
    + exists name. rewrite exactMatches_relevant by exact Hr. split; [reflexivity|].
      apply distinct_In, in_map_iff.
      destruct (exactMatches all name) as [|c r] eqn:Hem; [simpl in Hlen; lia|].
      assert (Hc : In c (exactMatches all name)) by (rewrite Hem; left; reflexivity).
      apply exactMatches_name in Hc as [Hall Hn].
      exists c. split; [exact Hn|]. apply List.filter_In. split; [exact Hall|].
      unfold isRelevant. rewrite Hn. exact Hr.
    + apply Nat.ltb_lt. lia.
Qed.

Lemma keys_filter_tabulate {V} (p : string * V -> bool) (f : string -> V) ks :
  JsMap.keys (List.filter p (tabulate f ks)) = List.filter (fun k => p (k, f k)) ks.
Proof.
  unfold JsMap.keys, tabulate. induction ks as [|k ks IH]; [reflexivity|]. simpl.
  destruct (p (k, f k)); simpl; rewrite IH; reflexivity.
Qed.

Lemma NoDup_List_filter {A} (f : A -> bool) (l : list A) :
  NoDup l -> NoDup (List.filter f l).
Proof.
  induction 1 as [|x l Hx Hnd IH]; simpl; [constructor|].
  destruct (f x); [|exact IH]. constructor; [|exact IH].
  intros Hin. apply Hx. apply list_elem_of_In in Hin.
  apply List.filter_In in Hin as [Hin _]. apply list_elem_of_In, Hin.
Qed.

(** C6 (as amended).  The duplicate reporter considers only components
    whose name starts with [icon/] or [img/]: it returns, each once,
    exactly the names carried by two or more such components, each with
    all the components of that name, and components outside both
    namespaces have no effect on its result.  The ambiguity check of the
    explicit-name resolver is not restricted in this way: a requested
    name carried by two or more extracted components is recorded as
    ambiguous whatever its prefix. *)
Theorem C6_duplicate_reporter_scope (allComponents : list Component) :
  (forall name group,
     In (name, group) (findDuplicates allComponents) <->
     relevantName name = true /\ group = exactMatches allComponents name /\
     2 <= length group)
  /\ NoDup (JsMap.keys (findDuplicates allComponents))
  /\ findDuplicates allComponents = findDuplicates (List.filter isRelevant allComponents)
  /\ (forall names name,
        In name names -> 2 <= length (exactMatches allComponents name) ->
        In (name, exactMatches allComponents name)
           (snd (matchNames allComponents names))).
Proof.
  split; [intros name group; apply findDuplicates_In|].
  split; [|split].
  - rewrite findDuplicates_filter. unfold grouped.
    rewrite keys_filter_tabulate. apply NoDup_List_filter, distinct_NoDup.
  - rewrite !findDuplicates_filter, filter_filter_id. reflexivity.
  - intros names name Hin Hlen. rewrite matchNames_duplicates.
    unfold tabulate. apply in_map_iff. exists name. split; [reflexivity|].
    apply ambiguous_distinct; [exact Hin | lia].
Qed.

(** ** Extraction *)

Lemma fold_invoke_callsAt {St} (cb : Node -> list string -> nat -> St -> St)
    root path depth poss s :
  fold_left (invoke cb root path depth) poss s =
  fold_left (replay cb) (callsAt root path depth poss) s.
Proof.
  revert s. induction poss as [|pos poss IH]; intros s; simpl; [reflexivity|].
  unfold callsAt in *. simpl. rewrite fold_left_app, <- IH. f_equal.
  unfold invoke, replay. destruct (visit_at root path depth pos) as [[[n p] d]|]; reflexivity.
Qed.

Lemma fold_record (vs acc : list (Node * list string * nat)) :
  fold_left (replay (fun n p d acc => acc ++ [(n, p, d)])) vs acc = acc ++ vs.
Proof.
  revert acc. induction vs as [|[[n p] d] vs IH]; intros acc; simpl.
  - rewrite app_nil_r. reflexivity.
  - rewrite IH. unfold replay. cbn [fst snd]. rewrite <- app_assoc. reflexivity.
Qed.

(** The recorded calls are the calls at the visible positions. *)
Lemma visits_callsAt root path depth :
  visits root path depth =
  callsAt root path depth (List.filter (visible root) (positions root)).
Proof.
  unfold visits. rewrite traverseNode_positions, fold_invoke_callsAt, fold_record.
  reflexivity.
Qed.

(** A traversal with any visitor is the replay of its recorded calls. *)
Lemma traverseNode_replay {St} (cb : Node -> list string -> nat -> St -> St)
    root path depth s :
  traverseNode root cb path depth s = fold_left (replay cb) (visits root path depth) s.
Proof.
  rewrite traverseNode_positions, fold_invoke_callsAt, visits_callsAt. reflexivity.
Qed.

Lemma pass_replay {St} (cb : Node -> list string -> nat -> St -> St) roots s :
  fold_left (fun acc node => traverseNode node cb [] 0 acc) roots s =
  fold_left (replay cb) (visitsAll roots) s.
Proof.
  revert s. induction roots as [|r roots IH]; intros s; simpl; [reflexivity|].
  unfold visitsAll in *. simpl. rewrite fold_left_app, <- IH, traverseNode_replay.
  reflexivity.
Qed.

Lemma secondPass_visits sets roots :
  secondPass sets roots =
  map (fun v => toComponent sets (fst (fst v)) (snd (fst v)))
    (List.filter isComponentVisit (visitsAll roots)).
Proof.
  unfold secondPass. rewrite pass_replay.
  assert (H : forall vs acc,
    fold_left (replay (collectComponent sets)) vs acc =
    acc ++ map (fun v => toComponent sets (fst (fst v)) (snd (fst v)))
             (List.filter isComponentVisit vs)).
  { induction vs as [|v vs IH]; intros acc; simpl.
    - rewrite app_nil_r. reflexivity.
    - rewrite IH. unfold replay, collectComponent, isComponentVisit.
      destruct (String.eqb (node_type (fst (fst v))) "COMPONENT"); simpl.
      + rewrite <- app_assoc. reflexivity.
      + reflexivity. }
  apply (H _ []).
Qed.

Lemma last_cons_filter {A} (x : A) (l : list A) :
  last (x :: l) = match last l with Some y => Some y | None => Some x end.
Proof. destruct l as [|y l]; [reflexivity|]. simpl. destruct (last (y :: l)) eqn:H; [reflexivity|].
  apply last_None in H. discriminate. Qed.

Lemma firstPass_lookup roots sid :
  firstPass roots !! sid = collectedSet roots sid.
Proof.
  unfold firstPass, collectedSet. rewrite pass_replay.
  assert (H : forall vs (m : gmap string (Node * list string)),
    fold_left (replay collectSet) vs m !! sid =
    match last (List.filter (isSetVisit sid) vs) with
    | Some v => Some (fst v)
    | None => m !! sid
    end).
  { induction vs as [|[[n p] d] vs IH]; intros m; simpl; [reflexivity|].
    rewrite IH. unfold replay, collectSet, isSetVisit. simpl.
    destruct (String.eqb (node_type n) "COMPONENT_SET"); simpl; [|reflexivity].
    destruct (String.eqb_spec (node_id n) sid) as [->|Hne].
    - rewrite last_cons_filter.
      destruct (last (List.filter _ vs)); [reflexivity|].
      apply lookup_insert_eq.
    - destruct (last (List.filter _ vs)); [reflexivity|].
      apply lookup_insert_ne. exact Hne. }
  rewrite H. destruct (last _); reflexivity.
Qed.

Lemma collectedSet_Some roots sid setNode setPath :
  collectedSet roots sid = Some (setNode, setPath) ->
  node_type setNode = "COMPONENT_SET" /\ node_id setNode = sid /\
  exists depth, In (setNode, setPath, depth) (visitsAll roots).
Proof.
  unfold collectedSet. destruct (last _) as [[[n p] d]|] eqn:Hlast; [|discriminate].
  simpl. intros H. inversion H; subst.
  apply last_Some in Hlast as [l' Hl'].
  assert (Hin : In (setNode, setPath, d) (List.filter (isSetVisit sid) (visitsAll roots))).
  { rewrite Hl'. apply in_app_iff. right. left. reflexivity. }
  apply List.filter_In in Hin as [Hin Hp]. unfold isSetVisit in Hp. simpl in Hp.
  apply andb_true_iff in Hp as [Ht Hi].
  apply String.eqb_eq in Ht, Hi. repeat split; try assumption. exists d. exact Hin.
Qed.

Lemma collectedSet_None roots sid :
  collectedSet roots sid = None <->
  forall setNode setPath depth,
    In (setNode, setPath, depth) (visitsAll roots) ->
    node_type setNode = "COMPONENT_SET" -> node_id setNode <> sid.
Proof.
  unfold collectedSet. split.
  - destruct (last _) eqn:Hlast; [discriminate|]. intros _.
    apply last_None in Hlast. intros n p d Hin Hty Hid.
    assert (H : In (n, p, d) (List.filter (isSetVisit sid) (visitsAll roots))).
    { apply List.filter_In. split; [exact Hin|]. unfold isSetVisit. simpl.
      rewrite Hty, Hid, !String.eqb_refl. reflexivity. }
    rewrite Hlast in H. destruct H.
  - intros H. destruct (last _) as [[[n p] d]|] eqn:Hlast; [|reflexivity].
    exfalso. apply last_Some in Hlast as [l' Hl'].
    assert (Hin : In (n, p, d) (List.filter (isSetVisit sid) (visitsAll roots))).
    { rewrite Hl'. apply in_app_iff. right. left. reflexivity. }
    apply List.filter_In in Hin as [Hin Hp]. unfold isSetVisit in Hp. simpl in Hp.
    apply andb_true_iff in Hp as [Ht Hi]. apply String.eqb_eq in Ht, Hi.
    exact (H n p d Hin Ht Hi).
Qed.

(** C4.  Extraction is a two-pass join over the traversal roots.  The
    result holds, in traversal order, one record for every COMPONENT
    node the traversal visits; the record's [componentSetId] is the
    node's ([node.componentSetId || null], so an empty string counts as
    absent).  When that identifier is the identifier of a COMPONENT_SET
    node collected in the first pass over the same roots, the record's
    [componentSet] holds the identifier and the name and path of that
    set (of the last one visited, should several carry the identifier);
    when it is absent or matches no collected set, [componentSet] is
    null. *)
Theorem C4_component_set_join (fileData : FileData) (pageId pageName : Selector) :
  let roots :=
    nodesToProcess (document fileData)
      (snd (searchPages (document fileData) (toArray pageId) (toArray pageName))) in
  let record := fun node path => toComponent (firstPass roots) node path in
  snd (extractComponents fileData pageId pageName) =
    map (fun v => record (fst (fst v)) (snd (fst v)))
      (List.filter isComponentVisit (visitsAll roots))
  /\ (forall node path,
        c_componentSetId (record node path) = Str.truthy (node_componentSetId node))
  /\ (forall node path sid setNode setPath,
        c_componentSetId (record node path) = Some sid ->
        collectedSet roots sid = Some (setNode, setPath) ->
        c_componentSet (record node path) =
          Some {| cs_id := sid; cs_name := node_name setNode; cs_path := setPath |})
  /\ (forall node path,
        c_componentSetId (record node path) = None \/
        (exists sid, c_componentSetId (record node path) = Some sid /\
                     collectedSet roots sid = None) ->
        c_componentSet (record node path) = None)
  /\ (forall sid setNode setPath,
        collectedSet roots sid = Some (setNode, setPath) ->
        node_type setNode = "COMPONENT_SET" /\ node_id setNode = sid /\
        exists depth, In (setNode, setPath, depth) (visitsAll roots))
  /\ (forall sid,
        collectedSet roots sid = None <->
        forall setNode setPath depth,
          In (setNode, setPath, depth) (visitsAll roots) ->
          node_type setNode = "COMPONENT_SET" -> node_id setNode <> sid).
Proof.
  intros roots record. split; [|split; [|split; [|split; [|split]]]].
  - unfold extractComponents. cbn [snd]. apply secondPass_visits.
  - reflexivity.
  - intros node path sid setNode setPath Hsid Hset. subst record.
    unfold toComponent, parentComponentSet in *. cbn [c_componentSet c_componentSetId] in *.
    rewrite Hsid, firstPass_lookup, Hset. reflexivity.
  - intros node path H. subst record.
    unfold toComponent, parentComponentSet in *. cbn [c_componentSet c_componentSetId] in *.
    destruct H as [->|[sid [-> Hnone]]]; [reflexivity|].
    rewrite firstPass_lookup, Hnone. reflexivity.
  - apply collectedSet_Some.
  - apply collectedSet_None.
Qed.

Lemma findPages_allNodes pageIds pageNames node :
  snd (findPages pageIds pageNames node) =
  List.filter (isPageMatch pageIds pageNames) (allNodes node).
Proof.
  induction node as [i nm ty cs bb d sid IH] using Node_children_ind.
  cbn [findPages allNodes List.filter snd node_children].
  set (node := mkNode i nm ty cs bb d sid).
  assert (Hbelow :
    snd ((fix each (cs0 : list Node) : list Event * list Node :=
            match cs0 with
            | [] => ([], [])
            | child :: rest =>
                (fst (findPages pageIds pageNames child) ++ fst (each rest),
                 snd (findPages pageIds pageNames child) ++ snd (each rest))
            end) cs) =
    List.filter (isPageMatch pageIds pageNames) (flat_map allNodes cs)).
  { clear node. induction cs as [|c r IHr]; [reflexivity|].
    apply Forall_cons in IH as [Hc Hr]. cbn [snd flat_map].
    rewrite List.filter_app, Hc, IHr by exact Hr. reflexivity. }
  rewrite Hbelow. destruct (isPageMatch pageIds pageNames node); reflexivity.
Qed.

(** The traversal roots of [extractComponents]. *)
Lemma extractComponents_roots fileData pageId pageName :
  let root := document fileData in
  let matched :=
    List.filter (isPageMatch (toArray pageId) (toArray pageName)) (allNodes root) in
  nodesToProcess root (snd (searchPages root (toArray pageId) (toArray pageName))) =
  if selectorsSupplied pageId pageName && (0 <? length matched)%nat
  then matched else [root].
Proof.
  intros root matched. unfold searchPages, nodesToProcess.
  fold (selectorsSupplied pageId pageName).
  destruct (selectorsSupplied pageId pageName); cbn [snd andb]; [|reflexivity].
  rewrite findPages_allNodes. reflexivity.
Qed.

(** C9.  When page selectors are supplied, the traversal roots of the
    extraction are the CANVAS nodes of the document, hidden ones
    included, whose identifier or name is among the selectors, in
    document order; when no page matches, the extraction prints a
    warning and traverses the whole document, with the result it has
    without selectors.  The list of traversal roots is never empty. *)
Theorem C9_page_selectors_fall_back (fileData : FileData) (pageId pageName : Selector) :
  let root := document fileData in
  let matched :=
    List.filter (isPageMatch (toArray pageId) (toArray pageName)) (allNodes root) in
  let roots :=
    if selectorsSupplied pageId pageName && (0 <? length matched)%nat
    then matched else [root] in
  snd (extractComponents fileData pageId pageName) = secondPass (firstPass roots) roots
  /\ roots <> []
  /\ (selectorsSupplied pageId pageName = true -> matched <> [] -> roots = matched)
  /\ (selectorsSupplied pageId pageName = true -> matched = [] ->
      roots = [root] /\
      snd (extractComponents fileData pageId pageName) =
        snd (extractComponents fileData (SelStr "") (SelStr "")) /\
      last (fst (extractComponents fileData pageId pageName)) = Some noPagesWarning).
Proof.
  intros root matched roots.
  pose proof (extractComponents_roots fileData pageId pageName) as Hroots.
  cbv zeta in Hroots. fold root matched roots in Hroots.
  assert (Hsnd : snd (extractComponents fileData pageId pageName) =
                 secondPass (firstPass roots) roots).
  { unfold extractComponents. cbn [snd]. fold root. rewrite Hroots. reflexivity. }
  split; [exact Hsnd|]. split; [|split].
  - subst roots. destruct (_ && _) eqn:H; [|discriminate].
    apply andb_true_iff in H as [_ H]. destruct matched; [discriminate H|discriminate].
  - intros Hs Hm. subst roots. rewrite Hs.
    destruct matched; [congruence|reflexivity].
  - intros Hs Hm. assert (Hr : roots = [root]) by (subst roots; rewrite Hm, Hs; reflexivity).
    split; [exact Hr|]. split.
    + rewrite Hsnd, Hr. reflexivity.
    + unfold extractComponents, searchPages. cbn [fst].
      fold (selectorsSupplied pageId pageName). rewrite Hs. cbn [fst snd].
      rewrite findPages_allNodes. fold root matched. rewrite Hm. cbn [length Nat.ltb Nat.leb].
      apply last_snoc.
Qed.

Lemma string_append_assoc (a b c : string) : (a +:+ b) +:+ c = a +:+ b +:+ c.
Proof.
  induction a as [|x a IH]; [reflexivity|].
  change (String x ((a +:+ b) +:+ c) = String x (a +:+ b +:+ c)). rewrite IH. reflexivity.
Qed.

Lemma string_append_nil_r (a : string) : a +:+ "" = a.
Proof.
  induction a as [|x a IH]; [reflexivity|].
  change (String x (a +:+ "") = String x a). rewrite IH. reflexivity.
Qed.

(** ** The export pipelines *)

Lemma ensureDirs_app a b : ensureDirs (a ++ b) = ensureDirs a ++ ensureDirs b.
Proof. apply flat_map_app. Qed.

Lemma written_app a b : written (a ++ b) = written a ++ written b.
Proof. apply flat_map_app. Qed.

Lemma writeAttempts_app a b : writeAttempts (a ++ b) = writeAttempts a ++ writeAttempts b.
Proof. apply flat_map_app. Qed.

(** Case analysis on every reply of the outside world a run consults. *)
Ltac split_run :=
  repeat match goal with
         | |- context [match ?x with _ => _ end] =>
             lazymatch x with
             | context [match _ with _ => _ end] => fail
             | _ => destruct x eqn:?
             end
         end.

Ltac unfold_run :=
  unfold lift; unfold try_catch, bind, emit, emit_all, request_of, fs_op, ret, throw, process_exit.

(** Computing the projections of a trace assembled from known pieces. *)
Ltac project :=
  unfold ensureDirs, writeAttempts, written in *;
  cbn [flat_map app]; rewrite ?flat_map_app; cbn [flat_map app];
  repeat match goal with H : flat_map _ _ = _ |- _ => rewrite H end;
  cbn [flat_map app].

Ltac close_trace :=
  rewrite <- ?app_assoc; cbn [app]; reflexivity.

(** [handleApiError] only prints. *)
Lemma handleApiError_run error t :
  exists evs, handleApiError error t = (t ++ evs, Ret tt) /\
              forallb isConsole evs = true.
Proof.
  unfold handleApiError. unfold_run. split_run;
    (eexists; split; [close_trace | reflexivity]).
Qed.

Lemma noFs_projections evs :
  noFs evs -> ensureDirs evs = [] /\ writeAttempts evs = [] /\ written evs = [].
Proof.
  unfold noFs, ensureDirs, writeAttempts, written.
  induction evs as [|ev evs IH]; simpl; [auto|].
  intros H. apply andb_true_iff in H as [Hev Hevs].
  destruct (IH Hevs) as (-> & -> & ->).
  destruct ev; try discriminate; auto.
Qed.

Lemma noFs_app a b : noFs a -> noFs b -> noFs (a ++ b).
Proof. unfold noFs. intros Ha Hb. rewrite forallb_app, Ha, Hb. reflexivity. Qed.

Lemma console_noFs evs : forallb isConsole evs = true -> noFs evs.
Proof.
  unfold noFs. apply forallb_impl. intros ev. destruct ev; simpl; congruence.
Qed.

Section Pipelines.
Variable world : World.

(** [getImageUrls] touches no file and never leaves the process. *)
Lemma getImageUrls_run fileId components format scale platform t :
  exists evs o,
    getImageUrls world fileId components format scale platform t = (t ++ evs, o) /\
    noFs evs /\ (forall code, o <> Exit code).
Proof.
  unfold getImageUrls. unfold_run.
  destruct (figma_get_images world t fileId _ format scale) as [error|[urls|]].
  - destruct (handleApiError_run error
                (t ++ [GetImages fileId (Str.join "," (map c_id components)) format scale]))
      as [evs [-> Hc]].
    eexists. eexists. split; [close_trace|]. split; [|discriminate].
    apply (noFs_app [_]); [reflexivity | apply console_noFs, Hc].
  - eexists. eexists. split; [reflexivity|]. split; [reflexivity|discriminate].
  - match goal with |- context [handleApiError ?e ?t'] =>
      destruct (handleApiError_run e t') as [evs [-> Hc]] end.
    eexists. eexists. split; [close_trace|]. split; [|discriminate].
    apply (noFs_app [_]); [reflexivity | apply console_noFs, Hc].
Qed.

Lemma downloadImage_run url t :
  exists evs o,
    downloadImage world url t = (t ++ evs, o) /\
    noFs evs /\ (forall code, o <> Exit code).
Proof.
  unfold downloadImage. unfold_run.
  destruct (axios_get world t url);
    (eexists; eexists; split; [close_trace|]; split; [reflexivity|discriminate]).
Qed.

Lemma downloadSvg_run url t :
  exists evs o,
    downloadSvg world url t = (t ++ evs, o) /\
    noFs evs /\ (forall code, o <> Exit code).
Proof.
  unfold downloadSvg. unfold_run.
  destruct (axios_get world t url);
    (eexists; eexists; split; [close_trace|]; split; [reflexivity|discriminate]).
Qed.

Variable config : Config.
Variable fileId : string.
Variable component : Component.
Variable fileNameBase : string.
Variables imageCounter totalImages : nat.

(** One Android density: the directory is ensured, at most the one
    file is written, the loop goes on, and the variant counts as failed
    exactly when its file was not written. *)
Lemma processDpi_run dpi t :
  exists evs failedHere,
    processDpi world config fileId component fileNameBase imageCounter totalImages dpi t =
      (t ++ evs, Ret failedHere) /\
    ensureDirs evs = ifDefined (images_path config) [drawableDir config dpi] /\
    (writeAttempts evs = [] \/ writeAttempts evs = [drawableFile config fileNameBase dpi]) /\
    written evs = (if failedHere then [] else [drawableFile config fileNameBase dpi]).
Proof.
  unfold processDpi, path_join_root, ensureDir, writeFile.
  destruct (images_path config) as [root|] eqn:Hroot; cbn [ifDefined].
  2:{ unfold_run. eexists. eexists. split; [close_trace|]. project. auto. }
  assert (Hdir : path_join [root] ("drawable-" +:+ dpi) = drawableDir config dpi)
    by (unfold drawableDir; rewrite Hroot; reflexivity).
  unfold_run. rewrite Hdir.
  change (path_join (drawableDir config dpi) (fileNameBase +:+ "." +:+ images_format config))
    with (drawableFile config fileNameBase dpi).
  destruct (fs_ensureDir world _ (drawableDir config dpi)) as [error|[]];
    cbv beta iota.
  { eexists. eexists. split; [close_trace|]. project. auto. }
  match goal with |- context [getImageUrls world ?a ?b ?c ?d ?e ?t'] =>
    destruct (getImageUrls_run a b c d e t') as (e1 & o1 & -> & Hfs1 & Hexit1) end.
  apply noFs_projections in Hfs1 as (Hd1 & Ha1 & Hw1).
  destruct o1 as [urls|error|code]; [| |exfalso; eapply Hexit1; reflexivity].
  2:{ eexists. eexists. split; [close_trace|]. project. auto. }
  destruct (Str.truthy (urls (c_id component))) as [imageUrl|].
  2:{ eexists. eexists. split; [close_trace|]. project. auto. }
  match goal with |- context [downloadImage world ?u ?t'] =>
    destruct (downloadImage_run u t') as (e2 & o2 & -> & Hfs2 & Hexit2) end.
  apply noFs_projections in Hfs2 as (Hd2 & Ha2 & Hw2).
  destruct o2 as [downloaded|error|code]; [| |exfalso; eapply Hexit2; reflexivity].
  2:{ eexists. eexists. split; [close_trace|]. project. auto. }
  destruct (String.eqb (images_format config) "webp");
    [destruct (sharp_webp world downloaded (images_quality config)) as [error|image]|];
    cbv beta iota;
    try match goal with |- context [fs_writeFile world ?t' ?p ?c] =>
          destruct (fs_writeFile world t' p c) as [error'|[]] end;
    (eexists; eexists; split; [close_trace|]; project; auto).
Qed.
(** The loop over the densities: every density is attempted in order
    whatever happened to the ones before it; files are written only
    at their places; and the component counts as failed exactly when
    some file is missing. *)
Lemma dpiLoop_run dpis : forall failed t,
  exists evs failed',
    dpiLoop world config fileId component fileNameBase imageCounter totalImages dpis
      failed t = (t ++ evs, Ret failed') /\
    ensureDirs evs = ifDefined (images_path config) (map (drawableDir config) dpis) /\
    sublist (writeAttempts evs) (map (drawableFile config fileNameBase) dpis) /\
    length (written evs) <= length dpis /\
    (failed' = false <->
     failed = false /\ written evs = map (drawableFile config fileNameBase) dpis).
Proof.
  induction dpis as [|dpi dpis IH]; intros failed t.
  - exists [], failed. simpl. rewrite app_nil_r.
    repeat split; try reflexivity; try tauto; try constructor.
    destruct (images_path config); reflexivity.
  - simpl. unfold bind.
    destruct (processDpi_run dpi t) as (e1 & b & -> & Hd1 & Ha1 & Hw1).
    destruct (IH (failed || b) (t ++ e1)) as (e2 & f' & -> & Hd2 & Ha2 & Hlen2 & Hiff).
    exists (e1 ++ e2), f'. split; [rewrite app_assoc; reflexivity|].
    rewrite ensureDirs_app, writeAttempts_app, written_app, Hd1, Hd2, Hw1.
    split; [destruct (images_path config); reflexivity|]. split; [|split].
    + destruct Ha1 as [->| ->]; simpl.
      * apply sublist_cons, Ha2.
      * apply sublist_skip, Ha2.
    + destruct b; simpl; lia.
    + rewrite Hiff, orb_false_iff. destruct b; simpl.
      * split; [intros [[_ H] _]; discriminate|].
        intros [_ H]. simpl in H. rewrite H in Hlen2. simpl in Hlen2.
        rewrite length_map in Hlen2. lia.
      * split; [intros [[H _] ->]; auto|].
        intros [H1 H2]. injection H2 as H2. auto.
Qed.

(** An Android component: all of the above, and the name is recorded
    exactly when every file was written. *)
Lemma processImage_android_run processed t :
  platform config = "android" ->
  fileNameBase = images_prefix config +:+ sanitizedName world (c_name component) "img/" ->
  exists evs names,
    processImage world config fileId totalImages component imageCounter processed t =
      (t ++ evs, Ret names) /\
    ensureDirs evs =
      ifDefined (images_path config) (map (drawableDir config) (dpisToProcess config)) /\
    sublist (writeAttempts evs)
      (map (drawableFile config fileNameBase) (dpisToProcess config)) /\
    names = (if decide (written evs =
                        map (drawableFile config fileNameBase) (dpisToProcess config))
             then set_add (c_name component) processed
             else processed).
Proof.
  intros Hplat Hbase. unfold processImage, bind. rewrite Hplat, <- Hbase.
  cbn [String.eqb Ascii.eqb Bool.eqb].
  destruct (dpiLoop_run (dpisToProcess config) false t)
    as (evs & failed' & -> & Hd & Ha & _ & Hiff).
  destruct failed'; cbn [negb]; unfold ret; exists evs; eexists;
    (split; [reflexivity|]); (split; [exact Hd|]); (split; [exact Ha|]).
  - destruct (decide _) as [Heq|Hne]; [|reflexivity].
    destruct Hiff as [_ Hiff]. discriminate Hiff. auto.
  - destruct (decide _) as [Heq|Hne]; [reflexivity|].
    exfalso. apply Hne, Hiff. reflexivity.
Qed.
(** With an undefined [images.path] a density fails before anything
    is asked of the filesystem or of the rendering API. *)
Lemma processDpi_undefined dpi t :
  images_path config = None ->
  exists evs,
    processDpi world config fileId component fileNameBase imageCounter totalImages dpi t =
      (t ++ evs, Ret true) /\
    forallb (fun ev => negb (isExport ev)) evs = true.
Proof.
  intros Hroot. unfold processDpi, path_join_root. rewrite Hroot. unfold_run.
  eexists. split; [close_trace|reflexivity].
Qed.

Lemma dpiLoop_undefined dpis : forall failed t,
  images_path config = None ->
  exists evs,
    dpiLoop world config fileId component fileNameBase imageCounter totalImages dpis
      failed t = (t ++ evs, Ret (failed || (0 <? length dpis)%nat)) /\
    forallb (fun ev => negb (isExport ev)) evs = true.
Proof.
  induction dpis as [|dpi dpis IH]; intros failed t Hroot.
  - exists []. simpl. rewrite app_nil_r, orb_false_r. split; reflexivity.
  - cbn [dpiLoop]. unfold bind.
    destruct (processDpi_undefined dpi t Hroot) as (e1 & -> & He1).
    destruct (IH (failed || true) (t ++ e1) Hroot) as (e2 & -> & He2).
    exists (e1 ++ e2). rewrite app_assoc, forallb_app, He1, He2.
    split; [|reflexivity]. f_equal. f_equal. cbn [length Nat.ltb Nat.leb].
    rewrite !orb_true_r. reflexivity.
Qed.

(** When every collaborator answers, the variant is written. *)
Lemma processDpi_cooperative dpi t :
  images_path config <> None ->
  cooperative world component ->
  exists evs,
    processDpi world config fileId component fileNameBase imageCounter totalImages dpi t =
      (t ++ evs, Ret false).
Proof.
  intros Hroot (Himg & Hget & Hsharp & Hdir & Hwrite).
  unfold processDpi, path_join_root, getImageUrls, downloadImage, ensureDir, writeFile.
  destruct (images_path config) as [root|]; [|congruence].
  unfold_run. rewrite Hdir. cbv beta iota.
  match goal with |- context [figma_get_images world ?t' ?a ?b ?c ?d] =>
    destruct (Himg t' a b c d) as (urls & url & Hi & Hu); rewrite Hi end.
  cbv beta iota. rewrite Hu.
  match goal with |- context [axios_get world ?t' ?u] =>
    destruct (Hget t' u) as (data & Hd); rewrite Hd end.
  cbv beta iota.
  destruct (String.eqb (images_format config) "webp").
  - destruct (Hsharp data (images_quality config)) as (image & Hs). rewrite Hs.
    cbv beta iota. rewrite Hwrite. eexists. close_trace.
  - cbv beta iota. rewrite Hwrite. eexists. close_trace.
Qed.

Lemma dpiLoop_cooperative dpis : forall failed t,
  images_path config <> None ->
  cooperative world component ->
  exists evs,
    dpiLoop world config fileId component fileNameBase imageCounter totalImages dpis
      failed t = (t ++ evs, Ret failed) /\
    written evs = map (drawableFile config fileNameBase) dpis.
Proof.
  induction dpis as [|dpi dpis IH]; intros failed t Hroot Hcoop.
  - exists []. simpl. rewrite app_nil_r. split; reflexivity.
  - simpl. unfold bind.
    destruct (processDpi_run dpi t) as (e1 & b & H1 & _ & _ & Hw1).
    destruct (processDpi_cooperative dpi t Hroot Hcoop) as (e1' & H1').
    rewrite H1 in H1'. injection H1' as Happ ->. rewrite H1.
    destruct (IH (failed || false) (t ++ e1) Hroot Hcoop) as (e2 & -> & Hw2).
    exists (e1 ++ e2). rewrite orb_false_r, app_assoc.
    split; [reflexivity|]. rewrite written_app, Hw1, Hw2. reflexivity.
Qed.
End Pipelines.

Lemma bind_Ret_inv {A B} (m : M A) (f : A -> M B) t t' v :
  bind m f t = (t', Ret v) ->
  exists a t1, m t = (t1, Ret a) /\ f a t1 = (t', Ret v).
Proof.
  unfold bind. destruct (m t) as [t1 [a|e|code]]; intros H; try discriminate.
  exists a, t1. split; [reflexivity | exact H].
Qed.

Lemma try_catch_Ret_inv {A} (m : M A) (handler : JsError -> M A) t t' v :
  try_catch m handler t = (t', Ret v) ->
  m t = (t', Ret v) \/ exists e t1, m t = (t1, Throw e) /\ handler e t1 = (t', Ret v).
Proof.
  unfold try_catch. destruct (m t) as [t1 [a|e|code]]; intros H; try discriminate.
  - left. exact H.
  - right. exists e, t1. split; [reflexivity | exact H].
Qed.

Section Names.
Variable world : World.
Variable config : Config.
Variable fileId : string.

(** Whatever the platform, a component adds at most its own name to
    the processed names. *)
Lemma processImage_names total component counter processed t t' names :
  processImage world config fileId total component counter processed t = (t', Ret names) ->
  names = processed \/ names = set_add (c_name component) processed.
Proof.
  unfold processImage. intros H.
  apply bind_Ret_inv in H as (failed & t1 & _ & H).
  destruct failed; inversion H; auto.
Qed.

Lemma imageLoop_names total components : forall counter processed t t' names,
  imageLoop world config fileId total components counter processed t = (t', Ret names) ->
  forall name, In name names ->
    In name processed \/ exists c, In c components /\ c_name c = name.
Proof.
  induction components as [|c cs IH]; intros counter processed t t' names H name Hin.
  - inversion H; subst. left. exact Hin.
  - simpl in H. apply bind_Ret_inv in H as (names1 & t1 & H1 & H2).
    destruct (IH _ _ _ _ _ H2 name Hin) as [Hp|[c' [Hc' Hn]]].
    + apply processImage_names in H1 as [->| ->].
      * left. exact Hp.
      * apply set_add_In in Hp as [->|Hp]; [right; exists c; split; [left|]; reflexivity|].
        left. exact Hp.
    + right. exists c'. split; [right; exact Hc' | exact Hn].
Qed.

Lemma processImages_names components t t' names :
  processImages world components fileId config t = (t', Ret names) ->
  forall name, In name names -> exists c, In c components /\ c_name c = name.
Proof.
  unfold processImages. destruct (_ =? 0)%nat.
  - intros H name Hin. inversion H; subst. destruct Hin.
  - intros H name Hin. apply bind_Ret_inv in H as (? & t1 & _ & H).
    destruct (imageLoop_names _ _ _ _ _ _ _ H name Hin) as [[]|[c [Hc Hn]]].
    exists c. split; [|exact Hn]. apply List.filter_In in Hc. tauto.
Qed.

Lemma processIcon_names iconUrls total component counter processed t t' names :
  processIcon world config iconUrls total component counter processed t = (t', Ret names) ->
  names = processed \/ names = set_add (c_name component) processed.
Proof.
  unfold processIcon. destruct (Str.truthy _) as [imageUrl|]; intros H.
  - apply bind_Ret_inv in H as (? & t1 & _ & H).
    apply try_catch_Ret_inv in H as [H|(e & t2 & _ & H)].
    + apply bind_Ret_inv in H as (? & ? & _ & H).
      apply bind_Ret_inv in H as (? & ? & _ & H).
      apply bind_Ret_inv in H as (? & ? & _ & H).
      apply bind_Ret_inv in H as (? & ? & _ & H).
      inversion H. auto.
    + apply bind_Ret_inv in H as (? & ? & _ & H).
      apply bind_Ret_inv in H as (? & ? & _ & H).
      inversion H. auto.
  - apply bind_Ret_inv in H as (? & ? & _ & H). inversion H. auto.
Qed.

Lemma iconLoop_names iconUrls total components : forall counter processed t t' names,
  iconLoop world config iconUrls total components counter processed t = (t', Ret names) ->
  forall name, In name names ->
    In name processed \/ exists c, In c components /\ c_name c = name.
Proof.
  induction components as [|c cs IH]; intros counter processed t t' names H name Hin.
  - inversion H; subst. left. exact Hin.
  - simpl in H. apply bind_Ret_inv in H as (names1 & t1 & H1 & H2).
    destruct (IH _ _ _ _ _ H2 name Hin) as [Hp|[c' [Hc' Hn]]].
    + apply processIcon_names in H1 as [->| ->].
      * left. exact Hp.
      * apply set_add_In in Hp as [->|Hp]; [right; exists c; split; [left|]; reflexivity|].
        left. exact Hp.
    + right. exists c'. split; [right; exact Hc' | exact Hn].
Qed.

Lemma processIcons_names components t t' names :
  processIcons world components fileId config t = (t', Ret names) ->
  forall name, In name names -> exists c, In c components /\ c_name c = name.
Proof.
  unfold processIcons. destruct (_ =? 0)%nat.
  - intros H name Hin. inversion H; subst. destruct Hin.
  - intros H name Hin.
    apply bind_Ret_inv in H as (? & ? & _ & H).
    apply bind_Ret_inv in H as (? & ? & _ & H).
    apply bind_Ret_inv in H as (urls & ? & _ & H).
    destruct urls as [iconUrls|]; [|inversion H; subst; destruct Hin].
    destruct (iconLoop_names _ _ _ _ _ _ _ _ H name Hin) as [[]|[c [Hc Hn]]].
    exists c. split; [|exact Hn]. apply List.filter_In in Hc. tauto.
Qed.
End Names.

(** ** The whole run *)

Section Run.
Variable world : World.
Variable cli : Cli.
Variable config : Config.
Hypothesis Hconfig : loadConfig world = Some config.
Hypothesis Hfind : findDuplicate cli = false.

Lemma main_banner t :
  ((((t ++ [Console Stdout Blue "Figma Asset Downloader"]) ++
      [Console Stdout Blue "======================"]) ++
     [Console Stdout Green ("Loaded configuration for file: " +:+ fileId config)]) ++
    [Console Stdout Green ("Platform: " +:+ platform config)]) = t ++ banner config.
Proof. unfold banner. rewrite <- !app_assoc. reflexivity. Qed.

(** A run in which [fetchComponents] leaves the process. *)
Lemma main_fetch_exit t t1 code :
  fetchComponents world cli (fileId config) (componentNames cli) (pageId config)
    (pageName config) (t ++ banner config) = (t1, Exit code) ->
  main world cli t = (t1, Exit code).
Proof.
  intros H. unfold main, try_catch, bind, emit, ret.
  rewrite Hconfig, Hfind, main_banner, H. reflexivity.
Qed.

(** A run in which both pipelines come back. *)
Lemma main_run t t1 components t2 icons t3 images :
  fetchComponents world cli (fileId config) (componentNames cli) (pageId config)
    (pageName config) (t ++ banner config) = (t1, Ret components) ->
  processIcons world components (fileId config) config t1 = (t2, Ret icons) ->
  processImages world components (fileId config) config t2 = (t3, Ret images) ->
  main world cli t = (t3 ++ closingReport cli components icons images, Ret tt).
Proof.
  intros Hf Hi Hm. unfold main, try_catch, bind, emit, emit_all, ret.
  rewrite Hconfig, Hfind, main_banner, Hf, Hi, Hm.
  unfold closingReport. fold (unprocessed cli icons images).
  destruct (0 <? length (unprocessed cli icons images))%nat;
    rewrite <- ?app_assoc; reflexivity.
Qed.
End Run.

(** [fetchComponents] never throws, never returns an empty list, and
    leaves the process only with status 1. *)
Lemma fetchComponents_outcome world cli fileId names pageId pageName t :
  match snd (fetchComponents world cli fileId names pageId pageName t) with
  | Ret components => components <> []
  | Throw _ => False
  | Exit code => code = 1%Z
  end.
Proof.
  unfold fetchComponents. unfold_run.
  destruct (figma_get_file world _ fileId) as [error|fileData]; cbv beta iota.
  - match goal with |- context [handleApiError ?e ?t'] =>
      destruct (handleApiError_run e t') as [evs [-> _]] end.
    reflexivity.
  - destruct (Str.truthy (sectionName cli)) as [section|] eqn:Hsec.
    + destruct (length (List.filter _ _) =? 0)%nat eqn:Hlen; cbv beta iota; [reflexivity|].
      destruct (0 <? length names)%nat; cbv beta iota.
      * destruct (0 <? JsMap.size _)%nat; cbv beta iota; [reflexivity|].
        destruct (length (JsMap.values _) =? 0)%nat eqn:Hv; cbv beta iota; [reflexivity|].
        cbn [snd]. intros H. rewrite H in Hv. discriminate.
      * unfold Str.is_truthy. rewrite Hsec, andb_false_r. cbv beta iota.
        rewrite Hlen. cbn [snd]. intros H. rewrite H in Hlen. discriminate.
    + destruct (0 <? length names)%nat; cbv beta iota.
      * destruct (0 <? JsMap.size _)%nat; cbv beta iota; [reflexivity|].
        destruct (length (JsMap.values _) =? 0)%nat eqn:Hv; cbv beta iota; [reflexivity|].
        cbn [snd]. intros H. rewrite H in Hv. discriminate.
      * unfold Str.is_truthy. rewrite Hsec.
        destruct (downloadAll cli); cbn [negb andb]; cbv beta iota; [|reflexivity].
        destruct (length (snd _) =? 0)%nat eqn:Hlen; cbv beta iota; [reflexivity|].
        cbn [snd]. intros H. rewrite H in Hlen. discriminate.
Qed.

(** When [fetchComponents] returns, it returns the resolved set. *)
Lemma fetchComponents_returns world cli fileId pageId pageName t fileData components :
  figma_get_file world (t ++ [startFetch]) fileId = inr fileData ->
  snd (fetchComponents world cli fileId (componentNames cli) pageId pageName t) =
    Ret components ->
  components = resolvedSet cli (snd (extractComponents fileData pageId pageName)).
Proof.
  intros Hfile. unfold fetchComponents, resolvedSet. unfold_run. fold startFetch.
  rewrite Hfile. cbv beta iota.
  fold (resolvedByName (snd (extractComponents fileData pageId pageName)) (componentNames cli)).
  destruct (Str.truthy (sectionName cli)) as [section|] eqn:Hsec.
  - fold (inSection section (snd (extractComponents fileData pageId pageName))).
    destruct (length (inSection _ _) =? 0)%nat eqn:Hlen; cbv beta iota; [discriminate|].
    destruct (0 <? length (componentNames cli))%nat; cbv beta iota.
    + destruct (0 <? JsMap.size _)%nat; cbv beta iota; [discriminate|].
      rewrite matchNames_nameMap.
      destruct (length (flat_map _ _) =? 0)%nat; cbv beta iota; [discriminate|].
      cbn [snd]. intros H. inversion H. reflexivity.
    + unfold Str.is_truthy. rewrite Hsec, andb_false_r. cbv beta iota.
      rewrite Hlen. cbn [snd]. intros H. inversion H. reflexivity.
  - destruct (0 <? length (componentNames cli))%nat; cbv beta iota.
    + destruct (0 <? JsMap.size _)%nat; cbv beta iota; [discriminate|].
      rewrite matchNames_nameMap.
      destruct (length (flat_map _ _) =? 0)%nat; cbv beta iota; [discriminate|].
      cbn [snd]. intros H. inversion H. reflexivity.
    + unfold Str.is_truthy. rewrite Hsec.
      destruct (downloadAll cli); cbn [negb andb]; cbv beta iota; [|discriminate].
      destruct (length (snd _) =? 0)%nat; cbv beta iota; [discriminate|].
      cbn [snd]. intros H. inversion H. reflexivity.
Qed.

Lemma fetchComponents_empty_exits world cli fileId pageId pageName t fileData :
  figma_get_file world (t ++ [startFetch]) fileId = inr fileData ->
  resolvedSet cli (snd (extractComponents fileData pageId pageName)) = [] ->
  snd (fetchComponents world cli fileId (componentNames cli) pageId pageName t) = Exit 1.
Proof.
  intros Hfile Hempty.
  pose proof (fetchComponents_outcome world cli fileId (componentNames cli) pageId pageName t)
    as Hout.
  destruct (snd (fetchComponents _ _ _ _ _ _ _)) as [components|e|code] eqn:Hres.
  - exfalso. apply Hout.
    rewrite (fetchComponents_returns _ _ _ _ _ _ _ _ Hfile Hres). exact Hempty.
  - destruct Hout.
  - rewrite Hout. reflexivity.
Qed.

Lemma unmatched_not_resolved all names name :
  exactMatches all name = [] ->
  ~ exists component, In component (resolvedByName all names) /\ c_name component = name.
Proof.
  intros Hem [c [Hc Hn]]. apply resolvedByName_name in Hc as (_ & _ & Hone).
  rewrite Hn, Hem in Hone. discriminate.
Qed.

Lemma fold_set_add_mem (l s : list string) (x : string) :
  Str.mem x (fold_left (fun names name => set_add name names) l s) = true ->
  In x l \/ In x s.
Proof. intros H. apply mem_In, fold_set_add_In in H. exact H. Qed.

(** ** Runs in which every collaborator answers *)

Lemma addNames_In components processed name :
  In name (addNames components processed) <->
  (exists component, In component components /\ c_name component = name) \/
  In name processed.
Proof.
  unfold addNames. rewrite fold_set_add_In, in_map_iff. firstorder.
Qed.

Section Exports.
Variable world : World.
Variable config : Config.
Variable fileId : string.

(** One icon whose URL, download, conversion and filesystem operations
    all succeed: its files are written and its name is added.  A failure
    of SVGO changes neither. *)
Lemma processIcon_cooperative iconUrls total component counter processed t url :
  icons_path config <> None ->
  Str.truthy (iconUrls (c_id component)) = Some url ->
  (forall t url, exists data, axios_get world t url = inr data) ->
  (forall svg, exists xml, svg2vectordrawable world svg = inr xml) ->
  (forall t p, fs_ensureDir world t p = inr tt) ->
  (forall t p, fs_emptyDir world t p = inr tt) ->
  (forall t p content, fs_writeFile world t p content = inr tt) ->
  exists evs,
    processIcon world config iconUrls total component counter processed t =
      (t ++ evs, Ret (set_add (c_name component) processed)) /\
    written evs = iconFiles world config component.
Proof.
  intros Hroot Hurl Hget Hxml Hdir Hempty Hwrite.
  unfold processIcon, iconFiles, iconFileName. rewrite Hurl.
  unfold downloadSvg, optimizeSvg, convertSvgForPlatform, path_join_root, ensureDir, emptyDir,
    writeFile.
  destruct (icons_path config) as [root|]; [|congruence]. cbn [root_of].
  unfold_run.
  match goal with |- context [axios_get world ?t' ?u] =>
    destruct (Hget t' u) as (data & Hd); rewrite Hd end.
  cbv beta iota.
  destruct (svgo_optimize world data) as [err|opt]; cbv beta iota;
  destruct (String.eqb (platform config) "android") eqn:Hp; cbv beta iota.
  all: rewrite ?String.eqb_refl; cbv beta iota.
  all: try match goal with |- context [svg2vectordrawable world ?s] =>
    destruct (Hxml s) as (xml & Hx); rewrite Hx end; cbv beta iota.
  all: rewrite ?Hdir; cbv beta iota; rewrite ?Hempty; cbv beta iota;
       rewrite ?Hwrite; cbv beta iota.
  all: eexists; (split; [close_trace|]); reflexivity.
Qed.

Lemma iconLoop_cooperative iconUrls total components : forall counter processed t,
  icons_path config <> None ->
  (forall component, In component components ->
     exists url, Str.truthy (iconUrls (c_id component)) = Some url) ->
  (forall t url, exists data, axios_get world t url = inr data) ->
  (forall svg, exists xml, svg2vectordrawable world svg = inr xml) ->
  (forall t p, fs_ensureDir world t p = inr tt) ->
  (forall t p, fs_emptyDir world t p = inr tt) ->
  (forall t p content, fs_writeFile world t p content = inr tt) ->
  exists evs,
    iconLoop world config iconUrls total components counter processed t =
      (t ++ evs, Ret (addNames components processed)) /\
    written evs = flat_map (iconFiles world config) components.
Proof.
  induction components as [|c cs IH];
    intros counter processed t Hroot Hurls Hget Hxml Hdir Hempty Hwrite.
  - exists []. rewrite app_nil_r. split; reflexivity.
  - destruct (Hurls c (or_introl eq_refl)) as [url Hurl].
    destruct (processIcon_cooperative iconUrls total c (counter + 1) processed t url
                Hroot Hurl Hget Hxml Hdir Hempty Hwrite) as (e1 & H1 & Hw1).
    cbn [iconLoop]. unfold bind. rewrite H1.
    destruct (IH (counter + 1) (set_add (c_name c) processed) (t ++ e1) Hroot
                (fun c' Hc' => Hurls c' (or_intror Hc')) Hget Hxml Hdir Hempty Hwrite)
      as (e2 & H2 & Hw2).
    rewrite H2. exists (e1 ++ e2). split.
    + rewrite app_assoc. reflexivity.
    + rewrite written_app, Hw1, Hw2. reflexivity.
Qed.

Lemma processIcons_cooperative components t :
  icons_path config <> None ->
  cooperativeRun world (List.filter isIcon components) ->
  exists evs,
    processIcons world components fileId config t =
      (t ++ evs, Ret (addNames (List.filter isIcon components) [])) /\
    written evs = flat_map (iconFiles world config) (List.filter isIcon components).
Proof.
  intros Hroot (Hcoop & Hxml & Hempty).
  unfold processIcons. fold isIcon.
  destruct (List.filter isIcon components) as [|c cs] eqn:Hicons.
  - cbn [length Nat.eqb]. exists []. rewrite app_nil_r. split; reflexivity.
  - cbn [length Nat.eqb]. rewrite <- Hicons in *.
    destruct (Hcoop c) as (Himg & Hget & _ & Hdir & Hwrite);
      [rewrite Hicons; left; reflexivity|].
    unfold getImageUrls. unfold_run.
    match goal with |- context [figma_get_images world ?t' ?a ?b ?c ?d] =>
      destruct (Himg t' a b c d) as (urls & url & Hi & Hu); rewrite Hi;
      assert (Hurls : forall component, In component (List.filter isIcon components) ->
                exists url, Str.truthy (urls (c_id component)) = Some url)
    end.
    { intros c' Hc'. destruct (Hcoop c' Hc') as (Himg' & _).
      match type of Hi with figma_get_images world ?t' ?a ?b ?c ?d = _ =>
        destruct (Himg' t' a b c d) as (urls' & url' & Hi' & Hu') end.
      rewrite Hi in Hi'. injection Hi' as <-. exists url'. exact Hu'. }
    cbv beta iota.
    match goal with |- context [iconLoop world config urls ?n ?l ?k ?p ?t'] =>
      destruct (iconLoop_cooperative urls n l k p t' Hroot Hurls Hget Hxml Hdir Hempty Hwrite)
        as (evs & Hrun & Hw); rewrite Hrun end.
    eexists. split; [f_equal; close_trace|].
    project. reflexivity.
Qed.

Lemma getImageUrls_cooperative component format scale t :
  cooperative world component ->
  exists urls url,
    getImageUrls world fileId [component] format scale (platform config) t =
      (t ++ [GetImages fileId (c_id component) format scale], Ret urls) /\
    Str.truthy (urls (c_id component)) = Some url.
Proof.
  intros (Himg & _). unfold getImageUrls. unfold_run.
  change (Str.join "," (map c_id [component])) with (c_id component).
  destruct (Himg t fileId (c_id component) format scale) as (urls & url & Hi & Hu).
  rewrite Hi. exists urls, url. split; [reflexivity | exact Hu].
Qed.

Lemma processScale_cooperative component fileNameBase assetPath counter total entry t :
  cooperative world component ->
  exists evs,
    processScale world config fileId component fileNameBase assetPath counter total entry t =
      (t ++ evs, Ret false) /\
    written evs =
      [path_join assetPath
         (scaleFileName fileNameBase (fst entry) +:+ "." +:+ images_format config)].
Proof.
  intros Hcoop. pose proof Hcoop as (_ & Hget & _ & _ & Hwrite).
  unfold processScale. unfold bind at 1. unfold emit at 1. unfold bind at 1.
  match goal with |- context [getImageUrls world fileId [component] ?f ?s ?p ?t'] =>
    destruct (getImageUrls_cooperative component f s t' Hcoop) as (urls & url & Hrun & Hu);
    rewrite Hrun end.
  rewrite Hu. unfold downloadImage, writeFile. unfold_run.
  match goal with |- context [axios_get world ?t' ?u] =>
    destruct (Hget t' u) as (data & Hd); rewrite Hd end.
  cbv beta iota. rewrite Hwrite.
  eexists. split; [f_equal; close_trace|]. reflexivity.
Qed.

Lemma scaleLoop_cooperative component fileNameBase assetPath counter total entries :
  forall failed t,
  cooperative world component ->
  exists evs,
    scaleLoop world config fileId component fileNameBase assetPath counter total entries
      failed t = (t ++ evs, Ret failed) /\
    written evs =
      map (fun entry =>
             path_join assetPath
               (scaleFileName fileNameBase (fst entry) +:+ "." +:+ images_format config))
        entries.
Proof.
  induction entries as [|entry entries IH]; intros failed t Hcoop.
  - exists []. rewrite app_nil_r. split; reflexivity.
  - cbn [scaleLoop]. unfold bind.
    destruct (processScale_cooperative component fileNameBase assetPath counter total entry t
                Hcoop) as (e1 & -> & Hw1).
    destruct (IH (failed || false) (t ++ e1) Hcoop) as (e2 & -> & Hw2).
    exists (e1 ++ e2). rewrite orb_false_r, app_assoc. split; [reflexivity|].
    rewrite written_app, Hw1, Hw2. reflexivity.
Qed.

(** One image, on either platform: every variant is written, then the
    manifest on iOS, and the name is added. *)
Lemma processImage_cooperative total component counter processed t :
  images_path config <> None ->
  cooperative world component ->
  (forall t p, fs_emptyDir world t p = inr tt) ->
  exists evs,
    processImage world config fileId total component counter processed t =
      (t ++ evs, Ret (set_add (c_name component) processed)) /\
    written evs = imageFiles world config component.
Proof.
  intros Hroot Hcoop Hempty. pose proof Hcoop as (_ & _ & _ & Hdir & Hwrite).
  unfold processImage, imageFiles, imageFileName.
  destruct (String.eqb (platform config) "android") eqn:Hp.
  - unfold bind.
    destruct (dpiLoop_cooperative world config fileId component
                (images_prefix config +:+ sanitizedName world (c_name component) "img/")
                counter total (dpisToProcess config) false t Hroot Hcoop) as (evs & -> & Hw).
    cbn [negb]. exists evs. split; [reflexivity|]. rewrite Hw.
    unfold drawableFile, drawableDir, path_join. reflexivity.
  - unfold path_join_root, ensureDir, emptyDir, writeFile.
    destruct (images_path config) as [root|]; [|congruence]. cbn [root_of].
    unfold bind at 1. unfold bind at 1. unfold ret at 1. unfold bind at 1.
    unfold fs_op at 1. rewrite Hdir. unfold bind at 1. unfold fs_op at 1. rewrite Hempty.
    unfold bind at 1.
    match goal with |- context [scaleLoop world config fileId component ?b ?a ?c ?n ?l ?f ?t'] =>
      destruct (scaleLoop_cooperative component b a c n l f t' Hcoop) as (evs & -> & Hw) end.
    unfold_run. rewrite Hwrite. cbn [negb].
    eexists. split; [f_equal; close_trace|].
    project. reflexivity.
Qed.

Lemma imageLoop_cooperative total components : forall counter processed t,
  images_path config <> None ->
  (forall component, In component components -> cooperative world component) ->
  (forall t p, fs_emptyDir world t p = inr tt) ->
  exists evs,
    imageLoop world config fileId total components counter processed t =
      (t ++ evs, Ret (addNames components processed)) /\
    written evs = flat_map (imageFiles world config) components.
Proof.
  induction components as [|c cs IH]; intros counter processed t Hroot Hcoop Hempty.
  - exists []. rewrite app_nil_r. split; reflexivity.
  - destruct (processImage_cooperative total c (counter + 1) processed t Hroot
                (Hcoop c (or_introl eq_refl)) Hempty) as (e1 & H1 & Hw1).
    cbn [imageLoop]. unfold bind. rewrite H1.
    destruct (IH (counter + 1) (set_add (c_name c) processed) (t ++ e1) Hroot
                (fun c' Hc' => Hcoop c' (or_intror Hc')) Hempty) as (e2 & H2 & Hw2).
    rewrite H2. exists (e1 ++ e2). split.
    + rewrite app_assoc. reflexivity.
    + rewrite written_app, Hw1, Hw2. reflexivity.
Qed.

Lemma processImages_cooperative components t :
  images_path config <> None ->
  cooperativeRun world (List.filter isImage components) ->
  exists evs,
    processImages world components fileId config t =
      (t ++ evs, Ret (addNames (List.filter isImage components) [])) /\
    written evs = flat_map (imageFiles world config) (List.filter isImage components).
Proof.
  intros Hroot (Hcoop & _ & Hempty).
  unfold processImages. fold isImage.
  destruct (List.filter isImage components) as [|c cs] eqn:Himages.
  - cbn [length Nat.eqb]. exists []. rewrite app_nil_r. split; reflexivity.
  - cbn [length Nat.eqb]. rewrite <- Himages in *.
    unfold bind at 1. unfold emit at 1.
    match goal with |- context [imageLoop world config fileId ?n ?l ?k ?p ?t'] =>
      destruct (imageLoop_cooperative n l k p t' Hroot Hcoop Hempty) as (evs & -> & Hw) end.
    eexists. split; [f_equal; close_trace|].
    project. reflexivity.
Qed.
End Exports.

Lemma cooperativeRun_incl world (some all : list Component) :
  (forall component, In component some -> In component all) ->
  cooperativeRun world all -> cooperativeRun world some.
Proof. intros Hincl (H1 & H2 & H3). split; [|split]; auto. Qed.

Lemma closingReport_console cli components icons images :
  forallb isConsole (closingReport cli components icons images) = true.
Proof.
  unfold closingReport. rewrite forallb_app. apply andb_true_iff. split; [|reflexivity].
  destruct (0 <? _)%nat; [|reflexivity].
  cbn [forallb isConsole andb]. apply forallb_forall. intros ev Hev.
  apply in_map_iff in Hev as (name & <- & _). reflexivity.
Qed.

Section WholeExport.
Variable world : World.
Variable cli : Cli.
Variable config : Config.
Hypothesis Hconfig : loadConfig world = Some config.
Hypothesis Hfind : findDuplicate cli = false.

(** A run whose collaborators all answer, once [fetchComponents] has
    returned: the two pipelines come back, exactly the files of the
    resolved icons and images are written, and the run ends normally. *)
Lemma main_cooperative t fetching components :
  fetchComponents world cli (fileId config) (componentNames cli) (pageId config)
    (pageName config) (t ++ banner config) =
    ((t ++ banner config) ++ fetching, Ret components) ->
  noFs fetching ->
  icons_path config <> None ->
  images_path config <> None ->
  cooperativeRun world components ->
  exists evs,
    main world cli t =
      (t ++ evs ++
         closingReport cli components (addNames (List.filter isIcon components) [])
           (addNames (List.filter isImage components) []), Ret tt) /\
    written evs = exportedFiles world config components.
Proof.
  intros Hfetch Hquiet Hicons Himages Hcoop.
  destruct (processIcons_cooperative world config (fileId config) components
              ((t ++ banner config) ++ fetching) Hicons) as (e1 & H1 & Hw1).
  { eapply cooperativeRun_incl; [|exact Hcoop].
    intros c Hc. apply List.filter_In in Hc. tauto. }
  destruct (processImages_cooperative world config (fileId config) components
              (((t ++ banner config) ++ fetching) ++ e1) Himages) as (e2 & H2 & Hw2).
  { eapply cooperativeRun_incl; [|exact Hcoop].
    intros c Hc. apply List.filter_In in Hc. tauto. }
  rewrite (main_run world cli config Hconfig Hfind t _ components _ _ _ _ Hfetch H1 H2).
  exists (banner config ++ fetching ++ e1 ++ e2). split.
  - f_equal. rewrite <- !app_assoc. reflexivity.
  - rewrite !written_app, Hw1, Hw2.
    destruct (noFs_projections fetching Hquiet) as (_ & _ & ->).
    reflexivity.
Qed.
End WholeExport.

Lemma filesOf_exported world config components component path :
  In component components ->
  In path (filesOf world config component) ->
  In path (exportedFiles world config components).
Proof.
  intros Hc Hp. unfold filesOf in Hp. unfold exportedFiles. apply in_app_iff.
  destruct (isIcon component) eqn:Hicon.
  - left. apply in_flat_map. exists component. split; [|exact Hp].
    apply List.filter_In. split; assumption.
  - destruct (isImage component) eqn:Himage; [|destruct Hp].
    right. apply in_flat_map. exists component. split; [|exact Hp].
    apply List.filter_In. split; assumption.
Qed.

Lemma sectionLog_noFs cli all : noFs (sectionLog cli all).
Proof. unfold sectionLog. destruct (Str.truthy (sectionName cli)); reflexivity. Qed.

Section NamedRun.
Variable world : World.
Variable cli : Cli.
Variable config : Config.
Variable t : Trace.
Variable fileData : FileData.
Hypothesis Hconfig : loadConfig world = Some config.
Hypothesis Hfind : findDuplicate cli = false.
Hypothesis Hfile :
  figma_get_file world ((t ++ banner config) ++ [startFetch]) (fileId config) = inr fileData.

Local Abbreviation names := (componentNames cli).
Local Abbreviation allComponents :=
  (snd (extractComponents fileData (pageId config) (pageName config))).
Local Abbreviation resolved := (resolvedByName allComponents names).
Local Abbreviation icons := (addNames (List.filter isIcon resolved) []).
Local Abbreviation images := (addNames (List.filter isImage resolved) []).

Hypothesis Hnames : names <> [].
Hypothesis Hsection :
  match Str.truthy (sectionName cli) with
  | Some section => inSection section allComponents <> []
  | None => True
  end.
Hypothesis Hunambiguous :
  forall name, In name names -> length (exactMatches allComponents name) <= 1.

(** The processed names of a cooperative run: the requested names with
    a single match in one of the two namespaces. *)
Lemma processed_named name :
  In name names ->
  Str.mem name (fold_left (fun seen name => set_add name seen) (icons ++ images) []) = true <->
  (exists component, exactMatches allComponents name = [component]) /\
  relevantName name = true.
Proof.
  intros Hin. rewrite mem_In, fold_set_add_In, in_app_iff.
  rewrite !addNames_In. split.
  - intros [[[[c [Hc Hn]]|[]]|[[c [Hc Hn]]|[]]]|[]];
      apply List.filter_In in Hc as [Hc Hkind];
      apply resolvedByName_name in Hc as (_ & _ & Hone);
      rewrite Hn in Hone; (split; [exists c; exact Hone|]);
      unfold relevantName; unfold isIcon, isImage in Hkind; rewrite Hn in Hkind;
      rewrite Hkind, ?orb_true_r; reflexivity.
  - intros [[c Hone] Hrel]. left.
    assert (Hc : In c resolved) by (eapply resolvedByName_In; eassumption).
    assert (Hn : c_name c = name).
    { apply (exactMatches_name allComponents name c). rewrite Hone. left. reflexivity. }
    unfold relevantName in Hrel. apply orb_true_iff in Hrel as [Hrel|Hrel].
    + left. left. exists c. split; [|exact Hn].
      apply List.filter_In. split; [exact Hc|]. unfold isIcon. rewrite Hn. exact Hrel.
    + right. left. exists c. split; [|exact Hn].
      apply List.filter_In. split; [exact Hc|]. unfold isImage. rewrite Hn. exact Hrel.
Qed.

Lemma unprocessed_named name :
  In name (unprocessed cli icons images) <->
  In name names /\
  (exactMatches allComponents name = [] \/ relevantName name = false).
Proof.
  unfold unprocessed. rewrite List.filter_In.
  split.
  - intros [Hin Hmem]. split; [exact Hin|].
    apply negb_true_iff in Hmem.
    destruct (relevantName name) eqn:Hrel; [|right; reflexivity]. left.
    pose proof (Hunambiguous name Hin) as Hmost.
    destruct (exactMatches allComponents name) as [|c [|c' cs]] eqn:Hem;
      [reflexivity | | cbn [length] in Hmost; lia].
    exfalso. apply not_true_iff_false in Hmem. apply Hmem.
    apply (processed_named name Hin). split; [|exact Hrel].
    exists c. exact Hem.
  - intros [Hin Hcase]. split; [exact Hin|].
    apply negb_true_iff, not_true_iff_false. intros Hmem.
    apply (processed_named name Hin) in Hmem as [[c Hone] Hrel].
    destruct Hcase as [Hnone|Hnot]; congruence.
Qed.

Lemma report_not_found name :
  In name names -> exactMatches allComponents name = [] ->
  In (Console Stdout Red ("- " +:+ name +:+ " (not found)"))
     (closingReport cli resolved icons images).
Proof.
  intros Hin Hem. unfold closingReport. apply in_app_iff. left.
  assert (Hun : In name (unprocessed cli icons images))
    by (apply unprocessed_named; auto).
  destruct (unprocessed cli icons images) as [|u us] eqn:Hu; [destruct Hun|].
  change (0 <? length (u :: us))%nat with true. cbv iota.
  right. apply in_map_iff. exists name. split; [|exact Hun].
  unfold notProcessedLine.
  assert (Hex : existsb (fun c => String.eqb (c_name c) name) resolved = false).
  { apply not_true_iff_false. intros H. apply existsb_exists in H as [c [Hc Hn]].
    apply String.eqb_eq in Hn.
    apply (unmatched_not_resolved allComponents names name Hem). eauto. }
  rewrite Hex. reflexivity.
Qed.

Lemma report_not_exported name component :
  In name names -> exactMatches allComponents name = [component] ->
  relevantName name = false ->
  In (Console Stdout Red ("- " +:+ name)) (closingReport cli resolved icons images).
Proof.
  intros Hin Hem Hrel. unfold closingReport. apply in_app_iff. left.
  assert (Hun : In name (unprocessed cli icons images))
    by (apply unprocessed_named; auto).
  destruct (unprocessed cli icons images) as [|u us] eqn:Hu; [destruct Hun|].
  change (0 <? length (u :: us))%nat with true. cbv iota.
  right. apply in_map_iff. exists name. split; [|exact Hun].
  unfold notProcessedLine.
  assert (Hex : existsb (fun c => String.eqb (c_name c) name) resolved = true).
  { apply existsb_exists. exists component. split.
    - eapply resolvedByName_In; eassumption.
    - apply String.eqb_eq. apply (exactMatches_name allComponents name component).
      rewrite Hem. left. reflexivity. }
  rewrite Hex. cbn [negb]. rewrite string_append_nil_r. reflexivity.
Qed.

(** The run of [main] on requested names when every collaborator
    answers: the files of the resolved icons and images are written, and
    no other. *)
Lemma main_named :
  resolved <> [] ->
  icons_path config <> None ->
  images_path config <> None ->
  cooperativeRun world resolved ->
  exists evs,
    main world cli t =
      (t ++ evs ++ closingReport cli resolved icons images, Ret tt) /\
    written evs = exportedFiles world config resolved.
Proof.
  intros Hres Hicons Himages Hcoop.
  pose proof (fetchComponents_unambiguous world cli (fileId config) names (pageId config)
                (pageName config) (t ++ banner config) fileData Hnames Hfile) as Hrun.
  cbv zeta in Hrun.
  specialize (Hrun Hsection Hunambiguous).
  assert (Hlen : (length resolved =? 0)%nat = false)
    by (destruct resolved; [congruence|reflexivity]).
  rewrite Hlen in Hrun. rewrite !app_assoc in Hrun. rewrite <- !app_assoc in Hrun.
  rewrite app_assoc in Hrun.
  apply (main_cooperative world cli config Hconfig Hfind t _ resolved Hrun);
    try assumption.
  apply (noFs_app [_; _]); [reflexivity|].
  apply noFs_app; [apply console_noFs, extractComponents_console|].
  apply noFs_app; [apply sectionLog_noFs | reflexivity].
Qed.
End NamedRun.

Lemma sample_world_cooperative doc config components :
  cooperativeRun (Sample.world doc config) components.
Proof.
  split; [|split].
  - intros component _. repeat split.
    + intros t fileId ids format scale. eexists. eexists. split; [reflexivity|].
      reflexivity.
    + intros t url. eexists. reflexivity.
    + intros image quality. eexists. reflexivity.
  - intros svg. eexists. reflexivity.
  - reflexivity.
Qed.

(** A section without components ends [fetchComponents] before the
    names are looked at. *)
Lemma fetchComponents_empty_section world cli fileId names pageId pageName t fileData section :
  figma_get_file world (t ++ [startFetch]) fileId = inr fileData ->
  Str.truthy (sectionName cli) = Some section ->
  inSection section (snd (extractComponents fileData pageId pageName)) = [] ->
  fetchComponents world cli fileId names pageId pageName t =
    (t ++ [startFetch; GetFile fileId] ++ fst (extractComponents fileData pageId pageName) ++
       [SpinnerFail ("No components found in section: " +:+ section)], Exit 1).
Proof.
  intros Hfile Hsec Hempty. unfold fetchComponents. unfold_run. fold startFetch.
  rewrite Hfile. cbv beta iota. rewrite Hsec.
  fold (inSection section (snd (extractComponents fileData pageId pageName))).
  rewrite Hempty. cbn [length Nat.eqb]. cbv beta iota.
  f_equal. close_trace.
Qed.

(** C5 (as amended).  Once the configuration is loaded and the document
    has arrived: (1) in every mode, a resolved set that is empty ends the
    run with exit status 1, and [fetchComponents] never returns an empty
    list; (2) in explicit-name mode with no ambiguous name and at least
    one uniquely matched name, [fetchComponents] returns the single
    matches of the uniquely matched names, so a name without a match is
    left out while the others resolve; (3) when the two pipelines come
    back, the run ends normally (status 0) and prints
    [- <name> (not found)] for every requested name without a match;
    (4) when the paths are configured and every collaborator answers,
    the run ends normally, the files it writes are exactly those of the
    resolved icons and images, so every file of a resolved name in one
    of the two namespaces is written, while a resolved name outside
    both has no file and is listed as not processed. *)
Theorem C5_missing_name_is_not_fatal_empty_result_is (world : World) (cli : Cli)
    (config : Config) (t : Trace) (fileData : FileData) :
  loadConfig world = Some config ->
  findDuplicate cli = false ->
  figma_get_file world (t ++ banner config ++ [startFetch]) (fileId config) = inr fileData ->
  let names := componentNames cli in
  let allComponents := snd (extractComponents fileData (pageId config) (pageName config)) in
  let fetched :=
    fetchComponents world cli (fileId config) names (pageId config) (pageName config)
      (t ++ banner config) in
  let resolved := resolvedByName allComponents names in
  (resolvedSet cli allComponents = [] ->
   snd (main world cli t) = Exit 1 /\ status (main world cli t) <> 0%Z)
  /\ snd fetched <> Ret []
  /\ (Str.truthy (sectionName cli) = None -> names <> [] ->
      (forall name, In name names -> length (exactMatches allComponents name) <= 1) ->
      resolved <> [] ->
      snd fetched = Ret resolved
      /\ (forall name, In name names -> exactMatches allComponents name = [] ->
            ~ exists component, In component resolved /\ c_name component = name)
      /\ (forall name component,
            In name names -> exactMatches allComponents name = [component] ->
            In component resolved)
      /\ (forall t2 icons t3 images,
            processIcons world resolved (fileId config) config (fst fetched) =
              (t2, Ret icons) ->
            processImages world resolved (fileId config) config t2 = (t3, Ret images) ->
            snd (main world cli t) = Ret tt /\ status (main world cli t) = 0%Z /\
            forall name, In name names -> exactMatches allComponents name = [] ->
              In (Console Stdout Red ("- " +:+ name +:+ " (not found)"))
                 (fst (main world cli t)))
      /\ (icons_path config <> None -> images_path config <> None ->
          cooperativeRun world resolved ->
          exists evs,
            main world cli t = (t ++ evs, Ret tt) /\
            written evs = exportedFiles world config resolved /\
            (forall name, In name names -> exactMatches allComponents name = [] ->
               In (Console Stdout Red ("- " +:+ name +:+ " (not found)")) evs) /\
            (forall name component,
               In name names -> exactMatches allComponents name = [component] ->
               (forall path, In path (filesOf world config component) ->
                             In path (written evs)) /\
               (relevantName name = false ->
                filesOf world config component = [] /\
                In (Console Stdout Red ("- " +:+ name)) evs)))).
Proof.
  intros Hconfig Hfind Hfile names allComponents fetched resolved.
  rewrite app_assoc in Hfile.
  split; [|split].
  - intros Hempty.
    pose proof (fetchComponents_empty_exits world cli (fileId config) (pageId config)
                  (pageName config) (t ++ banner config) fileData Hfile Hempty) as Hexit.
    fold names fetched in Hexit.
    destruct fetched as [t1 o] eqn:Hf. cbn [snd] in Hexit. subst o.
    rewrite (main_fetch_exit world cli config Hconfig Hfind t t1 1 Hf).
    split; [reflexivity | discriminate].
  - pose proof (fetchComponents_outcome world cli (fileId config) names (pageId config)
                  (pageName config) (t ++ banner config)) as Hout.
    fold fetched in Hout. intros H. rewrite H in Hout. apply Hout. reflexivity.
  - intros Hsec Hnames Hunamb Hres.
    pose proof (fetchComponents_unambiguous world cli (fileId config) names (pageId config)
                  (pageName config) (t ++ banner config) fileData Hnames Hfile) as Hrun.
    cbv zeta in Hrun. rewrite Hsec in Hrun. fold allComponents resolved in Hrun.
    specialize (Hrun I Hunamb).
    assert (Hlen : (length resolved =? 0)%nat = false)
      by (destruct resolved; [congruence|reflexivity]).
    rewrite Hlen in Hrun. fold fetched in Hrun.
    split; [rewrite Hrun; reflexivity|].
    split; [intros name _ Hem; apply unmatched_not_resolved, Hem|].
    split; [intros name component Hin Hem; eapply resolvedByName_In; eassumption|].
    split.
    + intros t2 icons t3 images Hicons Himages.
      rewrite Hrun in Hicons. cbn [fst] in Hicons.
      rewrite (main_run world cli config Hconfig Hfind t _ resolved t2 icons t3 images
                 Hrun Hicons Himages).
      split; [reflexivity|]. split; [reflexivity|].
      intros name Hin Hem. cbn [fst]. apply in_app_iff. right.
      unfold closingReport.
      assert (Hun : In name (unprocessed cli icons images)).
      { unfold unprocessed. apply List.filter_In. split; [exact Hin|].
        apply negb_true_iff, not_true_iff_false. intros Hmem.
        apply fold_set_add_mem in Hmem as [Hmem|[]].
        apply (unmatched_not_resolved allComponents names name Hem).
        apply in_app_iff in Hmem as [Hmem|Hmem].
        - exact (processIcons_names world config (fileId config) _ _ _ _ Hicons name Hmem).
        - exact (processImages_names world config (fileId config) _ _ _ _ Himages name Hmem). }
      destruct (unprocessed cli icons images) as [|u us] eqn:Hu; [destruct Hun|].
      cbn [length Nat.ltb Nat.leb]. apply in_app_iff. left. right.
      apply in_map_iff. exists name. split; [|exact Hun].
      unfold notProcessedLine.
      assert (Hex : existsb (fun c => String.eqb (c_name c) name) resolved = false).
      { apply not_true_iff_false. intros H. apply existsb_exists in H as [c [Hc Hn]].
        apply String.eqb_eq in Hn.
        apply (unmatched_not_resolved allComponents names name Hem). eauto. }
      rewrite Hex. reflexivity.
    + intros Hicons Himages Hcoop.
      destruct (main_named world cli config t fileData Hconfig Hfind Hfile Hnames)
        as (evs & Hmain & Hwritten); try assumption.
      { rewrite Hsec. exact I. }
      eexists. split; [exact Hmain|].
      rewrite written_app.
      match goal with |- context [written (closingReport ?a ?b ?c ?d)] =>
        destruct (noFs_projections _ (console_noFs _ (closingReport_console a b c d)))
          as (_ & _ & ->) end.
      rewrite app_nil_r. split; [exact Hwritten|]. split.
      * intros name Hin Hem. apply in_app_iff. right.
        apply (report_not_found cli config fileData Hunamb name Hin Hem).
      * intros name component Hin Hem. split.
        -- intros path Hpath. rewrite Hwritten.
           apply (filesOf_exported world config resolved component path); [|exact Hpath].
           eapply resolvedByName_In; eassumption.
        -- intros Hrel. split.
           ++ assert (Hn : c_name component = name).
              { apply (exactMatches_name allComponents name component).
                rewrite Hem. left. reflexivity. }
              unfold relevantName in Hrel. apply orb_false_iff in Hrel as [Hi Hm].
              unfold filesOf, isIcon, isImage. rewrite Hn, Hi, Hm. reflexivity.
           ++ apply in_app_iff. right.
              apply (report_not_exported cli config fileData Hunamb name component Hin Hem Hrel).
Qed.

(** C10 (as amended).  In the v1.2.0 command line, when names are
    requested together with a section: (1) if the section name occurs
    in the path of no extracted component, the run ends with status 1
    right after the extraction, before any name is matched; (2) else the
    outcome of [fetchComponents] is the outcome it has without the
    section option, and when no requested name is ambiguous the resolved
    set is decided by exact-name matching over all extracted components
    alone: a requested name with a single match is resolved to that
    match wherever it lies, inside the section or not; when the paths
    are configured and every collaborator answers, the run ends
    normally, the files it writes are exactly those of the resolved
    icons and images, so every file of that match is written when its
    name is in one of the two namespaces, while a match outside both has
    no file and is listed as not processed. *)
Theorem C10_names_override_a_matching_section (world : World) (cli : Cli)
    (config : Config) (t : Trace) (fileData : FileData) (section : string) :
  loadConfig world = Some config ->
  findDuplicate cli = false ->
  componentNames cli <> [] ->
  Str.truthy (sectionName cli) = Some section ->
  figma_get_file world (t ++ banner config ++ [startFetch]) (fileId config) = inr fileData ->
  let names := componentNames cli in
  let extracted := extractComponents fileData (pageId config) (pageName config) in
  let allComponents := snd extracted in
  let resolved := resolvedByName allComponents names in
  let fetch options :=
    fetchComponents world options (fileId config) names (pageId config) (pageName config)
      (t ++ banner config) in
  (inSection section allComponents = [] ->
   main world cli t =
     (t ++ banner config ++ [startFetch; GetFile (fileId config)] ++ fst extracted ++
        [SpinnerFail ("No components found in section: " +:+ section)], Exit 1))
  /\ (inSection section allComponents <> [] ->
      snd (fetch cli) = snd (fetch (withoutSection cli))
      /\ ((forall name, In name names -> length (exactMatches allComponents name) <= 1) ->
          forall name component,
            In name names -> exactMatches allComponents name = [component] ->
            snd (fetch cli) = Ret resolved /\
            In component resolved /\
            (icons_path config <> None -> images_path config <> None ->
             cooperativeRun world resolved ->
             exists evs,
               main world cli t = (t ++ evs, Ret tt) /\
               written evs = exportedFiles world config resolved /\
               (forall path, In path (filesOf world config component) ->
                             In path (written evs)) /\
               (relevantName name = false ->
                filesOf world config component = [] /\
                In (Console Stdout Red ("- " +:+ name)) evs)))).
Proof.
  intros Hconfig Hfind Hnames Hsec Hfile names extracted allComponents resolved fetch.
  rewrite app_assoc in Hfile. split.
  - intros Hempty.
    rewrite (main_fetch_exit world cli config Hconfig Hfind t _ 1
               (fetchComponents_empty_section world cli (fileId config) names (pageId config)
                  (pageName config) (t ++ banner config) fileData section Hfile Hsec Hempty)).
    f_equal. rewrite <- !app_assoc. reflexivity.
  - intros Hin. split.
    + pose proof (fetchComponents_named world cli (fileId config) names (pageId config)
                    (pageName config) (t ++ banner config) fileData Hnames Hfile) as H1.
      pose proof (fetchComponents_named world (withoutSection cli) (fileId config) names
                    (pageId config) (pageName config) (t ++ banner config) fileData Hnames
                    Hfile) as H2.
      cbv zeta in H1, H2. rewrite Hsec in H1. simpl in H2.
      unfold fetch. rewrite (H1 Hin), (H2 I).
      destruct (0 <? _)%nat; [reflexivity|].
      destruct (_ =? 0)%nat; reflexivity.
    + intros Hunamb name component Hname Hem.
      assert (Hres : In component resolved)
        by (eapply resolvedByName_In; eassumption).
      split; [|split; [exact Hres|]].
      * pose proof (fetchComponents_unambiguous world cli (fileId config) names
                      (pageId config) (pageName config) (t ++ banner config) fileData
                      Hnames Hfile) as H.
        cbv zeta in H. rewrite Hsec in H. fold allComponents in H.
        specialize (H Hin Hunamb).
        change (resolvedByName
                  (snd (extractComponents fileData (pageId config) (pageName config))) names)
          with resolved in H.
        assert (Hlen : (length resolved =? 0)%nat = false)
          by (destruct resolved; [destruct Hres | reflexivity]).
        rewrite Hlen in H. unfold fetch. rewrite H. reflexivity.
      * intros Hicons Himages Hcoop.
        destruct (main_named world cli config t fileData Hconfig Hfind Hfile Hnames)
          as (evs & Hmain & Hwritten); try assumption.
        { rewrite Hsec. exact Hin. }
        { intros Hnil. change (resolved = []) in Hnil.
          destruct resolved; [destruct Hres | discriminate Hnil]. }
        eexists. split; [exact Hmain|].
        rewrite written_app.
        match goal with |- context [written (closingReport ?a ?b ?c ?d)] =>
          destruct (noFs_projections _ (console_noFs _ (closingReport_console a b c d)))
            as (_ & _ & ->) end.
        rewrite app_nil_r. split; [exact Hwritten|]. split.
        -- intros path Hpath. rewrite Hwritten.
           apply (filesOf_exported world config resolved component path); assumption.
        -- intros Hrel. split.
           ++ assert (Hn : c_name component = name).
              { apply (exactMatches_name allComponents name component).
                rewrite Hem. left. reflexivity. }
              unfold relevantName in Hrel. apply orb_false_iff in Hrel as [Hi Hm].
              unfold filesOf, isIcon, isImage. rewrite Hn, Hi, Hm. reflexivity.
           ++ apply in_app_iff. right.
              apply (report_not_exported cli config fileData Hunamb name component
                       Hname Hem Hrel).
Qed.

(** ** The Android densities *)

(** C8.  On Android the densities processed for an image component are
    the keys of the table [ldpi 0.75, mdpi 1, hdpi 1.5, xhdpi 2,
    xxhdpi 3, xxxhdpi 4] that are not in [skipDpi], in table order; with
    [skipDpi] equal to [ldpi, mdpi] they are the four others.  When
    [images.path] is configured, for each of them in turn the directory
    [drawable-<dpi>] is ensured, whatever happened to the densities
    before it, and no other directory is ensured; files are written only
    at [drawable-<dpi>/<base>.<format>] of these densities, at most one
    in each; and when every collaborator answers each of these
    directories receives its one file.  When [images.path] is undefined
    every density fails before any directory is ensured, nothing is
    requested, downloaded or written, and the loop still goes through
    every density. *)
Theorem C8_android_densities (world : World) (config : Config) (fileId : string)
    (totalImages : nat) (component : Component) (imageCounter : nat)
    (processed : list string) (t : Trace) :
  platform config = "android" ->
  let dpis := dpisToProcess config in
  let fileNameBase :=
    images_prefix config +:+ sanitizedName world (c_name component) "img/" in
  ANDROID_DPI_SCALES =
    [("ldpi", 0.75%Q); ("mdpi", 1%Q); ("hdpi", 1.5%Q);
     ("xhdpi", 2%Q); ("xxhdpi", 3%Q); ("xxxhdpi", 4%Q)]
  /\ dpis =
     List.filter
       (fun dpi => match images_skipDpi config with
                   | Some skip => negb (Str.mem dpi skip)
                   | None => true
                   end)
       ["ldpi"; "mdpi"; "hdpi"; "xhdpi"; "xxhdpi"; "xxxhdpi"]
  /\ (images_skipDpi config = Some ["ldpi"; "mdpi"] ->
      dpis = ["hdpi"; "xhdpi"; "xxhdpi"; "xxxhdpi"])
  /\ exists evs names,
       processImage world config fileId totalImages component imageCounter processed t =
         (t ++ evs, Ret names) /\
       sublist (writeAttempts evs) (map (drawableFile config fileNameBase) dpis) /\
       (forall root,
          images_path config = Some root ->
          ensureDirs evs = map (fun dpi => [root; "drawable-" +:+ dpi]) dpis /\
          (cooperative world component ->
           written evs =
             map (fun dpi => [root; "drawable-" +:+ dpi;
                              fileNameBase +:+ "." +:+ images_format config]) dpis)) /\
       (images_path config = None ->
        forallb (fun ev => negb (isExport ev)) evs = true /\
        names = (if (0 <? length dpis)%nat then processed
                 else set_add (c_name component) processed)).
Proof.
  intros Hplat dpis fileNameBase.
  split; [reflexivity|]. split; [reflexivity|].
  split; [intros Hskip; subst dpis; unfold dpisToProcess; rewrite Hskip; reflexivity|].
  destruct (processImage_android_run world config fileId component fileNameBase
              imageCounter totalImages processed t Hplat eq_refl)
    as (evs & names & Hrun & Hdirs & Hattempts & _).
  exists evs, names. split; [exact Hrun|]. split; [exact Hattempts|].
  unfold processImage, bind in Hrun. rewrite Hplat in Hrun.
  cbn [String.eqb Ascii.eqb Bool.eqb] in Hrun. fold fileNameBase dpis in Hrun.
  split.
  - intros root Hroot.
    assert (Hdir : forall dpi, drawableDir config dpi = [root; "drawable-" +:+ dpi])
      by (intros dpi; unfold drawableDir; rewrite Hroot; reflexivity).
    split.
    + rewrite Hdirs, Hroot. cbn [ifDefined]. apply map_ext. exact Hdir.
    + intros Hcoop.
      destruct (dpiLoop_cooperative world config fileId component fileNameBase imageCounter
                  totalImages dpis false t) as (evs' & Hloop & Hwritten);
        [congruence|exact Hcoop|].
      rewrite Hloop in Hrun. cbn [negb] in Hrun.
      unfold ret in Hrun. injection Hrun as Happ _.
      apply app_inv_head in Happ. subst evs'. rewrite Hwritten.
      apply map_ext. intros dpi. unfold drawableFile, path_join. rewrite Hdir. reflexivity.
  - intros Hroot.
    destruct (dpiLoop_undefined world config fileId component fileNameBase imageCounter
                totalImages dpis false t Hroot) as (evs' & Hloop & Hevs).
    rewrite Hloop in Hrun. cbn [orb] in Hrun.
    destruct (0 <? length dpis)%nat; cbn [negb] in Hrun; unfold ret in Hrun;
      injection Hrun as Happ Hnames; apply app_inv_head in Happ; subst evs' names;
      split; (exact Hevs || reflexivity).
Qed.

(** On Android the image pipeline always comes back, and every density
    of every image component is attempted, whatever failed before. *)
Lemma imageLoop_android_run world config fileId totalImages components :
  platform config = "android" ->
  forall imageCounter processed t,
  exists evs names,
    imageLoop world config fileId totalImages components imageCounter processed t =
      (t ++ evs, Ret names) /\
    ensureDirs evs =
      ifDefined (images_path config)
        (flat_map (fun _ : Component => map (drawableDir config) (dpisToProcess config))
           components).
Proof.
  intros Hplat. induction components as [|c cs IH]; intros imageCounter processed t.
  - exists [], processed. simpl. rewrite app_nil_r. split; [reflexivity|].
    destruct (images_path config); reflexivity.
  - simpl. unfold bind.
    destruct (processImage_android_run world config fileId c _ (imageCounter + 1)
                totalImages processed t Hplat eq_refl)
      as (e1 & names1 & -> & Hd1 & _).
    destruct (IH (imageCounter + 1) names1 (t ++ e1)) as (e2 & names2 & -> & Hd2).
    exists (e1 ++ e2), names2. rewrite app_assoc. split; [reflexivity|].
    rewrite ensureDirs_app, Hd1, Hd2. destruct (images_path config); reflexivity.
Qed.

Lemma processImages_android_isolated world config fileId components t :
  platform config = "android" ->
  exists evs names,
    processImages world components fileId config t = (t ++ evs, Ret names) /\
    ensureDirs evs =
      ifDefined (images_path config)
        (flat_map (fun _ : Component => map (drawableDir config) (dpisToProcess config))
           (List.filter (fun c => Str.startsWith (c_name c) "img/") components)).
Proof.
  intros Hplat. unfold processImages.
  destruct (List.filter _ components) as [|c cs] eqn:Hf.
  - exists [], []. simpl. unfold ret. rewrite app_nil_r. split; [reflexivity|].
    destruct (images_path config); reflexivity.
  - cbn [length Nat.eqb]. unfold bind, emit.
    destruct (imageLoop_android_run world config fileId (length (c :: cs)) (c :: cs) Hplat
                0 [] (t ++ [Console Stdout Yellow
                              (nl +:+ "Processing " +:+ Str.of_nat (length (c :: cs)) +:+
                               " images...")]))
      as (evs & names & Hrun & Hd).
    cbn [length] in Hrun. rewrite Hrun.
    eexists. exists names. split; [rewrite <- app_assoc; reflexivity|].
    rewrite ensureDirs_app, Hd. reflexivity.
Qed.

(** A manifest written for any format but [svg] lists five raster files. *)
Lemma createContentsJson_not_svg name format :
  format <> "svg" ->
  createContentsJson name format =
  JObject
    [("images", JArray
        [imageEntry (name +:+ "." +:+ format) "universal" (Some "1x");
         imageEntry (name +:+ "@2x." +:+ format) "universal" (Some "2x");
         imageEntry (name +:+ "@3x." +:+ format) "universal" (Some "3x");
         imageEntry (name +:+ "~ipad." +:+ format) "ipad" (Some "1x");
         imageEntry (name +:+ "~ipad@2x." +:+ format) "ipad" (Some "2x")]);
     ("info", JObject [("version", JNumber 1); ("author", JString "xcode")]);
     ("properties", JObject [("template-rendering-intent", JString "original")])].
Proof.
  intros H. unfold createContentsJson.
  destruct (String.eqb_spec format "svg"); [contradiction|reflexivity].
Qed.

(** ** The runs at sample inputs *)

(** C2, on iOS.  Two image components are resolved and the rendering API
    fails for the [2x] variant of the first: the exception leaves
    [processImages], [main] reports it and ends the run with status 1.
    The [3x] and iPad variants of the first component and every variant
    of the second are never attempted, and no [Contents.json] is
    written; the [1x] file already written stays. *)
Theorem C2_ios_variant_fetch_failure_aborts_the_run :
  main (Sample.worldFailingAt 2 Docs.twoImages Sample.ios)
       (Sample.names ["img/banner"; "img/logo"]) [] =
  ([Console Stdout Blue "Figma Asset Downloader";
    Console Stdout Blue "======================";
    Console Stdout Green "Loaded configuration for file: FILE";
    Console Stdout Green "Platform: ios";
    SpinnerStart "Fetching components from Figma...";
    GetFile "FILE";
    SpinnerSucceed "Found 2 components with exact name matches";
    Console Stdout Yellow (nl +:+ "Processing 2 images...");
    EnsureDir ["Assets.xcassets"; "banner.imageset"] true;
    EmptyDir ["Assets.xcassets"; "banner.imageset"] true;
    SpinnerStart "Processing image (1/2): img/banner [1x]";
    GetImages "FILE" "1:2" "png" 1;
    HttpGet "https://cdn/1:2";
    WriteFile ["Assets.xcassets"; "banner.imageset"; "banner.png"]
      (Buffer "<https://cdn/1:2>") true;
    SpinnerSucceed "Image saved (1/2): banner [1x]";
    SpinnerStart "Processing image (1/2): img/banner [2x]";
    GetImages "FILE" "1:2" "png" 2;
    Console Stderr Red "Status: 500";
    Console Stderr Red "Message: {}";
    Console Stderr Red "An error occurred: Request failed with status code 500"],
   Exit 1).
Proof. vm_compute. reflexivity. Qed.

(** The same failure on Android (the [hdpi] request at scale 1.5 fails
    for both components): the three other densities of each component
    are still processed and the run ends normally. *)
Lemma android_variant_fetch_failure_is_isolated :
  let run := main (Sample.worldFailingAt 1.5 Docs.twoImages Sample.android)
                  (Sample.names ["img/banner"; "img/logo"]) [] in
  snd run = Ret tt /\
  written (fst run) =
    [["res"; "drawable-xhdpi"; "img_banner.webp"];
     ["res"; "drawable-xxhdpi"; "img_banner.webp"];
     ["res"; "drawable-xxxhdpi"; "img_banner.webp"];
     ["res"; "drawable-xhdpi"; "img_logo.webp"];
     ["res"; "drawable-xxhdpi"; "img_logo.webp"];
     ["res"; "drawable-xxxhdpi"; "img_logo.webp"]] /\
  In (Console Stdout Red "- img/banner") (fst run) /\
  In (Console Stdout Red "- img/logo") (fst run).
Proof. vm_compute. repeat split; tauto. Qed.

(** C7, on iOS with the default image format [png].  The icon pipeline
    writes [home.imageset/home.svg], and a [Contents.json] built by
    [createContentsJson(fileName, config.images.format)]: the manifest
    of five raster files [home.png], [home@2x.png], ..., none of which
    is the SVG file written. *)
Theorem C7_ios_icon_manifest_lists_raster_files :
  processIcons (Sample.world Docs.oneIcon Sample.ios)
    [Sample.component "1:2" "icon/home" "Document / Page 1"] "FILE" Sample.ios [] =
  ([Console Stdout Yellow (nl +:+ "Processing 1 icons...");
    SpinnerStart "Getting image URLs from Figma...";
    GetImages "FILE" "1:2" "svg" 1;
    SpinnerSucceed "Successfully retrieved image URLs";
    SpinnerStart "Processing icon (1/1): icon/home";
    HttpGet "https://cdn/1:2";
    EnsureDir ["Assets.xcassets"; "home.imageset"] true;
    EmptyDir ["Assets.xcassets"; "home.imageset"] true;
    WriteFile ["Assets.xcassets"; "home.imageset"; "home.svg"]
      (Utf8 "<https://cdn/1:2>") true;
    WriteFile ["Assets.xcassets"; "home.imageset"; "Contents.json"]
      (Manifest
         (JObject
            [("images",
              JArray
                [JObject [("filename", JString "home.png");
                          ("idiom", JString "universal"); ("scale", JString "1x")];
                 JObject [("filename", JString "home@2x.png");
                          ("idiom", JString "universal"); ("scale", JString "2x")];
                 JObject [("filename", JString "home@3x.png");
                          ("idiom", JString "universal"); ("scale", JString "3x")];
                 JObject [("filename", JString "home~ipad.png");
                          ("idiom", JString "ipad"); ("scale", JString "1x")];
                 JObject [("filename", JString "home~ipad@2x.png");
                          ("idiom", JString "ipad"); ("scale", JString "2x")]]);
             ("info", JObject [("version", JNumber 1); ("author", JString "xcode")]);
             ("properties",
              JObject [("template-rendering-intent", JString "original")])])) true;
    SpinnerSucceed "Icon saved (1/1): home"],
   Ret ["icon/home"]).
Proof. vm_compute. reflexivity. Qed.

(** The manifest the [svg] branch of [createContentsJson] would give. *)
Lemma createContentsJson_svg name :
  createContentsJson name "svg" =
  JObject
    [("images", JArray [JObject [("filename", JString (name +:+ ".svg"));
                                 ("idiom", JString "universal")]]);
     ("info", JObject [("author", JString "Figma Asset Downloader");
                       ("version", JNumber 1)]);
     ("properties", JObject [("template-rendering-intent", JString "original")])].
Proof. reflexivity. Qed.

(** On iOS every icon gets the manifest of [config.images.format]. *)
Lemma processIcon_ios_manifest world config iconUrls total component counter processed t p j ok :
  platform config <> "android" ->
  In (WriteFile p (Manifest j) ok)
     (fst (processIcon world config iconUrls total component counter processed t)) ->
  ~ In (WriteFile p (Manifest j) ok) t ->
  j = createContentsJson
        (icons_prefix config +:+ sanitizedName world (c_name component) "icon/")
        (images_format config).
Proof.
  intros Hplat Hin Hnot. unfold processIcon in Hin.
  destruct (String.eqb_spec (platform config) "android") as [Heq|_]; [contradiction|].
  destruct (Str.truthy _) as [imageUrl|].
  - unfold downloadSvg, optimizeSvg, path_join_root, ensureDir, emptyDir, writeFile in Hin.
    revert Hin. unfold_run. split_run; cbn [fst]; intros Hin;
      repeat (apply in_app_iff in Hin as [Hin|Hin]);
      try contradiction;
      repeat (destruct Hin as [Hin|Hin]; [try discriminate; try (inversion Hin; reflexivity)|]);
      try destruct Hin.
  - revert Hin. unfold_run. cbn [fst]. intros Hin.
    apply in_app_iff in Hin as [Hin|[Hin|[]]]; [contradiction|discriminate].
Qed.

(** The run of the specification's example: [icon/a] requested twice
    while two components carry the name. *)
Lemma C1_witness_same_icon_requested_twice :
  main (Sample.world Docs.sameIconTwice Sample.android)
       (Sample.names ["icon/a"; "icon/a"]) [] =
  ([Console Stdout Blue "Figma Asset Downloader";
    Console Stdout Blue "======================";
    Console Stdout Green "Loaded configuration for file: FILE";
    Console Stdout Green "Platform: android";
    SpinnerStart "Fetching components from Figma...";
    GetFile "FILE";
    SpinnerFail "Found duplicate components with the same name";
    Console Stderr Red
      ("Error: Multiple components found with the exact name " +:+ dquote +:+ "icon/a" +:+
       dquote);
    Console Stderr Red
      "Cannot download because of ambiguity. Please rename components to be unique.";
    Console Stdout Yellow (nl +:+ "Links to duplicated components:");
    Console Stdout Cyan
      "1. Document / Page 1 / icon/a - https://www.figma.com/file/FILE?node-id=1%3A2";
    Console Stdout Cyan
      "2. Document / Page 1 / icon/a - https://www.figma.com/file/FILE?node-id=1%3A3"],
   Exit 1).
Proof.
  destruct (C1_ambiguous_names_are_fatal
              (Sample.world Docs.sameIconTwice Sample.android)
              (Sample.names ["icon/a"; "icon/a"]) Sample.android []
              (Docs.file Docs.sameIconTwice) eq_refl eq_refl eq_refl eq_refl) as [H _].
  - exists "icon/a". split; [left; reflexivity | vm_compute; lia].
  - rewrite H. vm_compute. reflexivity.
Defined.

(** A run with one resolvable and one missing name. *)
(** An icon, a component outside the two namespaces and a name without
    a match, requested together. *)
Lemma C5_witness_missing_name_is_reported :
  exists evs,
    main (Sample.world Cases.iconAndButton Sample.android)
      (Sample.names ["icon/home"; "button/ok"; "icon/missing"]) [] = ([] ++ evs, Ret tt) /\
    written evs = [["res"; "drawable"; "ic_home.xml"]] /\
    In (Console Stdout Red "- icon/missing (not found)") evs /\
    In (Console Stdout Red "- button/ok") evs.
Proof.
  destruct (C5_missing_name_is_not_fatal_empty_result_is
              (Sample.world Cases.iconAndButton Sample.android)
              (Sample.names ["icon/home"; "button/ok"; "icon/missing"]) Sample.android []
              (Docs.file Cases.iconAndButton) eq_refl eq_refl eq_refl) as (_ & _ & H).
  destruct H as (_ & _ & _ & _ & H).
  - reflexivity.
  - discriminate.
  - intros name [<-|[<-|[<-|[]]]]; vm_compute; lia.
  - vm_compute. discriminate.
  - destruct H as (evs & Hmain & Hwritten & Hmissing & Hresolved).
    + discriminate.
    + discriminate.
    + apply sample_world_cooperative.
    + exists evs. split; [exact Hmain|].
      split; [rewrite Hwritten; vm_compute; reflexivity|]. split.
      * apply (Hmissing "icon/missing"); [right; right; left; reflexivity | reflexivity].
      * apply (Hresolved "button/ok" (Sample.component "1:3" "button/ok" "Document / Page 1"));
          [right; left; reflexivity | reflexivity | reflexivity].
Defined.

(** The densities of the sample Android configuration and the files of
    one image; the same image under the configuration [loadConfig]
    leaves for an [images] block that gives the skip-list and no path. *)
Lemma C8_witness_skip_ldpi_mdpi :
  dpisToProcess Sample.android = ["hdpi"; "xhdpi"; "xxhdpi"; "xxxhdpi"] /\
  (exists evs names,
     processImage (Sample.world Docs.twoImages Sample.android) Sample.android "FILE" 2
       (Sample.component "1:2" "img/banner" "Document / Page 1") 1 [] [] =
       ([] ++ evs, Ret names) /\
     ensureDirs evs =
       [["res"; "drawable-hdpi"]; ["res"; "drawable-xhdpi"];
        ["res"; "drawable-xxhdpi"]; ["res"; "drawable-xxxhdpi"]] /\
     written evs =
       [["res"; "drawable-hdpi"; "img_banner.webp"];
        ["res"; "drawable-xhdpi"; "img_banner.webp"];
        ["res"; "drawable-xxhdpi"; "img_banner.webp"];
        ["res"; "drawable-xxxhdpi"; "img_banner.webp"]]) /\
  option_map ConfigFile.m_path
    (ConfigFile.s_images (ConfigFile.withDefaults ConfigFile.skipListOnly)) = Some None /\
  (exists evs names,
     processImage (Sample.world Docs.twoImages Cases.androidWithoutImagesPath)
       Cases.androidWithoutImagesPath "FILE" 2
       (Sample.component "1:2" "img/banner" "Document / Page 1") 1 [] [] =
       ([] ++ evs, Ret names) /\
     forallb (fun ev => negb (isExport ev)) evs = true /\
     names = []).
Proof.
  destruct (C8_android_densities (Sample.world Docs.twoImages Sample.android)
              Sample.android "FILE" 2
              (Sample.component "1:2" "img/banner" "Document / Page 1") 1 [] []
              eq_refl) as (_ & _ & Hfour & evs & names & Hrun & _ & Hdefined & _).
  destruct (C8_android_densities
              (Sample.world Docs.twoImages Cases.androidWithoutImagesPath)
              Cases.androidWithoutImagesPath "FILE" 2
              (Sample.component "1:2" "img/banner" "Document / Page 1") 1 [] []
              eq_refl) as (_ & _ & _ & evs' & names' & Hrun' & _ & _ & Hundefined).
  split; [exact (Hfour eq_refl)|]. split.
  - exists evs, names. split; [exact Hrun|].
    destruct (Hdefined "res" eq_refl) as [Hdirs Hwritten]. split.
    + rewrite Hdirs. reflexivity.
    + rewrite Hwritten; [reflexivity|].
      apply (sample_world_cooperative Docs.twoImages Sample.android
               [Sample.component "1:2" "img/banner" "Document / Page 1"]).
      left. reflexivity.
  - split; [reflexivity|].
    exists evs', names'. split; [exact Hrun'|].
    destruct (Hundefined eq_refl) as [Hquiet Hnames]. split; [exact Hquiet | exact Hnames].
Defined.

(** A name requested together with a section its only match lies
    outside of. *)
Lemma C10_witness_match_outside_the_section :
  Str.includes (c_path (Sample.component "2:2" "icon/away" "Document / Page 2")) "Page 1" =
    false /\
  snd (fetchComponents (Sample.world Cases.twoPages Sample.android)
         (Sample.namesInSection ["icon/away"] "Page 1") "FILE" ["icon/away"]
         (SelStr "") (SelStr "") ([] ++ banner Sample.android)) =
    Ret [Sample.component "2:2" "icon/away" "Document / Page 2"] /\
  exists evs,
    main (Sample.world Cases.twoPages Sample.android)
      (Sample.namesInSection ["icon/away"] "Page 1") [] = ([] ++ evs, Ret tt) /\
    written evs = [["res"; "drawable"; "ic_away.xml"]] /\
    In ["res"; "drawable"; "ic_away.xml"] (written evs).
Proof.
  destruct (C10_names_override_a_matching_section
              (Sample.world Cases.twoPages Sample.android)
              (Sample.namesInSection ["icon/away"] "Page 1") Sample.android []
              (Docs.file Cases.twoPages) "Page 1") as [_ H].
  - reflexivity.
  - reflexivity.
  - discriminate.
  - reflexivity.
  - reflexivity.
  - destruct H as [_ H]; [vm_compute; discriminate|].
    destruct (H ltac:(intros name [<-|[]]; vm_compute; lia)
                "icon/away" (Sample.component "2:2" "icon/away" "Document / Page 2")
                (or_introl eq_refl) eq_refl)
      as (Hfetch & _ & Hexport).
    split; [reflexivity|]. split; [exact Hfetch|].
    destruct Hexport as (evs & Hmain & Hwritten & Hfiles & _).
    + discriminate.
    + discriminate.
    + apply sample_world_cooperative.
    + exists evs. split; [exact Hmain|].
      split; [rewrite Hwritten; vm_compute; reflexivity|].
      apply Hfiles. vm_compute. left. reflexivity.
Defined.

(** C6 as stated fails for the resolver: two components named
    [button/x], a name outside both namespaces, are detected as
    duplicates by [fetchComponents] and end the run, while the duplicate
    reporter ignores them. *)
Lemma C6_counterexample_resolver_detects_button_duplicates :
  relevantName "button/x" = false
  /\ findDuplicates
       (snd (extractComponents (Docs.file Docs.sameButtonTwice) (SelStr "") (SelStr ""))) = []
  /\ snd (matchNames
            (snd (extractComponents (Docs.file Docs.sameButtonTwice) (SelStr "") (SelStr "")))
            ["button/x"]) =
     [("button/x", [Sample.component "1:2" "button/x" "Document / Page 1";
                    Sample.component "1:3" "button/x" "Document / Page 1"])]
  /\ fetchComponents (Sample.world Docs.sameButtonTwice Sample.android)
       (Sample.names ["button/x"]) "FILE" ["button/x"] (SelStr "") (SelStr "") [] =
     ([SpinnerStart "Fetching components from Figma...";
       GetFile "FILE";
       SpinnerFail "Found duplicate components with the same name";
       Console Stderr Red
         ("Error: Multiple components found with the exact name " +:+ dquote +:+
          "button/x" +:+ dquote);
       Console Stderr Red
         "Cannot download because of ambiguity. Please rename components to be unique.";
       Console Stdout Yellow (nl +:+ "Links to duplicated components:");
       Console Stdout Cyan
         "1. Document / Page 1 / button/x - https://www.figma.com/file/FILE?node-id=1%3A2";
       Console Stdout Cyan
         "2. Document / Page 1 / button/x - https://www.figma.com/file/FILE?node-id=1%3A3"],
      Exit 1).
Proof. vm_compute. repeat split; reflexivity. Qed.

(** C5 as stated fails for a name outside the two namespaces: requested
    with a name that has no match, [button/ok] resolves and the run ends
    normally, yet nothing is requested, downloaded or written for it; it
    is listed as not processed. *)
Lemma C5_counterexample_resolved_name_is_not_exported :
  exactMatches
    (snd (extractComponents (Docs.file Cases.iconAndButton) (SelStr "") (SelStr "")))
    "button/ok" = [Sample.component "1:3" "button/ok" "Document / Page 1"]
  /\ exactMatches
       (snd (extractComponents (Docs.file Cases.iconAndButton) (SelStr "") (SelStr "")))
       "icon/missing" = []
  /\ snd (fetchComponents (Sample.world Cases.iconAndButton Sample.android)
            (Sample.names ["button/ok"; "icon/missing"]) "FILE" ["button/ok"; "icon/missing"]
            (SelStr "") (SelStr "") (banner Sample.android)) =
     Ret [Sample.component "1:3" "button/ok" "Document / Page 1"]
  /\ snd (main (Sample.world Cases.iconAndButton Sample.android)
            (Sample.names ["button/ok"; "icon/missing"]) []) = Ret tt
  /\ forallb (fun ev => negb (isExport ev))
       (fst (main (Sample.world Cases.iconAndButton Sample.android)
               (Sample.names ["button/ok"; "icon/missing"]) [])) = true
  /\ In (Console Stdout Red "- button/ok")
       (fst (main (Sample.world Cases.iconAndButton Sample.android)
               (Sample.names ["button/ok"; "icon/missing"]) [])).
Proof.
  vm_compute. repeat split; try reflexivity.
  repeat (first [left; reflexivity | right]).
Qed.

(** C10 as stated fails in two ways.  When the section matches nothing,
    the requested name has a single match, outside the section, and the
    run ends with status 1 before any name is matched.  When the section
    has components, [button/ok], whose single match lies outside the
    section, is resolved and the run ends normally, yet nothing is
    requested, downloaded or written for it. *)
Lemma C10_counterexample_section_gate_and_namespaces :
  exactMatches
    (snd (extractComponents (Docs.file Cases.twoPages) (SelStr "") (SelStr "")))
    "icon/away" = [Sample.component "2:2" "icon/away" "Document / Page 2"]
  /\ inSection "Nope"
       (snd (extractComponents (Docs.file Cases.twoPages) (SelStr "") (SelStr ""))) = []
  /\ main (Sample.world Cases.twoPages Sample.android)
       (Sample.namesInSection ["icon/away"] "Nope") [] =
     (banner Sample.android ++
      [SpinnerStart "Fetching components from Figma...";
       GetFile "FILE";
       SpinnerFail "No components found in section: Nope"],
      Exit 1)
  /\ exactMatches
       (snd (extractComponents (Docs.file Cases.twoPages) (SelStr "") (SelStr "")))
       "button/ok" = [Sample.component "2:3" "button/ok" "Document / Page 2"]
  /\ Str.includes (c_path (Sample.component "2:3" "button/ok" "Document / Page 2")) "Page 1" =
     false
  /\ snd (fetchComponents (Sample.world Cases.twoPages Sample.android)
            (Sample.namesInSection ["button/ok"] "Page 1") "FILE" ["button/ok"]
            (SelStr "") (SelStr "") (banner Sample.android)) =
     Ret [Sample.component "2:3" "button/ok" "Document / Page 2"]
  /\ snd (main (Sample.world Cases.twoPages Sample.android)
            (Sample.namesInSection ["button/ok"] "Page 1") []) = Ret tt
  /\ forallb (fun ev => negb (isExport ev))
       (fst (main (Sample.world Cases.twoPages Sample.android)
               (Sample.namesInSection ["button/ok"] "Page 1") [])) = true
  /\ In (Console Stdout Red "- button/ok")
       (fst (main (Sample.world Cases.twoPages Sample.android)
               (Sample.namesInSection ["button/ok"] "Page 1") [])).
Proof.
  vm_compute. repeat split; try reflexivity.
  repeat (first [left; reflexivity | right]).
Qed.

(** The join on a sample document: a variant of a collected set, and a
    variant that names a set the traversal does not collect. *)
Example extract_button_set :
  snd (extractComponents (Docs.file Docs.buttonSet) (SelStr "") (SelStr "")) =
  [{| c_id := "1:3"; c_name := "state=on";
      c_path := "Document / Page 1 / Button / state=on"; c_type := "COMPONENT";
      c_description := ""; c_width := None; c_height := None;
      c_componentSetId := Some "1:2";
      c_componentSet :=
        Some {| cs_id := "1:2"; cs_name := Some "Button";
                cs_path := ["Document"; "Page 1"; "Button"] |} |}].
Proof. vm_compute. reflexivity. Qed.

(** ** The single-page variant *)

(** In the v1.0.7 variant too, an ambiguous requested name ends
    [fetchComponents] with status 1 after one report for every ambiguous
    name. *)
Lemma Legacy_ambiguous_names_are_fatal world downloadAll fileId names pageId t fileData :
  figma_get_file world (t ++ [startFetch]) fileId = inr fileData ->
  let extracted := Legacy.extractComponents fileData pageId in
  let allComponents := snd extracted in
  (exists name, In name names /\ 1 < length (exactMatches allComponents name)) ->
  Legacy.fetchComponents world downloadAll fileId names pageId t =
  (t ++ [startFetch; GetFile fileId] ++ fst extracted ++
   SpinnerFail "Found duplicate components with the same name"
   :: flat_map (fun name => ambiguityReport fileId (name, exactMatches allComponents name))
        (distinct (List.filter (ambiguous allComponents) names)),
   Exit 1).
Proof.
  intros Hfile extracted allComponents [name [Hin Hlen]].
  assert (Hamb : In name (distinct (List.filter (ambiguous allComponents) names)))
    by (apply ambiguous_distinct; assumption).
  unfold Legacy.fetchComponents. unfold_run. fold startFetch. rewrite Hfile.
  cbv beta iota.
  destruct names as [|n ns]; [destruct Hin|].
  change (0 <? length (n :: ns))%nat with true. cbv beta iota.
  rewrite matchNames_duplicates.
  unfold allComponents, extracted in *.
  assert (Hsize : (0 <? JsMap.size
                     (tabulate (exactMatches (snd (Legacy.extractComponents fileData pageId)))
                        (distinct (List.filter
                                     (ambiguous (snd (Legacy.extractComponents fileData pageId)))
                                     (n :: ns)))))%nat = true).
  { unfold JsMap.size, tabulate. rewrite length_map.
    destruct (distinct _); [destruct Hamb | reflexivity]. }
  rewrite Hsize. cbv beta iota. f_equal. unfold tabulate.
  rewrite flat_map_concat_map, map_map, <- flat_map_concat_map.
  rewrite <- !app_assoc. reflexivity.
Qed.

(** ** Further runs *)

(** A [componentSetId] that is the empty string counts as absent: the
    record gets a null [componentSetId] and a null [componentSet], also
    when a collected set carries the empty identifier. *)
Example extract_empty_set_id :
  snd (extractComponents (Docs.file Docs.emptySetId) (SelStr "") (SelStr "")) =
  [{| c_id := "1:3"; c_name := "state=on";
      c_path := "Document / Page 1 / Button / state=on"; c_type := "COMPONENT";
      c_description := ""; c_width := None; c_height := None;
      c_componentSetId := None; c_componentSet := None |}].
Proof. vm_compute. reflexivity. Qed.

(** Without a token the script leaves with status 1 before anything
    else. *)
Lemma program_without_token world argv t :
  Str.is_truthy (FIGMA_TOKEN world) = false ->
  snd (program world argv t) = Exit 1.
Proof. intros H. unfold program. rewrite H. reflexivity. Qed.

(** No names and no flags: the usage screen, and exit status 0. *)
Lemma program_usage world cli t :
  Str.is_truthy (FIGMA_TOKEN world) = true ->
  componentNames cli = [] -> downloadAll cli = false -> findDuplicate cli = false ->
  Str.is_truthy (sectionName cli) = false ->
  program world (Parsed cli) t =
  (t ++ [Console Stdout Blue "Figma Asset Downloader";
         Console Stdout Blue "======================"] ++ usage, Exit 0).
Proof.
  intros Htoken Hnames Hall Hfind Hsection. unfold program.
  rewrite Htoken, Hnames, Hall, Hfind, Hsection. cbn [negb length Nat.eqb andb].
  unfold_run. rewrite <- !app_assoc. reflexivity.
Qed.

(** * Further properties *)

(** ** Traversal and extraction *)

Lemma visit_at_spec root path depth pos n p d :
  visit_at root path depth pos = Some (n, p, d) ->
  subtree root pos = Some n /\ p = path ++ namesAlong root pos /\ d = depth + length pos.
Proof.
  revert root path depth. induction pos as [|i rest IH]; intros root path depth H; simpl in *.
  - inversion H; subst. split; [reflexivity|]. split; [reflexivity|lia].
  - destruct (nth_error (node_children root) i) as [c|]; [|discriminate].
    apply IH in H as (Hs & Hp & Hd). split; [exact Hs|]. split; [|lia].
    rewrite Hp, <- app_assoc. reflexivity.
Qed.

Lemma visits_In root path depth v :
  In v (visits root path depth) ->
  exists pos, visible root pos = true /\ visit_at root path depth pos = Some v.
Proof.
  rewrite visits_callsAt. unfold callsAt. rewrite in_flat_map.
  intros [pos [Hpos Hv]]. apply List.filter_In in Hpos as [_ Hvis].
  exists pos. split; [exact Hvis|].
  destruct (visit_at root path depth pos) as [v'|]; [|destruct Hv].
  destruct Hv as [->|[]]. reflexivity.
Qed.

Lemma namesAlong_last root pos n :
  subtree root pos = Some n -> last (namesAlong root pos) = Some (name_of n).
Proof.
  revert root. induction pos as [|i rest IH]; intros root H; simpl in *.
  - inversion H. reflexivity.
  - destruct (nth_error (node_children root) i) as [c|]; [|discriminate].
    specialize (IH c H).
    destruct (namesAlong c rest) as [|x xs] eqn:Hn; [discriminate IH|].
    exact IH.
Qed.

Lemma visits_shape (root : Node) (path : list string)
    (depth : nat) (node : Node) (p : list string) (d : nat) :
  In (node, p, d) (visits root path depth) ->
  exists pos,
    subtree root pos = Some node /\
    p = path ++ namesAlong root pos /\
    last p = Some (name_of node) /\
    d = depth + length pos /\
    length p = length path + length pos + 1.
Proof.
  intros Hin. apply visits_In in Hin as (pos & _ & Hv).
  apply visit_at_spec in Hv as (Hs & Hp & Hd).
  exists pos. split; [exact Hs|]. split; [exact Hp|].
  pose proof (namesAlong_last root pos node Hs) as Hlast.
  assert (Hlen : length (namesAlong root pos) = length pos + 1).
  { clear -Hs. revert root Hs. induction pos as [|i rest IH]; intros root Hs; simpl in *.
    - reflexivity.
    - destruct (nth_error (node_children root) i) as [c|]; [|discriminate].
      rewrite (IH c Hs). lia. }
  split; [|split; [exact Hd|]].
  - subst p. destruct (namesAlong root pos) as [|x xs] eqn:Hn; [discriminate Hlast|].
    rewrite last_app. rewrite Hlast. reflexivity.
  - subst p. rewrite length_app, Hlen. lia.
Qed.

(** X1.  Every call [traverseNode] makes hands the visitor the node at
    some position of the tree, the initial path followed by the names of
    the nodes from the root down to that node (so the path ends with the
    node's own name), and the initial depth plus the number of steps
    from the root. *)
Theorem X1_paths_accumulate_ancestor_names (root : Node) (path : list string)
    (depth : nat) (node : Node) (p : list string) (d : nat) :
  In (node, p, d) (visits root path depth) ->
  exists pos,
    subtree root pos = Some node /\
    p = path ++ namesAlong root pos /\
    last p = Some (name_of node) /\
    d = depth + length pos /\
    length p = length path + length pos + 1.
Proof. apply visits_shape. Qed.

Lemma visits_not_skipped root path depth v :
  In v (visits root path depth) -> skipped (fst (fst v)) = false.
Proof.
  intros Hin. apply visits_In in Hin as (pos & Hvis & Hv).
  destruct v as [[n p] d]. apply visit_at_spec in Hv as (Hs & _ & _).
  apply (visible_prefix root pos Hvis (length pos) n).
  rewrite firstn_all. exact Hs.
Qed.

Lemma visitsAll_In roots v :
  In v (visitsAll roots) -> exists root, In root roots /\ In v (visits root [] 0).
Proof. unfold visitsAll. rewrite in_flat_map. tauto. Qed.

Lemma extractComponents_records fileData pageId pageName :
  snd (extractComponents fileData pageId pageName) =
  let roots :=
    nodesToProcess (document fileData)
      (snd (searchPages (document fileData) (toArray pageId) (toArray pageName))) in
  map (fun v => toComponent (firstPass roots) (fst (fst v)) (snd (fst v)))
    (List.filter isComponentVisit (visitsAll roots)).
Proof. unfold extractComponents. cbn [snd]. apply secondPass_visits. Qed.

(** X2.  Every record [extractComponents] returns comes from a node of
    type COMPONENT at some position under a traversal root (a matched
    page, or the document): it has the node's identifier and name, a
    name that is neither empty nor starts with [#], and its path is the
    names of the nodes from that root down to the node itself, joined
    with [" / "], so it ends with the component's own name. *)
Theorem X2_extracted_components_are_named_components (fileData : FileData)
    (pageId pageName : Selector) (component : Component) :
  In component (snd (extractComponents fileData pageId pageName)) ->
  let matched :=
    List.filter (isPageMatch (toArray pageId) (toArray pageName))
      (allNodes (document fileData)) in
  let roots :=
    if selectorsSupplied pageId pageName && (0 <? length matched)%nat
    then matched else [document fileData] in
  c_type component = "COMPONENT" /\
  c_name component <> "" /\
  Str.startsWith (c_name component) "#" = false /\
  exists root pos node,
    In root roots /\
    subtree root pos = Some node /\
    node_type node = "COMPONENT" /\
    c_id component = node_id node /\
    c_name component = name_of node /\
    c_path component = Str.join " / " (namesAlong root pos) /\
    last (namesAlong root pos) = Some (c_name component).
Proof.
  intros Hin matched roots.
  rewrite extractComponents_records in Hin. cbv zeta in Hin.
  rewrite extractComponents_roots in Hin. cbv zeta in Hin.
  fold matched in Hin. fold roots in Hin.
  apply in_map_iff in Hin as [[[n p] d] [<- Hv]].
  apply List.filter_In in Hv as [Hv Hty]. unfold isComponentVisit in Hty. cbn [fst snd] in *.
  apply String.eqb_eq in Hty.
  apply visitsAll_In in Hv as (root & Hroot & Hv).
  pose proof (visits_not_skipped root [] 0 _ Hv) as Hskip. cbn [fst] in Hskip.
  apply visits_shape in Hv as (pos & Hs & Hp & Hlast & _).
  cbn [app] in Hp. subst p.
  unfold toComponent. cbn [c_type c_name c_path c_id].
  split; [exact Hty|].
  split; [|split].
  - unfold skipped, name_of in *. destruct (node_name n) as [nm|]; [|discriminate].
    apply orb_false_iff in Hskip as [Hne _]. intros ->. discriminate.
  - unfold skipped, name_of in *. destruct (node_name n) as [nm|]; [|discriminate].
    apply orb_false_iff in Hskip as [_ Hhash]. exact Hhash.
  - exists root, pos, n. repeat split; try assumption.
Qed.

Lemma visits_skipped root path depth : skipped root = true -> visits root path depth = [].
Proof. intros H. unfold visits. rewrite traverseNode_eq, H. reflexivity. Qed.

Lemma findPages_green pageIds pageNames node :
  forallb (fun ev => match ev with Console Stdout Green _ => true | _ => false end)
    (fst (findPages pageIds pageNames node)) = true.
Proof.
  induction node as [i nm ty cs bb d sid IH] using Node_children_ind.
  simpl. rewrite forallb_app. apply andb_true_iff. split.
  - destruct (isPageMatch _ _ _); [|reflexivity]. simpl. unfold pageLogs.
    rewrite forallb_app.
    destruct (idMatch _ _), (nameMatch _ _); reflexivity.
  - induction cs as [|c r IHr]; [reflexivity|].
    apply Forall_cons in IH as [Hc Hr]. simpl.
    rewrite forallb_app, Hc. simpl. apply IHr, Hr.
Qed.

(** X3.  Page selectors can leave the extraction with nothing: when
    selectors are supplied and every page they match is one the traversal
    skips (no name, or a name starting with [#]), the matched pages are
    still the traversal roots, there is no fall-back to the document, and
    the result is empty. *)
Theorem X3_hidden_pages_yield_no_component (fileData : FileData)
    (pageId pageName : Selector) :
  selectorsSupplied pageId pageName = true ->
  List.filter (isPageMatch (toArray pageId) (toArray pageName))
    (allNodes (document fileData)) <> [] ->
  Forall (fun page => skipped page = true)
    (List.filter (isPageMatch (toArray pageId) (toArray pageName))
       (allNodes (document fileData))) ->
  snd (extractComponents fileData pageId pageName) = [] /\
  ~ In noPagesWarning (fst (extractComponents fileData pageId pageName)).
Proof.
  intros Hs Hne Hall. split.
  - rewrite extractComponents_records. cbv zeta.
    rewrite extractComponents_roots. cbv zeta. rewrite Hs.
    destruct (List.filter _ (allNodes _)) as [|m ms] eqn:Hm; [congruence|].
    cbn [length Nat.ltb Nat.leb andb].
    replace (visitsAll (m :: ms)) with (@nil (Node * list string * nat)); [reflexivity|].
    symmetry. unfold visitsAll. clear Hm Hne.
    induction (m :: ms) as [|r rs IH]; [reflexivity|].
    apply Forall_cons in Hall as [Hr Hrs]. simpl.
    rewrite (visits_skipped r [] 0 Hr). apply IH, Hrs.
  - unfold extractComponents, searchPages. cbn [fst].
    fold (selectorsSupplied pageId pageName). rewrite Hs. cbn [fst snd].
    rewrite findPages_allNodes.
    destruct (List.filter _ (allNodes _)) as [|m ms] eqn:Hm; [congruence|].
    cbn [length Nat.ltb Nat.leb]. intros Hin. apply in_app_iff in Hin as [Hin|[Hin|[]]].
    + pose proof (findPages_green (toArray pageId) (toArray pageName) (document fileData))
        as Hc.
      rewrite forallb_forall in Hc. specialize (Hc _ Hin). discriminate Hc.
    + discriminate Hin.
Qed.

(** ** The pipelines *)

(** One icon: whatever fails, the loop goes on. *)
Lemma processIcon_run world config iconUrls total component counter processed t :
  exists evs names,
    processIcon world config iconUrls total component counter processed t =
      (t ++ evs, Ret names).
Proof.
  unfold processIcon, downloadSvg, optimizeSvg, convertSvgForPlatform,
    path_join_root, ensureDir, emptyDir, writeFile.
  unfold_run. split_run; (eexists; eexists; close_trace).
Qed.

Lemma iconLoop_run world config iconUrls total components :
  forall counter processed t,
  exists evs names,
    iconLoop world config iconUrls total components counter processed t =
      (t ++ evs, Ret names).
Proof.
  induction components as [|c cs IH]; intros counter processed t.
  - exists [], processed. simpl. unfold ret. rewrite app_nil_r. reflexivity.
  - simpl. unfold bind.
    destruct (processIcon_run world config iconUrls total c (counter + 1) processed t)
      as (e1 & names1 & ->).
    destruct (IH (counter + 1) names1 (t ++ e1)) as (e2 & names2 & ->).
    exists (e1 ++ e2), names2. rewrite app_assoc. reflexivity.
Qed.

Lemma processIcons_run world components fileId config t :
  exists evs names,
    processIcons world components fileId config t = (t ++ evs, Ret names).
Proof.
  unfold processIcons.
  destruct (length _ =? 0)%nat.
  - exists [], []. unfold ret. rewrite app_nil_r. reflexivity.
  - unfold bind, emit, try_catch.
    match goal with |- context [getImageUrls world ?a ?b ?c ?d ?e ?t'] =>
      destruct (getImageUrls_run world a b c d e t') as (e1 & o1 & -> & _ & Hexit) end.
    destruct o1 as [urls|error|code]; [| |exfalso; eapply Hexit; reflexivity].
    + unfold ret.
      match goal with |- context [iconLoop world ?a ?b ?c ?d ?e ?f ?t'] =>
        destruct (iconLoop_run world a b c d e f t') as (e2 & names & ->) end.
      eexists. exists names. close_trace.
    + unfold ret. eexists. exists []. close_trace.
Qed.

Lemma processIcons_names_icon world config fileId components t t' names :
  processIcons world components fileId config t = (t', Ret names) ->
  forall name, In name names ->
    Str.startsWith name "icon/" = true /\ exists c, In c components /\ c_name c = name.
Proof.
  unfold processIcons. destruct (_ =? 0)%nat.
  - intros H name Hin. inversion H; subst. destruct Hin.
  - intros H name Hin.
    apply bind_Ret_inv in H as (? & ? & _ & H).
    apply bind_Ret_inv in H as (? & ? & _ & H).
    apply bind_Ret_inv in H as (urls & ? & _ & H).
    destruct urls as [iconUrls|]; [|inversion H; subst; destruct Hin].
    destruct (iconLoop_names _ _ _ _ _ _ _ _ _ _ H name Hin) as [[]|[c [Hc Hn]]].
    apply List.filter_In in Hc as [Hc Hp]. rewrite Hn in Hp.
    split; [exact Hp|]. exists c. tauto.
Qed.

Lemma processImages_names_img world config fileId components t t' names :
  processImages world components fileId config t = (t', Ret names) ->
  forall name, In name names ->
    Str.startsWith name "img/" = true /\ exists c, In c components /\ c_name c = name.
Proof.
  unfold processImages. destruct (_ =? 0)%nat.
  - intros H name Hin. inversion H; subst. destruct Hin.
  - intros H name Hin. apply bind_Ret_inv in H as (? & t1 & _ & H).
    destruct (imageLoop_names _ _ _ _ _ _ _ _ _ _ H name Hin) as [[]|[c [Hc Hn]]].
    apply List.filter_In in Hc as [Hc Hp]. rewrite Hn in Hp.
    split; [exact Hp|]. exists c. tauto.
Qed.

(** X4.  The icon pipeline never ends the run: on either platform and
    whatever the rendering API, the downloads, the converters and the
    filesystem answer, [processIcons] returns; the names it returns are
    names of resolved components in the [icon/] namespace. *)
Theorem X4_icon_pipeline_always_returns (world : World) (components : list Component)
    (fileId : string) (config : Config) (t : Trace) :
  exists evs names,
    processIcons world components fileId config t = (t ++ evs, Ret names) /\
    forall name, In name names ->
      Str.startsWith name "icon/" = true /\
      exists component, In component components /\ c_name component = name.
Proof.
  destruct (processIcons_run world components fileId config t) as (evs & names & H).
  exists evs, names. split; [exact H|].
  eapply processIcons_names_icon. exact H.
Qed.

Lemma imageLoop_android_undefined world config fileId totalImages components :
  platform config = "android" ->
  images_path config = None ->
  forall imageCounter processed t,
  exists evs names,
    imageLoop world config fileId totalImages components imageCounter processed t =
      (t ++ evs, Ret names) /\
    forallb (fun ev => negb (isExport ev)) evs = true.
Proof.
  intros Hplat Hroot. induction components as [|c cs IH]; intros imageCounter processed t.
  - exists [], processed. simpl. unfold ret. rewrite app_nil_r. split; reflexivity.
  - cbn [imageLoop]. unfold bind at 1. unfold processImage, bind at 1. rewrite Hplat.
    cbn [String.eqb Ascii.eqb Bool.eqb].
    match goal with |- context [dpiLoop world config ?a ?b ?c ?d ?e ?f ?g t] =>
      destruct (dpiLoop_undefined world config a b c d e f g t Hroot) as (e1 & -> & He1) end.
    destruct (negb _); unfold ret at 1;
      match goal with |- context [imageLoop world config ?a ?b ?c ?d ?e ?t'] =>
        destruct (IH d e t') as (e2 & names & -> & He2) end;
      exists (e1 ++ e2), names; rewrite app_assoc, forallb_app, He1, He2;
      split; reflexivity.
Qed.

(** X5.  On Android the image pipeline never ends the run and never
    skips a variant because of an earlier failure: [processImages]
    returns names of resolved [img/] components; when [images.path] is
    configured, for every resolved [img/] component, in order, the
    directory of every density to process is ensured, in table order;
    when it is undefined nothing is requested, downloaded or touched. *)
Theorem X5_android_image_pipeline_is_isolated (world : World)
    (components : list Component) (fileId : string) (config : Config) (t : Trace) :
  platform config = "android" ->
  exists evs names,
    processImages world components fileId config t = (t ++ evs, Ret names) /\
    (forall root,
       images_path config = Some root ->
       ensureDirs evs =
         flat_map (fun _ : Component =>
                     map (fun dpi => [root; "drawable-" +:+ dpi]) (dpisToProcess config))
           (List.filter (fun c => Str.startsWith (c_name c) "img/") components)) /\
    (images_path config = None ->
     forallb (fun ev => negb (isExport ev)) evs = true) /\
    forall name, In name names ->
      Str.startsWith name "img/" = true /\
      exists component, In component components /\ c_name component = name.
Proof.
  intros Hplat.
  destruct (processImages_android_isolated world config fileId components t Hplat)
    as (evs & names & H & Hd).
  exists evs, names. split; [exact H|]. split; [|split].
  - intros root Hroot. rewrite Hd, Hroot. cbn [ifDefined].
    apply flat_map_ext. intros _. apply map_ext. intros dpi.
    unfold drawableDir. rewrite Hroot. reflexivity.
  - intros Hroot. revert H. unfold processImages.
    destruct (length _ =? 0)%nat.
    + unfold ret. intros H. injection H as H _.
      rewrite <- (app_nil_r t) in H at 1. apply app_inv_head in H. subst evs. reflexivity.
    + unfold bind, emit.
      match goal with |- context [imageLoop world config ?a ?b ?c ?d ?e ?t'] =>
        destruct (imageLoop_android_undefined world config a b c Hplat Hroot d e t')
          as (e1 & names1 & -> & He1) end.
      intros H. injection H as H _. rewrite <- app_assoc in H.
      apply app_inv_head in H. subst evs. cbn [app forallb isExport negb andb]. exact He1.
  - eapply processImages_names_img. exact H.
Qed.

(** X6.  No partial credit on Android: an image component's name is
    added to the processed names exactly when the file of every density
    to process was written; otherwise the processed names are unchanged,
    and the files that were written stay (the trace only grows). *)
Theorem X6_android_no_partial_credit (world : World) (config : Config) (fileId : string)
    (totalImages : nat) (component : Component) (imageCounter : nat)
    (processed : list string) (t : Trace) :
  platform config = "android" ->
  let files :=
    map (drawableFile config
           (images_prefix config +:+ sanitizedName world (c_name component) "img/"))
      (dpisToProcess config) in
  exists evs names,
    processImage world config fileId totalImages component imageCounter processed t =
      (t ++ evs, Ret names) /\
    (written evs = files -> names = set_add (c_name component) processed) /\
    (written evs <> files -> names = processed).
Proof.
  intros Hplat files.
  destruct (processImage_android_run world config fileId component _ imageCounter
              totalImages processed t Hplat eq_refl)
    as (evs & names & H & _ & _ & Hnames).
  exists evs, names. split; [exact H|]. fold files in Hnames.
  destruct (decide (written evs = files)) as [Heq|Hne]; subst names.
  - split; [reflexivity | contradiction].
  - split; [contradiction | reflexivity].
Qed.

(** X7.  On Android, once the names are resolved nothing that happens
    in the pipelines changes how the run ends: [main] finishes normally
    (exit status 0) whatever the rendering API, the downloads, the
    converters and the filesystem answer. *)
Theorem X7_android_run_ends_normally_once_resolved (world : World) (cli : Cli)
    (config : Config) (t t1 : Trace) (components : list Component) :
  loadConfig world = Some config ->
  findDuplicate cli = false ->
  platform config = "android" ->
  fetchComponents world cli (fileId config) (componentNames cli) (pageId config)
    (pageName config) (t ++ banner config) = (t1, Ret components) ->
  snd (main world cli t) = Ret tt /\ status (main world cli t) = 0%Z.
Proof.
  intros Hconfig Hfind Hplat Hfetch.
  destruct (processIcons_run world components (fileId config) config t1)
    as (e2 & icons & Hi).
  destruct (processImages_android_isolated world config (fileId config) components
              (t1 ++ e2) Hplat) as (e3 & images & Hm & _).
  rewrite (main_run world cli config Hconfig Hfind t t1 components _ icons _ images
             Hfetch Hi Hm).
  split; reflexivity.
Qed.

Lemma imageLoop_nothing_to_do world config fileId total components :
  platform config = "android" ->
  dpisToProcess config = [] ->
  forall counter processed t,
    imageLoop world config fileId total components counter processed t =
    (t, Ret (fold_left (fun names name => set_add name names) (map c_name components)
               processed)).
Proof.
  intros Hplat Hdpis. induction components as [|c cs IH]; intros counter processed t.
  - reflexivity.
  - simpl. unfold bind, processImage, bind. rewrite Hplat, Hdpis.
    cbn [String.eqb Ascii.eqb Bool.eqb dpiLoop ret negb]. apply IH.
Qed.

Lemma dpisToProcess_all_skipped config skip :
  images_skipDpi config = Some skip ->
  (forall dpi, In dpi (JsMap.keys ANDROID_DPI_SCALES) -> In dpi skip) ->
  dpisToProcess config = [].
Proof.
  intros Hskip Hall. unfold dpisToProcess. rewrite Hskip.
  induction (JsMap.keys ANDROID_DPI_SCALES) as [|dpi dpis IH]; [reflexivity|].
  simpl. assert (Hm : Str.mem dpi skip = true) by (apply mem_In, Hall; left; reflexivity).
  rewrite Hm. simpl. apply IH. intros d Hd. apply Hall. right. exact Hd.
Qed.

(** X8.  On Android, a skip-list that names all six densities leaves
    nothing to do for an image, and the pipeline then counts every
    resolved [img/] component as processed although it requests,
    downloads and writes nothing. *)
Theorem X8_skipping_every_density_counts_as_processed (world : World)
    (components : list Component) (fileId : string) (config : Config)
    (skip : list string) (t : Trace) :
  platform config = "android" ->
  images_skipDpi config = Some skip ->
  (forall dpi, In dpi ["ldpi"; "mdpi"; "hdpi"; "xhdpi"; "xxhdpi"; "xxxhdpi"] ->
               In dpi skip) ->
  exists evs,
    processImages world components fileId config t =
      (t ++ evs,
       Ret (distinct (map c_name
                        (List.filter (fun c => Str.startsWith (c_name c) "img/")
                           components)))) /\
    forallb isConsole evs = true.
Proof.
  intros Hplat Hskip Hall.
  pose proof (dpisToProcess_all_skipped config skip Hskip Hall) as Hdpis.
  unfold processImages.
  destruct (List.filter _ components) as [|c cs] eqn:Hf.
  - exists []. unfold ret. simpl. rewrite app_nil_r. split; reflexivity.
  - cbn [length Nat.eqb]. unfold bind, emit.
    rewrite (imageLoop_nothing_to_do world config fileId _ (c :: cs) Hplat Hdpis).
    eexists. split; [reflexivity|reflexivity].
Qed.

(** X9.  On iOS a variant ends the run only through the request for its
    URL: [processScale] passes on what [getImageUrls] throws, and when
    that request answers it returns, whatever the download and the write
    do. *)
Theorem X9_ios_variant_throws_only_what_the_url_request_throws (world : World)
    (config : Config) (fileId : string) (component : Component) (fileNameBase : string)
    (assetPath : Path) (imageCounter totalImages : nat) (entry : string * Q) (t : Trace) :
  match snd (getImageUrls world fileId [component] (images_format config) (snd entry)
               (platform config)
               (t ++ [startScale component imageCounter totalImages (fst entry)])) with
  | Ret _ =>
      exists failed,
        snd (processScale world config fileId component fileNameBase assetPath
               imageCounter totalImages entry t) = Ret failed
  | Throw error =>
      snd (processScale world config fileId component fileNameBase assetPath
             imageCounter totalImages entry t) = Throw error
  | Exit _ => False
  end.
Proof.
  unfold processScale, bind, emit. fold (startScale component imageCounter totalImages (fst entry)).
  destruct (getImageUrls_run world fileId [component] (images_format config) (snd entry)
              (platform config)
              (t ++ [startScale component imageCounter totalImages (fst entry)]))
    as (e1 & o1 & -> & _ & Hexit).
  cbn [snd]. destruct o1 as [urls|error|code]; [|reflexivity|eapply Hexit; reflexivity].
  destruct (Str.truthy (urls (c_id component))) as [imageUrl|].
  - unfold try_catch, bind.
    match goal with |- context [downloadImage world ?u ?t'] =>
      destruct (downloadImage_run world u t') as (e2 & o2 & -> & _ & Hexit2) end.
    destruct o2 as [image|error|code]; [| |exfalso; eapply Hexit2; reflexivity].
    + unfold writeFile, fs_op, emit, ret.
      match goal with |- context [fs_writeFile world ?t' ?p ?c] =>
        destruct (fs_writeFile world t' p c) as [error'|[]] end;
        (eexists; reflexivity).
    + unfold emit, ret. eexists. reflexivity.
  - unfold ret. eexists. reflexivity.
Qed.

(** X10.  The manifest of an iOS image and the files of its variants
    agree: for every format but [svg], the file names [Contents.json]
    lists are, in order, the names under which [processImages] writes the
    five scale variants. *)
Theorem X10_ios_manifest_lists_the_variant_files (fileNameBase format : string) :
  format <> "svg" ->
  manifestFilenames (createContentsJson fileNameBase format) =
  map (fun entry => scaleFileName fileNameBase (fst entry) +:+ "." +:+ format) IOS_SCALES.
Proof.
  intros Hformat. rewrite createContentsJson_not_svg by exact Hformat.
  change (map _ IOS_SCALES) with
    [fileNameBase +:+ "." +:+ format;
     (fileNameBase +:+ "@2x") +:+ "." +:+ format;
     (fileNameBase +:+ "@3x") +:+ "." +:+ format;
     (fileNameBase +:+ "~ipad") +:+ "." +:+ format;
     (fileNameBase +:+ "~ipad@2x") +:+ "." +:+ format].
  rewrite !string_append_assoc. reflexivity.
Qed.

(** ** The duplicate search *)

Lemma findDuplicates_nonempty all :
  (0 <? JsMap.size (findDuplicates all))%nat = true <->
  exists name, relevantName name = true /\ 2 <= length (exactMatches all name).
Proof.
  unfold JsMap.size. split.
  - intros H. destruct (findDuplicates all) as [|[name group] rest] eqn:Hd; [discriminate|].
    assert (Hin : In (name, group) (findDuplicates all)) by (rewrite Hd; left; reflexivity).
    apply findDuplicates_In in Hin as (Hrel & -> & Hlen). exists name. tauto.
  - intros [name [Hrel Hlen]].
    assert (Hin : In (name, exactMatches all name) (findDuplicates all))
      by (apply findDuplicates_In; tauto).
    destruct (findDuplicates all); [destruct Hin|reflexivity].
Qed.

Lemma findDuplicateComponents_found world fileId pageId pageName t fileData :
  figma_get_file world (t ++ [startDuplicates]) fileId = inr fileData ->
  let extracted := extractComponents fileData pageId pageName in
  findDuplicateComponents world fileId pageId pageName t =
    (t ++ [startDuplicates; GetFile fileId] ++ fst extracted ++
       duplicatesOutput fileId (snd extracted),
     Ret (0 <? JsMap.size (findDuplicates (snd extracted)))%nat).
Proof.
  intros Hfile extracted. unfold findDuplicateComponents, duplicatesOutput.
  unfold_run. fold startDuplicates. rewrite Hfile. cbv beta iota. fold extracted.
  destruct (JsMap.size (findDuplicates (snd extracted)) =? 0)%nat;
    cbv beta iota; f_equal; rewrite <- ?app_assoc; cbn [app]; reflexivity.
Qed.

Lemma findDuplicateComponents_failed world fileId pageId pageName t error :
  figma_get_file world (t ++ [startDuplicates]) fileId = inl error ->
  exists evs,
    findDuplicateComponents world fileId pageId pageName t =
      (t ++ [startDuplicates; GetFile fileId; SpinnerFail "Error fetching components from Figma"] ++
         evs, Exit 1) /\
    forallb isConsole evs = true.
Proof.
  intros Hfile. unfold findDuplicateComponents. unfold_run. fold startDuplicates.
  rewrite Hfile. cbv beta iota.
  match goal with |- context [handleApiError ?e ?t'] =>
    destruct (handleApiError_run e t') as [evs [-> Hevs]] end.
  exists evs. split; [|exact Hevs]. f_equal. close_trace.
Qed.

Lemma duplicatesOutput_no_export fileId all :
  forallb (fun ev => negb (isExport ev)) (duplicatesOutput fileId all) = true.
Proof.
  unfold duplicatesOutput. cbn [forallb isExport negb andb].
  destruct (_ =? 0)%nat; [reflexivity|].
  cbn [forallb isExport negb andb]. rewrite forallb_app. cbn [forallb isExport negb andb].
  rewrite andb_true_r. apply forallb_forall. intros ev Hev.
  apply in_flat_map in Hev as [[name group] [_ Hev]].
  unfold duplicateReport in Hev. cbn [In] in Hev. destruct Hev as [<-|Hev]; [reflexivity|].
  apply console_not_export.
  pose proof (linkLines_console Cyan "  " fileId (snd (name, group)) 0) as Hc.
  rewrite forallb_forall in Hc. apply Hc, Hev.
Qed.

(** X11.  Once the document has arrived, the duplicate search returns,
    and it answers [true] exactly when some name in the [icon/] or [img/]
    namespace is carried by two or more extracted components. *)
Theorem X11_duplicate_search_answers_for_the_two_namespaces (world : World)
    (fileId : string) (pageId pageName : Selector) (t : Trace) (fileData : FileData) :
  figma_get_file world (t ++ [startDuplicates]) fileId = inr fileData ->
  let allComponents := snd (extractComponents fileData pageId pageName) in
  exists found,
    snd (findDuplicateComponents world fileId pageId pageName t) = Ret found /\
    (found = true <->
     exists name, relevantName name = true /\
                  2 <= length (exactMatches allComponents name)).
Proof.
  intros Hfile allComponents.
  rewrite (findDuplicateComponents_found world fileId pageId pageName t fileData Hfile).
  eexists. split; [reflexivity|]. apply findDuplicates_nonempty.
Qed.

(** X12.  A run with [--find-duplicate] only reads: it requests the
    document and nothing else, touches no file, and ends with status 0
    when the document arrives, duplicates or not, and with status 1 when
    it does not. *)
Theorem X12_find_duplicate_run_only_reads (world : World) (cli : Cli) (config : Config)
    (t : Trace) :
  loadConfig world = Some config ->
  findDuplicate cli = true ->
  exists evs,
    fst (main world cli t) = t ++ evs /\
    forallb (fun ev => negb (isExport ev)) evs = true /\
    status (main world cli t) =
      match figma_get_file world (t ++ banner config ++ [startDuplicates]) (fileId config) with
      | inr _ => 0%Z
      | inl _ => 1%Z
      end.
Proof.
  intros Hconfig Hfind. unfold main, status, try_catch, bind, emit, ret.
  rewrite Hconfig, Hfind, main_banner.
  destruct (figma_get_file world (t ++ banner config ++ [startDuplicates]) (fileId config))
    as [error|fileData] eqn:Hfile; rewrite app_assoc in Hfile.
  - destruct (findDuplicateComponents_failed world (fileId config) (pageId config)
                (pageName config) (t ++ banner config) error Hfile) as [evs [-> Hevs]].
    eexists. split; [cbn [fst]; rewrite <- app_assoc; reflexivity|].
    split; [|reflexivity].
    rewrite !forallb_app. repeat (apply andb_true_iff; split); try reflexivity.
    apply forallb_forall. intros ev Hev.
    apply console_not_export. rewrite forallb_forall in Hevs. apply Hevs, Hev.
  - rewrite (findDuplicateComponents_found world (fileId config) (pageId config)
               (pageName config) (t ++ banner config) fileData Hfile).
    eexists. split; [cbn [fst]; rewrite <- app_assoc; reflexivity|].
    split; [|reflexivity].
    rewrite !forallb_app. repeat (apply andb_true_iff; split); try reflexivity;
      try apply duplicatesOutput_no_export.
    apply forallb_forall. intros ev Hev. apply console_not_export.
    pose proof (extractComponents_console fileData (pageId config) (pageName config)) as Hc.
    rewrite forallb_forall in Hc. apply Hc, Hev.
Qed.

(** ** The resolver *)

Lemma map_name_flat_map_exactMatches all names :
  Forall (fun name => uniquelyMatched all name = true) names ->
  map c_name (flat_map (exactMatches all) names) = names.
Proof.
  induction 1 as [|name names Hname _ IH]; [reflexivity|].
  cbn [flat_map]. rewrite map_app, IH. unfold uniquelyMatched in Hname.
  destruct (exactMatches all name) as [|c [|c' cs]] eqn:Hem; try discriminate.
  assert (Hc : In c (exactMatches all name)) by (rewrite Hem; left; reflexivity).
  apply exactMatches_name in Hc as [_ Hc]. cbn [map app]. rewrite Hc. reflexivity.
Qed.

(** X13.  The two maps of the resolver split the requested names by the
    number of components carrying them: [nameMap] holds one component for
    each name carried by exactly one, [duplicates] has one key for each
    name carried by two or more; both keep the order of first request
    and list a repeated name once.  A name carried by no component is in
    neither. *)
Theorem X13_resolver_partitions_the_requested_names (allComponents : list Component)
    (names : list string) :
  map c_name (JsMap.values (fst (matchNames allComponents names))) =
    distinct (List.filter (uniquelyMatched allComponents) names) /\
  JsMap.keys (snd (matchNames allComponents names)) =
    distinct (List.filter (ambiguous allComponents) names).
Proof.
  split.
  - rewrite matchNames_nameMap. apply map_name_flat_map_exactMatches.
    apply List.Forall_forall. intros name Hin.
    apply (proj1 (distinct_In _ _)) in Hin. apply List.filter_In in Hin. tauto.
  - rewrite matchNames_duplicates. apply keys_tabulate.
Qed.

(** X14.  [fetchComponents] ends in one of two ways only: it returns a
    list that is not empty, or it leaves the process with status 1; it
    never throws.  When the document cannot be fetched it is the second,
    after the diagnostics of [handleApiError]. *)
Theorem X14_fetch_returns_components_or_exits_with_1 (world : World) (cli : Cli)
    (fileId : string) (names : list string) (pageId pageName : Selector) (t : Trace) :
  match snd (fetchComponents world cli fileId names pageId pageName t) with
  | Ret components => components <> []
  | Throw _ => False
  | Exit code => code = 1%Z
  end /\
  (forall error,
     figma_get_file world (t ++ [startFetch]) fileId = inl error ->
     exists evs,
       fetchComponents world cli fileId names pageId pageName t =
         (t ++ [startFetch; GetFile fileId; SpinnerFail "Error fetching components from Figma"] ++
            evs, Exit 1) /\
       forallb isConsole evs = true).
Proof.
  split; [apply fetchComponents_outcome|].
  intros error Hfile. unfold fetchComponents. unfold_run. fold startFetch.
  rewrite Hfile. cbv beta iota.
  match goal with |- context [handleApiError ?e ?t'] =>
    destruct (handleApiError_run e t') as [evs [-> Hevs]] end.
  exists evs. split; [|exact Hevs]. f_equal. close_trace.
Qed.

(** X15.  What [fetchComponents] returns depends on the mode alone.
    With names: a component is returned exactly when its name is
    requested and it is the only extracted component of that name, and
    the returned components follow the order in which their names were
    first requested, one for each such name.  With a section and no
    name: the components whose path contains the section, whether or not
    [--all] is given.  With neither: every extracted component, and only
    under [--all]. *)
Theorem X15_fetch_returns_the_set_of_its_mode (world : World) (cli : Cli)
    (fileId : string) (pageId pageName : Selector) (t : Trace) (fileData : FileData)
    (components : list Component) :
  figma_get_file world (t ++ [startFetch]) fileId = inr fileData ->
  snd (fetchComponents world cli fileId (componentNames cli) pageId pageName t) =
    Ret components ->
  let allComponents := snd (extractComponents fileData pageId pageName) in
  match componentNames cli, Str.truthy (sectionName cli) with
  | _ :: _, _ =>
      map c_name components =
        distinct (List.filter (uniquelyMatched allComponents) (componentNames cli)) /\
      (forall component,
         In component components <->
         In (c_name component) (componentNames cli) /\
         List.filter (fun other => String.eqb (c_name other) (c_name component))
           allComponents = [component])
  | [], Some section =>
      components =
        List.filter (fun component => Str.includes (c_path component) section)
          allComponents
  | [], None => components = allComponents /\ downloadAll cli = true
  end.
Proof.
  intros Hfile Hret allComponents.
  pose proof (fetchComponents_returns world cli fileId pageId pageName t fileData
                components Hfile Hret) as Hset.
  fold allComponents in Hset. unfold resolvedSet in Hset.
  destruct (componentNames cli) as [|name names] eqn:Hnames.
  - cbn [length Nat.ltb Nat.leb] in Hset.
    destruct (Str.truthy (sectionName cli)) as [section|] eqn:Hsec; [exact Hset|].
    split; [exact Hset|].
    revert Hret. unfold fetchComponents. unfold_run. fold startFetch.
    rewrite Hfile. cbv beta iota. rewrite Hsec. cbn [length Nat.ltb Nat.leb]. cbv beta iota.
    unfold Str.is_truthy. rewrite Hsec.
    destruct (downloadAll cli); [reflexivity|]. cbn [negb andb]. cbv beta iota. discriminate.
  - cbn [length Nat.ltb Nat.leb] in Hset. rewrite Hset. split.
    + unfold resolvedByName. apply map_name_flat_map_exactMatches.
      apply List.Forall_forall. intros requested Hin.
      apply (proj1 (distinct_In _ _)) in Hin. apply List.filter_In in Hin. tauto.
    + intros component. split.
      * intros Hin. apply resolvedByName_name in Hin as (_ & Hname & Hone).
        split; [exact Hname | exact Hone].
      * intros [Hname Hone]. eapply resolvedByName_In; [exact Hname | exact Hone].
Qed.

(** ** The closing report *)

(** X16.  A requested name outside the two namespaces is never exported,
    even when it resolves: once the pipelines have returned, the closing
    report lists it as not processed, without the [(not found)] mark when
    a component of that name was resolved. *)
Theorem X16_names_outside_the_namespaces_are_reported (world : World) (cli : Cli)
    (config : Config) (t t1 t2 t3 : Trace) (components : list Component)
    (icons images : list string) (name : string) :
  loadConfig world = Some config ->
  findDuplicate cli = false ->
  fetchComponents world cli (fileId config) (componentNames cli) (pageId config)
    (pageName config) (t ++ banner config) = (t1, Ret components) ->
  processIcons world components (fileId config) config t1 = (t2, Ret icons) ->
  processImages world components (fileId config) config t2 = (t3, Ret images) ->
  In name (componentNames cli) ->
  relevantName name = false ->
  In (notProcessedLine components name) (fst (main world cli t)) /\
  ((exists component, In component components /\ c_name component = name) ->
   notProcessedLine components name = Console Stdout Red ("- " +:+ name)).
Proof.
  intros Hconfig Hfind Hfetch Hicons Himages Hin Hrel. split.
  - rewrite (main_run world cli config Hconfig Hfind t t1 components t2 icons t3 images
               Hfetch Hicons Himages).
    cbn [fst]. apply in_or_app. right. unfold closingReport. apply in_or_app. left.
    assert (Hun : In name (unprocessed cli icons images)).
    { unfold unprocessed. apply List.filter_In. split; [exact Hin|].
      apply negb_true_iff, mem_false. intros Hmem.
      apply fold_set_add_In in Hmem as [Hmem|[]].
      unfold relevantName in Hrel. apply orb_false_iff in Hrel as [Hi Hm].
      apply in_app_or in Hmem as [Hmem|Hmem].
      - apply (processIcons_names_icon _ _ _ _ _ _ _ Hicons) in Hmem as [Hp _]. congruence.
      - apply (processImages_names_img _ _ _ _ _ _ _ Himages) in Hmem as [Hp _]. congruence. }
    destruct (unprocessed cli icons images) as [|n ns] eqn:Hu; [destruct Hun|].
    change (0 <? length (n :: ns))%nat with true. cbv iota.
    right. apply in_map. exact Hun.
  - intros [component [Hc Hname]]. unfold notProcessedLine.
    assert (He : existsb (fun c => String.eqb (c_name c) name) components = true).
    { apply existsb_exists. exists component. split; [exact Hc|].
      apply String.eqb_eq. exact Hname. }
    rewrite He. cbn [negb]. rewrite string_append_nil_r. reflexivity.
Qed.

(** ** Instances *)

Lemma X1_witness_icon_on_a_page :
  exists pos,
    subtree Docs.oneIcon pos = Some (Sample.node "1:2" "icon/home" "COMPONENT" []) /\
    ["Document"; "Page 1"; "icon/home"] = [] ++ namesAlong Docs.oneIcon pos /\
    last ["Document"; "Page 1"; "icon/home"] =
      Some (name_of (Sample.node "1:2" "icon/home" "COMPONENT" [])) /\
    2 = 0 + length pos /\
    length ["Document"; "Page 1"; "icon/home"] = length (@nil string) + length pos + 1.
Proof.
  apply (X1_paths_accumulate_ancestor_names Docs.oneIcon [] 0
           (Sample.node "1:2" "icon/home" "COMPONENT" [])
           ["Document"; "Page 1"; "icon/home"] 2).
  vm_compute. right. right. left. reflexivity.
Defined.

Lemma X2_witness_icon_record :
  exists root pos node,
    In root [Docs.oneIcon] /\
    subtree root pos = Some node /\
    node_type node = "COMPONENT" /\
    c_id (Sample.component "1:2" "icon/home" "Document / Page 1") = node_id node /\
    c_name (Sample.component "1:2" "icon/home" "Document / Page 1") = name_of node /\
    c_path (Sample.component "1:2" "icon/home" "Document / Page 1") =
      Str.join " / " (namesAlong root pos) /\
    last (namesAlong root pos) =
      Some (c_name (Sample.component "1:2" "icon/home" "Document / Page 1")).
Proof.
  destruct (X2_extracted_components_are_named_components (Docs.file Docs.oneIcon)
              (SelStr "") (SelStr "")
              (Sample.component "1:2" "icon/home" "Document / Page 1"))
    as (_ & _ & _ & H).
  - vm_compute. left. reflexivity.
  - exact H.
Defined.

Lemma X3_witness_archived_page :
  snd (extractComponents (Docs.file hiddenPageDoc) (SelStr "") (SelStr "#Archive")) = [] /\
  ~ In noPagesWarning
      (fst (extractComponents (Docs.file hiddenPageDoc) (SelStr "") (SelStr "#Archive"))).
Proof.
  apply (X3_hidden_pages_yield_no_component (Docs.file hiddenPageDoc) (SelStr "")
           (SelStr "#Archive")).
  - reflexivity.
  - vm_compute. discriminate.
  - vm_compute. repeat constructor.
Defined.

Lemma X5_witness_two_images :
  exists evs names,
    processImages (Sample.world Docs.twoImages Sample.android)
      [Sample.component "1:2" "img/banner" "Document / Page 1";
       Sample.component "1:3" "img/logo" "Document / Page 1"] "FILE" Sample.android [] =
      ([] ++ evs, Ret names) /\
    ensureDirs evs =
      [["res"; "drawable-hdpi"]; ["res"; "drawable-xhdpi"]; ["res"; "drawable-xxhdpi"];
       ["res"; "drawable-xxxhdpi"];
       ["res"; "drawable-hdpi"]; ["res"; "drawable-xhdpi"]; ["res"; "drawable-xxhdpi"];
       ["res"; "drawable-xxxhdpi"]].
Proof.
  destruct (X5_android_image_pipeline_is_isolated
              (Sample.world Docs.twoImages Sample.android)
              [Sample.component "1:2" "img/banner" "Document / Page 1";
               Sample.component "1:3" "img/logo" "Document / Page 1"] "FILE"
              Sample.android [] eq_refl) as (evs & names & H & Hd & _).
  exists evs, names. split; [exact H|]. exact (Hd "res" eq_refl).
Defined.

Lemma X6_witness_banner :
  exists evs names,
    processImage (Sample.world Docs.twoImages Sample.android) Sample.android "FILE" 2
      (Sample.component "1:2" "img/banner" "Document / Page 1") 1 [] [] =
      ([] ++ evs, Ret names) /\
    (written evs =
       map (drawableFile Sample.android
              (images_prefix Sample.android +:+
               sanitizedName (Sample.world Docs.twoImages Sample.android)
                 (c_name (Sample.component "1:2" "img/banner" "Document / Page 1")) "img/"))
         (dpisToProcess Sample.android) ->
     names =
       set_add (c_name (Sample.component "1:2" "img/banner" "Document / Page 1")) []) /\
    (written evs <>
       map (drawableFile Sample.android
              (images_prefix Sample.android +:+
               sanitizedName (Sample.world Docs.twoImages Sample.android)
                 (c_name (Sample.component "1:2" "img/banner" "Document / Page 1")) "img/"))
         (dpisToProcess Sample.android) ->
     names = []).
Proof.
  apply (X6_android_no_partial_credit (Sample.world Docs.twoImages Sample.android)
           Sample.android "FILE" 2
           (Sample.component "1:2" "img/banner" "Document / Page 1") 1 [] []).
  reflexivity.
Defined.

Lemma X7_witness_banner_run :
  snd (main (Sample.world Docs.twoImages Sample.android) (Sample.names ["img/banner"]) []) =
    Ret tt /\
  status (main (Sample.world Docs.twoImages Sample.android) (Sample.names ["img/banner"])
            []) = 0%Z.
Proof.
  let fetched := eval vm_compute in
      (fetchComponents (Sample.world Docs.twoImages Sample.android)
         (Sample.names ["img/banner"]) "FILE" ["img/banner"] (SelStr "") (SelStr "")
         ([] ++ banner Sample.android)) in
  lazymatch fetched with
  | (?t1, Ret ?components) =>
      apply (X7_android_run_ends_normally_once_resolved
               (Sample.world Docs.twoImages Sample.android) (Sample.names ["img/banner"])
               Sample.android [] t1 components)
  end.
  - reflexivity.
  - reflexivity.
  - reflexivity.
  - vm_compute. reflexivity.
Defined.

Lemma X8_witness_all_densities_skipped :
  exists evs,
    processImages (Sample.world Docs.twoImages Cases.androidSkippingAll)
      [Sample.component "1:2" "img/banner" "Document / Page 1";
       Sample.component "1:3" "img/logo" "Document / Page 1"] "FILE"
      Cases.androidSkippingAll [] =
      ([] ++ evs,
       Ret (distinct
              (map c_name
                 (List.filter (fun c => Str.startsWith (c_name c) "img/")
                    [Sample.component "1:2" "img/banner" "Document / Page 1";
                     Sample.component "1:3" "img/logo" "Document / Page 1"])))) /\
    forallb isConsole evs = true.
Proof.
  apply (X8_skipping_every_density_counts_as_processed
           (Sample.world Docs.twoImages Cases.androidSkippingAll)
           [Sample.component "1:2" "img/banner" "Document / Page 1";
            Sample.component "1:3" "img/logo" "Document / Page 1"] "FILE"
           Cases.androidSkippingAll
           ["ldpi"; "mdpi"; "hdpi"; "xhdpi"; "xxhdpi"; "xxxhdpi"] []).
  - reflexivity.
  - reflexivity.
  - intros dpi Hdpi. exact Hdpi.
Defined.

Lemma X10_witness_png_logo :
  manifestFilenames (createContentsJson "logo" "png") =
  map (fun entry => scaleFileName "logo" (fst entry) +:+ "." +:+ "png") IOS_SCALES.
Proof.
  apply (X10_ios_manifest_lists_the_variant_files "logo" "png"). discriminate.
Defined.

Lemma X11_witness_same_icon_twice :
  exists found,
    snd (findDuplicateComponents (Sample.world Docs.sameIconTwice Sample.android) "FILE"
           (SelStr "") (SelStr "") []) = Ret found /\
    (found = true <->
     exists name,
       relevantName name = true /\
       2 <= length (exactMatches
                      (snd (extractComponents (Docs.file Docs.sameIconTwice) (SelStr "")
                              (SelStr ""))) name)).
Proof.
  exact (X11_duplicate_search_answers_for_the_two_namespaces
           (Sample.world Docs.sameIconTwice Sample.android) "FILE" (SelStr "") (SelStr "")
           [] (Docs.file Docs.sameIconTwice) eq_refl).
Defined.

Lemma X12_witness_duplicates_found :
  exists evs,
    fst (main (Sample.world Docs.sameIconTwice Sample.android) Cases.findDuplicates []) =
      [] ++ evs /\
    forallb (fun ev => negb (isExport ev)) evs = true /\
    status (main (Sample.world Docs.sameIconTwice Sample.android) Cases.findDuplicates []) =
      0%Z.
Proof.
  exact (X12_find_duplicate_run_only_reads
           (Sample.world Docs.sameIconTwice Sample.android) Cases.findDuplicates
           Sample.android [] eq_refl eq_refl).
Defined.

Lemma X15_witness_one_name :
  map c_name [Sample.component "1:2" "icon/home" "Document / Page 1"] =
    distinct
      (List.filter
         (uniquelyMatched
            (snd (extractComponents (Docs.file Docs.oneIcon) (SelStr "") (SelStr ""))))
         ["icon/home"]) /\
  (forall component,
     In component [Sample.component "1:2" "icon/home" "Document / Page 1"] <->
     In (c_name component) ["icon/home"] /\
     List.filter (fun other => String.eqb (c_name other) (c_name component))
       (snd (extractComponents (Docs.file Docs.oneIcon) (SelStr "") (SelStr ""))) =
     [component]).
Proof.
  refine (X15_fetch_returns_the_set_of_its_mode
            (Sample.world Docs.oneIcon Sample.android) (Sample.names ["icon/home"]) "FILE"
            (SelStr "") (SelStr "") [] (Docs.file Docs.oneIcon)
            [Sample.component "1:2" "icon/home" "Document / Page 1"] eq_refl _).
  vm_compute. reflexivity.
Defined.

Lemma X16_witness_button_is_reported :
  In (Console Stdout Red "- button/ok")
     (fst (main (Sample.world Cases.iconAndButton Sample.android)
             (Sample.names ["icon/home"; "button/ok"]) [])).
Proof.
  let fetched := eval vm_compute in
      (fetchComponents (Sample.world Cases.iconAndButton Sample.android)
         (Sample.names ["icon/home"; "button/ok"]) "FILE" ["icon/home"; "button/ok"]
         (SelStr "") (SelStr "") ([] ++ banner Sample.android)) in
  lazymatch fetched with
  | (?t1, Ret ?components) =>
      let icons := eval vm_compute in
          (processIcons (Sample.world Cases.iconAndButton Sample.android) components "FILE"
             Sample.android t1) in
      lazymatch icons with
      | (?t2, Ret ?names2) =>
          let images := eval vm_compute in
              (processImages (Sample.world Cases.iconAndButton Sample.android) components
                 "FILE" Sample.android t2) in
          lazymatch images with
          | (?t3, Ret ?names3) =>
              destruct (X16_names_outside_the_namespaces_are_reported
                          (Sample.world Cases.iconAndButton Sample.android)
                          (Sample.names ["icon/home"; "button/ok"]) Sample.android
                          [] t1 t2 t3 components names2 names3 "button/ok")
                as [H _]
          end
      end
  end.
  - reflexivity.
  - reflexivity.
  - vm_compute. reflexivity.
  - vm_compute. reflexivity.
  - vm_compute. reflexivity.
  - right. left. reflexivity.
  - reflexivity.
  - exact H.
Defined.

(** ** The configuration file *)

Lemma mem_android_ios platform :
  Str.mem platform ["android"; "ios"] = true <-> platform = "android" \/ platform = "ios".
Proof.
  unfold Str.mem. cbn [existsb]. rewrite orb_false_r, orb_true_iff, !String.eqb_eq. tauto.
Qed.

Lemma valid_checks raw :
  ConfigFile.valid raw <->
  Str.is_truthy (ConfigFile.s_fileId raw) = true /\
  Str.is_truthy (ConfigFile.s_platform raw) = true /\
  match ConfigFile.s_platform raw with
  | Some platform => Str.mem platform ["android"; "ios"]
  | None => false
  end = true.
Proof.
  unfold ConfigFile.valid. destruct (ConfigFile.s_platform raw) as [platform|].
  - rewrite mem_android_ios. split.
    + intros [Hf [H|H]]; inversion H; subst; repeat split; auto.
    + intros (Hf & _ & [->| ->]); auto.
  - split.
    + intros [_ [H|H]]; discriminate.
    + intros (_ & _ & H). discriminate.
Qed.

(** X17.  [loadConfig] never throws.  It returns exactly when a
    configuration file exists (the new path is looked at first, the old
    one only when the new one does not exist), can be read, and parses to
    a mapping with a non-empty [fileId] and a [platform] that is
    [android] or [ios]; what it returns is that mapping with the defaults
    filled in.  In every other case it leaves the process with status
    1. *)
Theorem X17_load_config_returns_or_exits_with_1 (disk : ConfigFile.Disk) (t : Trace) :
  match snd (ConfigFile.loadConfig disk t) with
  | Ret settings =>
      exists path text raw,
        ConfigFile.configPath disk = Some path /\
        ConfigFile.readFileSync disk path = inr text /\
        ConfigFile.yaml_load disk text = inr (ConfigFile.Mapping raw) /\
        ConfigFile.valid raw /\
        settings = ConfigFile.withDefaults raw
  | Throw _ => False
  | Exit code => code = 1%Z
  end /\
  (forall path text raw,
     ConfigFile.configPath disk = Some path ->
     ConfigFile.readFileSync disk path = inr text ->
     ConfigFile.yaml_load disk text = inr (ConfigFile.Mapping raw) ->
     ConfigFile.valid raw ->
     snd (ConfigFile.loadConfig disk t) = Ret (ConfigFile.withDefaults raw)).
Proof.
  split.
  - unfold ConfigFile.loadConfig, ConfigFile.configPath. unfold_run.
    destruct (ConfigFile.existsSync disk ConfigFile.NEW_CONFIG_PATH).
    + destruct (ConfigFile.readFileSync disk ConfigFile.NEW_CONFIG_PATH) as [e|text] eqn:Hr;
        [reflexivity|].
      destruct (ConfigFile.yaml_load disk text) as [e|[|raw|]] eqn:Hy; try reflexivity.
      destruct (Str.is_truthy (ConfigFile.s_fileId raw)) eqn:Hf; [|reflexivity].
      destruct (Str.is_truthy (ConfigFile.s_platform raw)) eqn:Hp; [|reflexivity].
      destruct (match ConfigFile.s_platform raw with Some _ => _ | None => _ end) eqn:Hm;
        [|reflexivity].
      cbn. exists ConfigFile.NEW_CONFIG_PATH, text, raw.
      repeat split; auto. apply valid_checks. auto.
    + destruct (ConfigFile.existsSync disk ConfigFile.OLD_CONFIG_PATH); [|reflexivity].
      destruct (ConfigFile.readFileSync disk ConfigFile.OLD_CONFIG_PATH) as [e|text] eqn:Hr;
        [reflexivity|].
      destruct (ConfigFile.yaml_load disk text) as [e|[|raw|]] eqn:Hy; try reflexivity.
      destruct (Str.is_truthy (ConfigFile.s_fileId raw)) eqn:Hf; [|reflexivity].
      destruct (Str.is_truthy (ConfigFile.s_platform raw)) eqn:Hp; [|reflexivity].
      destruct (match ConfigFile.s_platform raw with Some _ => _ | None => _ end) eqn:Hm;
        [|reflexivity].
      cbn. exists ConfigFile.OLD_CONFIG_PATH, text, raw.
      repeat split; auto. apply valid_checks. auto.
  - intros path text raw Hpath Hread Hyaml Hvalid.
    apply valid_checks in Hvalid as (Hf & Hp & Hm).
    unfold ConfigFile.loadConfig. unfold ConfigFile.configPath in Hpath. unfold_run.
    destruct (ConfigFile.existsSync disk ConfigFile.NEW_CONFIG_PATH).
    + inversion Hpath; subst path. rewrite Hread. cbv beta iota. rewrite Hyaml.
      cbv beta iota. rewrite Hf, Hp, Hm. reflexivity.
    + destruct (ConfigFile.existsSync disk ConfigFile.OLD_CONFIG_PATH); [|discriminate].
      inversion Hpath; subst path. rewrite Hread. cbv beta iota. rewrite Hyaml.
      cbv beta iota. rewrite Hf, Hp, Hm. reflexivity.
Qed.

Lemma string_or_truthy o d : d <> "" -> Str.is_truthy (ConfigFile.string_or o d) = true.
Proof.
  intros Hd. unfold ConfigFile.string_or. destruct (Str.is_truthy o) eqn:Ho; [exact Ho|].
  destruct d; [congruence|reflexivity].
Qed.

Lemma string_or_None o d : ConfigFile.string_or o d <> None.
Proof.
  unfold ConfigFile.string_or. destruct (Str.is_truthy o) eqn:Ho; [|discriminate].
  destruct o; [discriminate|]. discriminate.
Qed.

Lemma is_truthy_Some o : Str.is_truthy o = true -> exists s, o = Some s /\ s <> "".
Proof.
  unfold Str.is_truthy, Str.truthy. destruct o as [[|c s]|]; try discriminate.
  intros _. eexists. split; [reflexivity|discriminate].
Qed.

Lemma quality_or_truthy o :
  exists n, (if ConfigFile.number_truthy o then o else Some 90%Z) = Some n /\ n <> 0%Z.
Proof.
  unfold ConfigFile.number_truthy. destruct o as [n|].
  - destruct (n =? 0)%Z eqn:Hn; cbn [negb].
    + exists 90%Z. split; [reflexivity|discriminate].
    + exists n. split; [reflexivity|]. apply Z.eqb_neq. exact Hn.
  - exists 90%Z. split; [reflexivity|discriminate].
Qed.

Lemma selector_or_Some o :
  exists sel, (if ConfigFile.selector_truthy o then o else Some (SelStr "")) = Some sel.
Proof.
  destruct o as [[s|items]|]; cbn; try (eexists; reflexivity).
  destruct (negb (s =? "")%string); eexists; reflexivity.
Qed.

(** X18.  On Android the default path [res] comes with the default
    block only: a validated configuration leaves [loadConfig] with every
    key the exporter reads defined, except that an [icons] or [images]
    block that is given without a [path] keeps its path undefined.  The
    prefixes, the format and the quality are never left empty or zero:
    an empty prefix cannot be configured. *)
Theorem X18_android_path_defaults_come_with_the_block (raw : ConfigFile.Settings) :
  ConfigFile.valid raw ->
  ConfigFile.s_platform raw = Some "android" ->
  (ConfigFile.toConfig (ConfigFile.withDefaults raw) = None <->
   (exists icons, ConfigFile.s_icons raw = Some icons /\ ConfigFile.i_path icons = None) \/
   (exists images, ConfigFile.s_images raw = Some images /\
                   ConfigFile.m_path images = None)) /\
  (forall config,
     ConfigFile.toConfig (ConfigFile.withDefaults raw) = Some config ->
     platform config = "android" /\
     icons_prefix config <> "" /\ images_prefix config <> "" /\
     images_format config <> "" /\ images_quality config <> 0%Z /\
     (ConfigFile.s_icons raw = None -> icons_path config = Some "res") /\
     (ConfigFile.s_images raw = None -> images_path config = Some "res")).
Proof.
  intros [Hf _] Hp.
  apply is_truthy_Some in Hf as (fileId & Hfile & _).
  unfold ConfigFile.withDefaults, ConfigFile.isAndroid. rewrite Hp. cbn [String.eqb Ascii.eqb Bool.eqb].
  unfold ConfigFile.androidDefaults, ConfigFile.toConfig.
  cbn [ConfigFile.s_fileId ConfigFile.s_platform ConfigFile.s_pageId ConfigFile.s_pageName
       ConfigFile.s_icons ConfigFile.s_images ConfigFile.i_path ConfigFile.i_prefix
       ConfigFile.m_path ConfigFile.m_format ConfigFile.m_quality ConfigFile.m_prefix
       ConfigFile.m_skipDpi].
  rewrite Hfile, ?Hp.
  destruct (selector_or_Some (ConfigFile.s_pageId raw)) as [pid ->].
  destruct (selector_or_Some (ConfigFile.s_pageName raw)) as [pname ->].
  set (icons := match ConfigFile.s_icons raw with Some i => i | None => _ end).
  set (images := match ConfigFile.s_images raw with Some i => i | None => _ end).
  destruct (is_truthy_Some _ (string_or_truthy (ConfigFile.i_prefix icons) "ic_"
                                ltac:(discriminate))) as (ip & -> & Hip).
  destruct (is_truthy_Some _ (string_or_truthy (ConfigFile.m_format images) "webp"
                                ltac:(discriminate))) as (fmt & -> & Hfmt).
  destruct (is_truthy_Some _ (string_or_truthy (ConfigFile.m_prefix images) "img_"
                                ltac:(discriminate))) as (mp & -> & Hmp).
  destruct (quality_or_truthy (ConfigFile.m_quality images)) as (q & -> & Hq).
  subst icons images.
  destruct (ConfigFile.s_icons raw) as [icons|]; destruct (ConfigFile.s_images raw) as [images|];
    cbn [ConfigFile.i_path ConfigFile.m_path].
  - destruct (ConfigFile.i_path icons) as [p1|] eqn:H1;
      destruct (ConfigFile.m_path images) as [p2|] eqn:H2; split.
    + split; [discriminate|]. intros [(i & Hi & Hn)|(i & Hi & Hn)]; inversion Hi; subst; congruence.
    + intros config Hc. inversion Hc; subst config; cbn. repeat split; auto; discriminate.
    + split; [intros _; right; eauto|reflexivity].
    + discriminate.
    + split; [intros _; left; eauto|reflexivity].
    + discriminate.
    + split; [intros _; left; eauto|reflexivity].
    + discriminate.
  - destruct (ConfigFile.i_path icons) as [p1|] eqn:H1; split.
    + split; [discriminate|]. intros [(i & Hi & Hn)|(i & Hi & Hn)]; inversion Hi; subst; congruence.
    + intros config Hc. inversion Hc; subst config; cbn. repeat split; auto; discriminate.
    + split; [intros _; left; eauto|reflexivity].
    + discriminate.
  - destruct (ConfigFile.m_path images) as [p2|] eqn:H2; split.
    + split; [discriminate|]. intros [(i & Hi & Hn)|(i & Hi & Hn)]; inversion Hi; subst; congruence.
    + intros config Hc. inversion Hc; subst config; cbn. repeat split; auto; discriminate.
    + split; [intros _; right; eauto|reflexivity].
    + discriminate.
  - split.
    + split; [discriminate|]. intros [(i & Hi & Hn)|(i & Hi & Hn)]; discriminate.
    + intros config Hc. inversion Hc; subst config; cbn. repeat split; auto.
Qed.

(** X19.  On iOS a validated configuration always leaves [loadConfig]
    complete: every key the exporter reads is defined, both paths, the
    format and the quality are never empty or zero, whatever the file
    leaves out. *)
Theorem X19_ios_configuration_is_always_complete (raw : ConfigFile.Settings) :
  ConfigFile.valid raw ->
  ConfigFile.s_platform raw = Some "ios" ->
  exists config,
    ConfigFile.toConfig (ConfigFile.withDefaults raw) = Some config /\
    platform config = "ios" /\ fileId config <> "" /\
    (exists path, icons_path config = Some path /\ path <> "") /\
    (exists path, images_path config = Some path /\ path <> "") /\
    images_format config <> "" /\ images_quality config <> 0%Z /\
    (ConfigFile.s_icons raw = None ->
     icons_path config = Some "Assets.xcassets" /\ icons_prefix config = "") /\
    (ConfigFile.s_images raw = None ->
     images_path config = Some "Assets.xcassets" /\ images_format config = "png" /\
     images_quality config = 90%Z /\ images_prefix config = "").
Proof.
  intros [Hf _] Hp.
  apply is_truthy_Some in Hf as (fileId & Hfile & Hne).
  unfold ConfigFile.withDefaults, ConfigFile.isAndroid. rewrite Hp. cbn [String.eqb Ascii.eqb Bool.eqb].
  unfold ConfigFile.iosDefaults, ConfigFile.toConfig.
  cbn [ConfigFile.s_fileId ConfigFile.s_platform ConfigFile.s_pageId ConfigFile.s_pageName
       ConfigFile.s_icons ConfigFile.s_images ConfigFile.i_path ConfigFile.i_prefix
       ConfigFile.m_path ConfigFile.m_format ConfigFile.m_quality ConfigFile.m_prefix
       ConfigFile.m_skipDpi].
  rewrite Hfile, ?Hp.
  destruct (selector_or_Some (ConfigFile.s_pageId raw)) as [pid ->].
  destruct (selector_or_Some (ConfigFile.s_pageName raw)) as [pname ->].
  destruct (ConfigFile.s_icons raw) as [icons|]; destruct (ConfigFile.s_images raw) as [images|];
    cbn [ConfigFile.i_path ConfigFile.i_prefix ConfigFile.m_path ConfigFile.m_format
         ConfigFile.m_quality ConfigFile.m_prefix ConfigFile.m_skipDpi].
  all: repeat match goal with
       | |- context [ConfigFile.string_or None ?d] =>
           change (ConfigFile.string_or None d) with (Some d)
       | |- context [if ConfigFile.number_truthy None then _ else _] =>
           change (if ConfigFile.number_truthy None then None else Some 90%Z)
             with (Some 90%Z)
       end.
  all: repeat match goal with
       | |- context [ConfigFile.string_or ?o "Assets.xcassets"] =>
           let H := fresh in
           destruct (is_truthy_Some _ (string_or_truthy o "Assets.xcassets"
                                         ltac:(discriminate))) as (? & H & ?);
           rewrite H; clear H
       | |- context [ConfigFile.string_or ?o "png"] =>
           let H := fresh in
           destruct (is_truthy_Some _ (string_or_truthy o "png" ltac:(discriminate)))
             as (? & H & ?);
           rewrite H; clear H
       | |- context [if ConfigFile.number_truthy ?o then _ else _] =>
           let H := fresh in
           destruct (quality_or_truthy o) as (? & H & ?); rewrite H; clear H
       | |- context [ConfigFile.string_or ?o ""] =>
           let H := fresh in
           destruct (ConfigFile.string_or o "") eqn:H;
           [|exfalso; exact (string_or_None _ _ H)]
       end.
  all: eexists; split; [reflexivity|]; cbn; repeat split; auto; try discriminate;
    try congruence;
    try (eexists; split; [reflexivity|]; first [assumption | discriminate]).
Qed.

Lemma string_or_idem o d :
  ConfigFile.string_or (ConfigFile.string_or o d) d = ConfigFile.string_or o d.
Proof.
  unfold ConfigFile.string_or. destruct (Str.is_truthy o) eqn:Ho.
  - rewrite Ho. reflexivity.
  - destruct (Str.is_truthy (Some d)); reflexivity.
Qed.

Lemma quality_or_idem o :
  (if ConfigFile.number_truthy (if ConfigFile.number_truthy o then o else Some 90%Z)
   then (if ConfigFile.number_truthy o then o else Some 90%Z) else Some 90%Z) =
  (if ConfigFile.number_truthy o then o else Some 90%Z).
Proof. destruct (ConfigFile.number_truthy o) eqn:Ho; [rewrite Ho|]; reflexivity. Qed.

Lemma selector_or_idem o :
  (if ConfigFile.selector_truthy (if ConfigFile.selector_truthy o then o
                                  else Some (SelStr ""))
   then (if ConfigFile.selector_truthy o then o else Some (SelStr ""))
   else Some (SelStr "")) =
  (if ConfigFile.selector_truthy o then o else Some (SelStr "")).
Proof. destruct (ConfigFile.selector_truthy o) eqn:Ho; [rewrite Ho|]; reflexivity. Qed.

(** X20.  Filling in the defaults is idempotent: a configuration that
    [loadConfig] has completed is left as it is when the defaults are
    applied again, so the defaults never overwrite a value they have
    set or a value the file gives. *)
Theorem X20_defaults_are_idempotent (raw : ConfigFile.Settings) :
  ConfigFile.withDefaults (ConfigFile.withDefaults raw) = ConfigFile.withDefaults raw.
Proof.
  unfold ConfigFile.withDefaults.
  assert (Hsame : forall s, ConfigFile.isAndroid
                    (if ConfigFile.isAndroid raw then ConfigFile.androidDefaults s
                     else ConfigFile.iosDefaults s) =
                  match ConfigFile.s_platform s with
                  | Some platform => String.eqb platform "android"
                  | None => false
                  end).
  { intros s. destruct (ConfigFile.isAndroid raw); reflexivity. }
  rewrite Hsame. cbn [ConfigFile.s_platform]. fold (ConfigFile.isAndroid raw).
  destruct (ConfigFile.isAndroid raw).
  - unfold ConfigFile.androidDefaults.
    cbn [ConfigFile.s_fileId ConfigFile.s_platform ConfigFile.s_pageId ConfigFile.s_pageName
         ConfigFile.s_icons ConfigFile.s_images ConfigFile.i_path ConfigFile.i_prefix
         ConfigFile.m_path ConfigFile.m_format ConfigFile.m_quality ConfigFile.m_prefix
         ConfigFile.m_skipDpi].
    rewrite !selector_or_idem, !string_or_idem, quality_or_idem. reflexivity.
  - unfold ConfigFile.iosDefaults.
    cbn [ConfigFile.s_fileId ConfigFile.s_platform ConfigFile.s_pageId ConfigFile.s_pageName
         ConfigFile.s_icons ConfigFile.s_images ConfigFile.i_path ConfigFile.i_prefix
         ConfigFile.m_path ConfigFile.m_format ConfigFile.m_quality ConfigFile.m_prefix
         ConfigFile.m_skipDpi].
    rewrite !selector_or_idem, !string_or_idem, quality_or_idem. reflexivity.
Qed.

(** * The first release *)

Lemma startsWith_includes s p : Str.startsWith s p = true -> Str.includes s p = true.
Proof.
  unfold Str.startsWith. intros H. destruct s; cbn [Str.includes]; rewrite H; reflexivity.
Qed.

Lemma filter_sublist {A} (keep : A -> bool) (l : list A) : sublist (List.filter keep l) l.
Proof.
  induction l as [|x l IH]; [constructor|].
  cbn [List.filter]. destruct (keep x); [apply sublist_skip | apply sublist_cons]; exact IH.
Qed.

Lemma V100_fetchComponents_run world fileId names t fileData :
  figma_get_file world (t ++ [startFetch]) fileId = inr fileData ->
  let allComponents := V100.extractComponents fileData in
  let filteredComponents :=
    if (0 <? length names)%nat
    then List.filter
           (fun component =>
              existsb (fun name => Str.includes (c_name component) name) names)
           allComponents
    else allComponents in
  snd (V100.fetchComponents world fileId names t) =
    if (length filteredComponents =? 0)%nat then Exit 1 else Ret filteredComponents.
Proof.
  intros Hfile allComponents filteredComponents.
  unfold V100.fetchComponents. unfold_run. fold startFetch. rewrite Hfile. cbv beta iota.
  fold allComponents. fold filteredComponents.
  destruct (length filteredComponents =? 0)%nat; reflexivity.
Qed.

(** X21.  The first release resolves names by substring and knows no
    ambiguity: once the document has arrived, a run with names either
    returns or leaves with status 1.  What it returns is not empty and
    holds every extracted component whose name contains one of the
    requested names, and no other, in document order, so a name resolves
    the components it is a prefix of and all the components that carry
    it; it leaves with status 1 exactly when there is no such
    component. *)
Theorem X21_first_release_resolves_by_substring (world : World) (fileId : string)
    (names : list string) (t : Trace) (fileData : FileData) :
  figma_get_file world (t ++ [startFetch]) fileId = inr fileData ->
  names <> [] ->
  let allComponents := V100.extractComponents fileData in
  let resolves component :=
    exists name, In name names /\ Str.includes (c_name component) name = true in
  match snd (V100.fetchComponents world fileId names t) with
  | Ret components =>
      components <> [] /\
      sublist components allComponents /\
      (forall component,
         In component components <-> In component allComponents /\ resolves component) /\
      (forall component name,
         In component allComponents -> In name names ->
         Str.startsWith (c_name component) name = true -> In component components)
  | Throw _ => False
  | Exit code =>
      code = 1%Z /\ forall component, In component allComponents -> ~ resolves component
  end.
Proof.
  intros Hfile Hnames allComponents resolves.
  rewrite (V100_fetchComponents_run world fileId names t fileData Hfile).
  rewrite (length_pos_neq names Hnames). fold allComponents.
  assert (Hin : forall component,
            In component
              (List.filter
                 (fun component =>
                    existsb (fun name => Str.includes (c_name component) name) names)
                 allComponents) <->
            In component allComponents /\ resolves component).
  { intros component. rewrite List.filter_In, existsb_exists. reflexivity. }
  destruct (List.filter _ allComponents) as [|c cs] eqn:Hf.
  - cbn [length Nat.eqb]. split; [reflexivity|].
    intros component Hc Hres. apply (proj2 (Hin component)). split; assumption.
  - cbn [length Nat.eqb]. split; [discriminate|].
    split; [rewrite <- Hf; apply filter_sublist|].
    split; [exact Hin|].
    intros component name Hc Hname Hprefix. apply Hin. split; [exact Hc|].
    exists name. split; [exact Hname|]. apply startsWith_includes. exact Hprefix.
Qed.

(** X22.  [getImageUrls] of the first release never throws: it returns
    the URLs or leaves the process with status 1, so a failed request for
    URLs ends the whole run.  A request for PNG is always made at scale
    4, whatever scale is passed. *)
Theorem X22_first_release_url_failure_ends_the_run (world : World) (fileId : string)
    (components : list Component) (format : string) (scale : Q) (t : Trace) :
  let ids := Str.join "," (map c_id components) in
  let asked := if String.eqb format "png" then 4%Q else scale in
  let start := SpinnerStart "Getting image URLs from Figma..." in
  exists evs,
    fst (V100.getImageUrls world fileId components format scale t) =
      t ++ [start; GetImages fileId ids format asked] ++ evs /\
    forallb (fun ev => negb (isExport ev)) evs = true /\
    snd (V100.getImageUrls world fileId components format scale t) =
      match figma_get_images world (t ++ [start]) fileId ids format asked with
      | inr (Some urls) => Ret urls
      | _ => Exit 1
      end.
Proof.
  intros ids asked start. unfold V100.getImageUrls. unfold_run.
  fold ids. fold asked. fold start.
  destruct (figma_get_images world (t ++ [start]) fileId ids format asked)
    as [error|[urls|]]; cbv beta iota.
  - match goal with |- context [handleApiError ?e ?t'] =>
      destruct (handleApiError_run e t') as [evs [-> Hevs]] end.
    exists (SpinnerFail "Error getting image URLs from Figma" :: evs).
    split; [cbn [fst]; close_trace|]. split; [|reflexivity].
    cbn [forallb isExport negb andb]. apply forallb_forall. intros ev Hev.
    apply console_not_export. rewrite forallb_forall in Hevs. apply Hevs, Hev.
  - exists [SpinnerSucceed "Successfully retrieved image URLs"].
    split; [cbn [fst]; close_trace|]. split; reflexivity.
  - exists [SpinnerFail "No image URLs returned from Figma API"].
    split; [cbn [fst]; close_trace|]. split; reflexivity.
Qed.

(** ** The image component of the first release *)

Lemma processImageForDpi_run sharp newSize imageBuffer dpi format quality scale t :
  exists evs o,
    V100.processImageForDpi sharp newSize imageBuffer dpi format quality scale t = (t ++ evs, o) /\
    noFs evs /\ (forall code, o <> Exit code).
Proof.
  unfold V100.processImageForDpi. unfold_run.
  split_run;
    first [ eexists; eexists; split; [close_trace|]; split; [reflexivity|discriminate]
          | exists []; eexists; split; [rewrite app_nil_r; reflexivity|];
            split; [reflexivity|discriminate] ].
Qed.

(** One density: the file is written and the loop goes on, or nothing
    is written and the loop is left. *)
Lemma V100_processDpi_run world sharp newSize config fileNameBase imageBuffer dpi t :
  exists evs o,
    V100.processDpi world sharp newSize config fileNameBase imageBuffer dpi t = (t ++ evs, o) /\
    ((o = Ret tt /\ written evs = [V100.drawableFile config fileNameBase dpi]) \/
     (exists error, o = Throw error) /\ written evs = []).
Proof.
  unfold V100.processDpi, path_join_root, ensureDir, writeFile, bind, fs_op.
  destruct (images_path config) as [root|] eqn:Hroot.
  2:{ exists [], (Throw pathTypeError). unfold throw. rewrite app_nil_r.
      split; [reflexivity|]. right. split; [eauto|reflexivity]. }
  assert (Hfile : path_join (path_join [root] ("drawable-" +:+ dpi))
                    (fileNameBase +:+ "." +:+ images_format config) =
                  V100.drawableFile config fileNameBase dpi)
    by (unfold V100.drawableFile; rewrite Hroot; reflexivity).
  unfold ret at 1. rewrite Hfile.
  destruct (fs_ensureDir world t _) as [error|[]].
  - eexists. eexists. split; [reflexivity|]. right. split; [eauto|reflexivity].
  - match goal with |- context [V100.processImageForDpi sharp newSize ?a ?b ?c ?d ?e ?t'] =>
      destruct (processImageForDpi_run sharp newSize a b c d e t')
        as (e1 & o1 & -> & Hfs & Hexit) end.
    apply noFs_projections in Hfs as (_ & _ & Hw).
    destruct o1 as [image|error|code]; [| |exfalso; eapply Hexit; reflexivity].
    + match goal with |- context [fs_writeFile world ?t' ?p ?c] =>
        destruct (fs_writeFile world t' p c) as [error|[]] end.
      * eexists. eexists. split; [close_trace|]. right. split; [eauto|].
        project. reflexivity.
      * eexists. eexists. split; [close_trace|]. left. split; [reflexivity|].
        project. reflexivity.
    + eexists. eexists. split; [close_trace|]. right. split; [eauto|].
      project. reflexivity.
Qed.

(** The loop over the densities stops at the first one that fails. *)
Lemma V100_dpis_run world sharp newSize config fileNameBase imageBuffer dpis :
  forall t,
  exists evs o,
    for_of dpis (V100.processDpi world sharp newSize config fileNameBase imageBuffer) t =
      (t ++ evs, o) /\
    ((o = Ret tt /\ written evs = map (V100.drawableFile config fileNameBase) dpis) \/
     (exists error, o = Throw error) /\
     exists done, (done < length dpis)%nat /\
       written evs = map (V100.drawableFile config fileNameBase) (firstn done dpis)).
Proof.
  induction dpis as [|dpi dpis IH]; intros t.
  - exists [], (Ret tt). cbn. unfold ret. rewrite app_nil_r. split; [reflexivity|].
    left. split; reflexivity.
  - cbn [for_of]. unfold bind.
    destruct (V100_processDpi_run world sharp newSize config fileNameBase imageBuffer dpi t)
      as (e1 & o1 & -> & [[-> Hw1]|[[error ->] Hw1]]).
    + destruct (IH (t ++ e1)) as (e2 & o2 & -> & Hrest).
      exists (e1 ++ e2), o2. split; [rewrite app_assoc; reflexivity|].
      rewrite written_app, Hw1.
      destruct Hrest as [[-> Hw2]|[Herr (done & Hdone & Hw2)]].
      * left. split; [reflexivity|]. rewrite Hw2. reflexivity.
      * right. split; [exact Herr|]. exists (S done). split; [cbn; lia|].
        rewrite Hw2. reflexivity.
    + exists e1, (Throw error). split; [reflexivity|]. right. split; [eauto|].
      exists 0%nat. split; [cbn; lia|]. rewrite Hw1. reflexivity.
Qed.

(** X24.  An image of the first release is all or a prefix: whatever
    fails, [processImageComponent] returns, and either it reports success
    and the file of every density to process was written, or it reports
    the failure and the files written are those of the densities, in
    table order, before the first one that failed: no density after a
    failure is attempted. *)
Theorem X24_first_release_stops_at_the_first_failing_density (world : World)
    (sharp : V100.Sharp) (newSize : Z -> Q -> Z) (component : Component)
    (imageUrl : string) (config : Config) (t : Trace) :
  let files :=
    map (V100.drawableFile config
           ("img_" +:+ sanitizedName world (c_name component) "img/")) in
  let dpis := V100.dpisToProcess config in
  exists evs,
    V100.processImageComponent world sharp newSize component imageUrl config t =
      (t ++ evs, Ret tt) /\
    ((last evs = Some (SpinnerSucceed ("Image saved for " +:+ Str.of_nat (length dpis) +:+
                                        " DPI variants")) /\
      written evs = files dpis) \/
     (In (SpinnerFail ("Failed to process image: " +:+ c_name component)) evs /\
      exists done, (done <= length dpis)%nat /\ written evs = files (firstn done dpis) /\
                   (dpis <> [] -> (done < length dpis)%nat))).
Proof.
  intros files dpis. unfold V100.processImageComponent, try_catch, bind, emit, ret.
  fold dpis.
  match goal with |- context [downloadImage world imageUrl ?t'] =>
    destruct (downloadImage_run world imageUrl t') as (e1 & o1 & -> & Hfs & Hexit) end.
  apply noFs_projections in Hfs as (_ & _ & Hw1).
  destruct o1 as [imageBuffer|error|code]; [| |exfalso; eapply Hexit; reflexivity].
  - match goal with |- context [for_of dpis ?body ?t'] =>
      destruct (V100_dpis_run world sharp newSize config
                  ("img_" +:+ sanitizedName world (c_name component) "img/")
                  imageBuffer dpis t')
        as (e2 & o2 & -> & [[-> Hw2]|[[error ->] (done & Hdone & Hw2)]]) end.
    + eexists. split; [close_trace|]. left. split.
      * rewrite app_comm_cons, app_assoc. apply last_snoc.
      * project. rewrite app_nil_r. reflexivity.
    + eexists. split; [close_trace|]. right. split.
      * cbn [In]. rewrite ?in_app_iff. cbn [In]. tauto.
      * exists done. split; [lia|]. split; [|intros _; exact Hdone].
        project. rewrite !app_nil_r. reflexivity.
  - eexists. split; [close_trace|]. right. split.
    + cbn [In]. rewrite ?in_app_iff. cbn [In]. tauto.
    + exists 0%nat. split; [lia|]. split.
      * project. reflexivity.
      * intros Hne. destruct dpis; [congruence|cbn; lia].
Qed.

(** ** The run of the first release *)

Lemma V100_processImageComponent_returns world sharp newSize component imageUrl config t :
  exists evs,
    V100.processImageComponent world sharp newSize component imageUrl config t = (t ++ evs, Ret tt).
Proof.
  unfold V100.processImageComponent, try_catch, bind, emit, ret.
  match goal with |- context [downloadImage world imageUrl ?t'] =>
    destruct (downloadImage_run world imageUrl t') as (e1 & o1 & -> & _ & Hexit) end.
  destruct o1 as [imageBuffer|error|code]; [| |exfalso; eapply Hexit; reflexivity].
  - match goal with |- context [for_of ?dpis ?body ?t'] =>
      destruct (V100_dpis_run world sharp newSize config
                  ("img_" +:+ sanitizedName world (c_name component) "img/")
                  imageBuffer dpis t')
        as (e2 & o2 & -> & [[-> _]|[[error ->] _]]) end;
      eexists; close_trace.
  - eexists. close_trace.
Qed.

Lemma V100_processIconComponent_run world path_toString component imageUrl config t :
  exists evs,
    V100.processIconComponent world path_toString component imageUrl config t =
      (t ++ evs, Ret tt).
Proof.
  unfold V100.processIconComponent, V100.convertSvgToXml, downloadSvg, optimizeSvg,
    path_join_root, ensureDir, writeFile.
  unfold_run. split_run; (eexists; close_trace).
Qed.

Lemma for_of_returns {A} (body : A -> M unit) xs :
  (forall x t, exists evs, body x t = (t ++ evs, Ret tt)) ->
  forall t, exists evs, for_of xs body t = (t ++ evs, Ret tt).
Proof.
  intros Hbody. induction xs as [|x xs IH]; intros t.
  - exists []. cbn. unfold ret. rewrite app_nil_r. reflexivity.
  - cbn [for_of]. unfold bind. destruct (Hbody x t) as [e1 ->].
    destruct (IH (t ++ e1)) as [e2 ->]. exists (e1 ++ e2). rewrite app_assoc. reflexivity.
Qed.

Lemma V100_getImageUrls_outcome world fileId components format scale t :
  exists evs o,
    V100.getImageUrls world fileId components format scale t = (t ++ evs, o) /\
    ((exists urls, o = Ret urls) \/ o = Exit 1).
Proof.
  unfold V100.getImageUrls. unfold_run.
  destruct (figma_get_images world _ fileId _ format _) as [error|[urls|]]; cbv beta iota.
  - match goal with |- context [handleApiError ?e ?t'] =>
      destruct (handleApiError_run e t') as [evs [-> _]] end.
    eexists. eexists. split; [close_trace|]. right. reflexivity.
  - eexists. eexists. split; [close_trace|]. left. eauto.
  - eexists. eexists. split; [close_trace|]. right. reflexivity.
Qed.

Lemma V100_fetchComponents_outcome world fileId names t :
  exists evs o,
    V100.fetchComponents world fileId names t = (t ++ evs, o) /\
    ((exists components, o = Ret components) \/ o = Exit 1).
Proof.
  unfold V100.fetchComponents. unfold_run.
  destruct (figma_get_file world _ fileId) as [error|fileData]; cbv beta iota.
  - match goal with |- context [handleApiError ?e ?t'] =>
      destruct (handleApiError_run e t') as [evs [-> _]] end.
    eexists. eexists. split; [close_trace|]. right. reflexivity.
  - destruct (length _ =? 0)%nat.
    + eexists. eexists. split; [close_trace|]. right. reflexivity.
    + eexists. eexists. split; [close_trace|]. left. eauto.
Qed.

Lemma V100_getImageUrls_answered world fileId components format scale t urls :
  figma_get_images world (t ++ [SpinnerStart "Getting image URLs from Figma..."]) fileId
    (Str.join "," (map c_id components)) format
    (if String.eqb format "png" then 4%Q else scale) = inr (Some urls) ->
  exists evs,
    V100.getImageUrls world fileId components format scale t = (t ++ evs, Ret urls).
Proof.
  intros H. unfold V100.getImageUrls. unfold_run. rewrite H. cbv beta iota.
  eexists. close_trace.
Qed.

(** X25.  A run of the first release ends normally or with status 1,
    never with an exception; and what happens to single components never
    decides which: once the configuration is loaded and the components
    are fetched, a run in which the rendering API answers every request
    for URLs ends normally, whatever the downloads, the converters,
    [sharp] and the filesystem do. *)
Theorem X25_first_release_run_ends_with_0_or_1 (world : World) (sharp : V100.Sharp)
    (newSize : Z -> Q -> Z) (path_toString : Path -> string) (names : list string)
    (t : Trace) :
  (snd (V100.main world sharp newSize path_toString names t) = Ret tt \/
   snd (V100.main world sharp newSize path_toString names t) = Exit 1) /\
  (forall config t1 components,
     loadConfig world = Some config ->
     V100.fetchComponents world (fileId config) names (t ++ V100.banner config) =
       (t1, Ret components) ->
     V100.answers world (fileId config) ->
     snd (V100.main world sharp newSize path_toString names t) = Ret tt).
Proof.
  assert (Hicon : forall config c url t',
            exists evs,
              V100.processIconComponent world path_toString c url config t' =
                (t' ++ evs, Ret tt))
    by (intros; apply V100_processIconComponent_run).
  assert (Himage : forall config c url t',
            exists evs,
              V100.processImageComponent world sharp newSize c url config t' = (t' ++ evs, Ret tt))
    by (intros; apply V100_processImageComponent_returns).
  split.
  - unfold V100.main, try_catch, bind, emit, ret, process_exit.
    destruct (loadConfig world) as [config|]; [|right; reflexivity].
    match goal with |- context [V100.fetchComponents world ?a ?b ?t'] =>
      destruct (V100_fetchComponents_outcome world a b t')
        as (e1 & o1 & -> & [[components ->]| ->])
    end; [|right; reflexivity].
    destruct (0 <? length (List.filter _ components))%nat.
    + match goal with |- context [V100.getImageUrls world ?a ?b ?c ?d ?t''] =>
        destruct (V100_getImageUrls_outcome world a b c d t'')
          as (e2 & o2 & -> & [[urls ->]| ->]) end; [|right; reflexivity].
      match goal with |- context [for_of ?cs ?body ?t''] =>
        destruct (for_of_returns body cs) with (t := t'') as [e3 ->] end;
        [intros c t''; destruct (Str.truthy (urls (c_id c)));
         [apply Hicon | eexists; reflexivity]|].
      destruct (0 <? length (List.filter _ components))%nat; [|left; reflexivity].
      match goal with |- context [V100.getImageUrls world ?a ?b ?c ?d ?t''] =>
        destruct (V100_getImageUrls_outcome world a b c d t'')
          as (e4 & o4 & -> & [[urls' ->]| ->]) end; [|right; reflexivity].
      match goal with |- context [for_of ?cs ?body ?t''] =>
        destruct (for_of_returns body cs) with (t := t'') as [e5 ->] end;
        [intros c t''; destruct (Str.truthy (urls' (c_id c)));
         [apply Himage | eexists; reflexivity]|].
      left. reflexivity.
    + destruct (0 <? length (List.filter _ components))%nat; [|left; reflexivity].
      match goal with |- context [V100.getImageUrls world ?a ?b ?c ?d ?t''] =>
        destruct (V100_getImageUrls_outcome world a b c d t'')
          as (e4 & o4 & -> & [[urls' ->]| ->]) end; [|right; reflexivity].
      match goal with |- context [for_of ?cs ?body ?t''] =>
        destruct (for_of_returns body cs) with (t := t'') as [e5 ->] end;
        [intros c t''; destruct (Str.truthy (urls' (c_id c)));
         [apply Himage | eexists; reflexivity]|].
      left. reflexivity.
  - intros config t1 components Hconfig Hfetch Hanswers.
    unfold V100.main, try_catch, bind, emit, ret, process_exit. rewrite Hconfig.
    unfold V100.banner in Hfetch. rewrite <- !app_assoc. cbn [app]. rewrite Hfetch.
    destruct (0 <? length (List.filter _ components))%nat.
    + match goal with |- context [V100.getImageUrls world ?a ?b ?c ?d ?t''] =>
        destruct (Hanswers (t'' ++ [SpinnerStart "Getting image URLs from Figma..."])
                    (Str.join "," (map c_id b)) c
                    (if String.eqb c "png" then 4%Q else d)) as [urls Hurls];
        destruct (V100_getImageUrls_answered world a b c d t'' urls Hurls) as [e2 ->] end.
      match goal with |- context [for_of ?cs ?body ?t''] =>
        destruct (for_of_returns body cs) with (t := t'') as [e3 ->] end;
        [intros c t''; destruct (Str.truthy (urls (c_id c)));
         [apply Hicon | eexists; reflexivity]|].
      destruct (0 <? length (List.filter _ components))%nat; [|reflexivity].
      match goal with |- context [V100.getImageUrls world ?a ?b ?c ?d ?t''] =>
        destruct (Hanswers (t'' ++ [SpinnerStart "Getting image URLs from Figma..."])
                    (Str.join "," (map c_id b)) c
                    (if String.eqb c "png" then 4%Q else d)) as [urls' Hurls'];
        destruct (V100_getImageUrls_answered world a b c d t'' urls' Hurls') as [e4 ->] end.
      match goal with |- context [for_of ?cs ?body ?t''] =>
        destruct (for_of_returns body cs) with (t := t'') as [e5 ->] end;
        [intros c t''; destruct (Str.truthy (urls' (c_id c)));
         [apply Himage | eexists; reflexivity]|].
      reflexivity.
    + destruct (0 <? length (List.filter _ components))%nat; [|reflexivity].
      match goal with |- context [V100.getImageUrls world ?a ?b ?c ?d ?t''] =>
        destruct (Hanswers (t'' ++ [SpinnerStart "Getting image URLs from Figma..."])
                    (Str.join "," (map c_id b)) c
                    (if String.eqb c "png" then 4%Q else d)) as [urls' Hurls'];
        destruct (V100_getImageUrls_answered world a b c d t'' urls' Hurls') as [e4 ->] end.
      match goal with |- context [for_of ?cs ?body ?t''] =>
        destruct (for_of_returns body cs) with (t := t'') as [e5 ->] end;
        [intros c t''; destruct (Str.truthy (urls' (c_id c)));
         [apply Himage | eexists; reflexivity]|].
      reflexivity.
Qed.

(** * The single-page variant (v1.0.7) *)

Lemma findPage_eq pageId node :
  Legacy.findPage pageId node =
  if String.eqb (node_id node) pageId then Some node
  else fold_right (fun child found =>
                     match Legacy.findPage pageId child with
                     | Some page => Some page
                     | None => found
                     end) None (node_children node).
Proof.
  destruct node as [i nm ty cs bb d sid]. cbn [Legacy.findPage node_id node_children].
  destruct (String.eqb i pageId); [reflexivity|].
  induction cs as [|c r IH]; [reflexivity|]. cbn [fold_right]. rewrite <- IH. reflexivity.
Qed.

Lemma findPage_spec pageId root :
  match Legacy.findPage pageId root with
  | Some page => node_id page = pageId /\ exists pos, subtree root pos = Some page
  | None => forall pos node, subtree root pos = Some node -> node_id node <> pageId
  end.
Proof.
  induction root as [i nm ty cs bb d sid IH] using Node_children_ind.
  rewrite findPage_eq. cbn [node_id node_children].
  destruct (String.eqb i pageId) eqn:Hid.
  - split; [apply String.eqb_eq; exact Hid|]. exists []. reflexivity.
  - apply String.eqb_neq in Hid.
    assert (Hcs :
      match fold_right (fun child found =>
                          match Legacy.findPage pageId child with
                          | Some page => Some page
                          | None => found
                          end) None cs with
      | Some page =>
          node_id page = pageId /\
          exists k rest child, nth_error cs k = Some child /\ subtree child rest = Some page
      | None =>
          forall k rest child node,
            nth_error cs k = Some child -> subtree child rest = Some node ->
            node_id node <> pageId
      end).
    { induction IH as [|c r Hc _ IHr]; cbn [fold_right].
      - intros k rest child node Hk. destruct k; discriminate.
      - destruct (Legacy.findPage pageId c) as [page|].
        + destruct Hc as [Hp [pos Hpos]]. split; [exact Hp|]. exists 0%nat, pos, c.
          split; [reflexivity|exact Hpos].
        + destruct (fold_right _ None r) as [page|].
          * destruct IHr as [Hp (k & rest & child & Hk & Hsub)]. split; [exact Hp|].
            exists (S k), rest, child. split; [exact Hk|exact Hsub].
          * intros k rest child node Hk Hsub. destruct k as [|k].
            -- inversion Hk; subst child. exact (Hc rest node Hsub).
            -- exact (IHr k rest child node Hk Hsub). }
    destruct (fold_right _ None cs) as [page|].
    + destruct Hcs as [Hp (k & rest & child & Hk & Hsub)]. split; [exact Hp|].
      exists (k :: rest). cbn [subtree node_children]. rewrite Hk. exact Hsub.
    + intros pos node Hsub. destruct pos as [|k rest].
      * inversion Hsub; subst node. exact Hid.
      * cbn [subtree node_children] in Hsub.
        destruct (nth_error cs k) as [child|] eqn:Hk; [|discriminate].
        exact (Hcs k rest child node Hk Hsub).
Qed.

(** X26.  The page search of the single-page variant looks at every
    node of the document, whatever its type and whether or not the
    traversal would skip it: it finds a node with the given identifier
    exactly when the document has one, and the page it returns is a node
    of the document with that identifier.  So the fall-back to the whole
    document happens only when no node at all carries the identifier. *)
Theorem X26_single_page_search_covers_the_document (fileData : FileData) (pageId : string) :
  pageId <> "" ->
  let tree := document fileData in
  let fallBack :=
    Console Stdout Yellow
      ("Warning: Page with ID " +:+ pageId +:+
       " not found. Searching the entire file instead.") in
  (fst (Legacy.extractComponents fileData pageId) = [fallBack] <->
   forall pos node, subtree tree pos = Some node -> node_id node <> pageId) /\
  (forall page,
     Legacy.findPage pageId tree = Some page ->
     node_id page = pageId /\ (exists pos, subtree tree pos = Some page) /\
     snd (Legacy.extractComponents fileData pageId) =
       traverseNode page
         (collectComponent (traverseNode page collectSet [] 0 ∅)) [] 0 []).
Proof.
  intros Hne tree fallBack. apply String.eqb_neq in Hne.
  pose proof (findPage_spec pageId tree) as Hspec.
  unfold Legacy.extractComponents. fold tree. rewrite Hne.
  destruct (Legacy.findPage pageId tree) as [page|]; cbn [fst snd].
  - destruct Hspec as [Hid [pos Hpos]]. split.
    + split.
      * intros H. inversion H.
      * intros H. exfalso. exact (H pos page Hpos Hid).
    + intros p Hp. inversion Hp; subst p. split; [exact Hid|]. split; [eauto|reflexivity].
  - split; [|discriminate]. split; [intros _; exact Hspec|reflexivity].
Qed.

(** ** Missing names *)

Lemma has_tabulate_some {V} (g : string -> option V) ks k :
  JsMap.has k (tabulate_some g ks) =
  Str.mem k ks && match g k with Some _ => true | None => false end.
Proof.
  unfold JsMap.has. induction ks as [|k' ks IH]; [reflexivity|].
  unfold tabulate_some in *. cbn [flat_map Str.mem existsb].
  destruct (String.eqb k k') eqn:Hk.
  - apply String.eqb_eq in Hk. subst k'. destruct (g k) as [v|] eqn:Hg.
    + cbn [app JsMap.get]. rewrite String.eqb_refl. reflexivity.
    + cbn [app orb]. rewrite IH, !andb_false_r. reflexivity.
  - destruct (g k') as [v|].
    + cbn [app JsMap.get]. rewrite String.eqb_sym, Hk. cbn [orb]. exact IH.
    + cbn [app orb]. exact IH.
Qed.

Lemma matchNames_nameMap_table all names :
  fst (matchNames all names) =
  tabulate_some (theMatch all) (distinct (List.filter (uniquelyMatched all) names)).
Proof.
  unfold matchNames. rewrite fold_classify_fst.
  rewrite (fold_set_tabulate_some (theMatch all) names [] (Forall_nil_2 _)
            : fold_left _ names (fst ([], [])) = _).
  replace (List.filter (fun n => match theMatch all n with Some _ => true | None => false end)
             names)
    with (List.filter (uniquelyMatched all) names)
    by (apply filter_ext; intros n; apply theMatch_uniquelyMatched).
  reflexivity.
Qed.

(** The names [notFound] holds: the requested names that no single
    component carries. *)
Lemma notFound_names all names :
  List.filter (fun name => negb (JsMap.has name (fst (matchNames all names)))) names =
  List.filter (fun name => negb (uniquelyMatched all name)) names.
Proof.
  apply filter_ext_in. intros name Hin. f_equal.
  rewrite matchNames_nameMap_table, has_tabulate_some, <- theMatch_uniquelyMatched.
  destruct (uniquelyMatched all name) eqn:Hu; [|apply andb_false_r].
  rewrite andb_true_r. apply mem_In, distinct_In, List.filter_In. split; assumption.
Qed.

(** X27.  In the single-page variant a run with names that finds no
    ambiguity warns once about the requested names no component carries,
    listing them in the order of the request, and goes on: it returns the
    components of the other names, and leaves with status 1 only when no
    requested name is carried by a component. *)
Theorem X27_single_page_variant_warns_about_missing_names (world : World)
    (downloadAll : bool) (fileId : string) (names : list string) (pageId : string)
    (t : Trace) (fileData : FileData) :
  figma_get_file world (t ++ [startFetch]) fileId = inr fileData ->
  names <> [] ->
  let extracted := Legacy.extractComponents fileData pageId in
  let allComponents := snd extracted in
  (forall name, In name names -> length (exactMatches allComponents name) <= 1) ->
  let missing :=
    List.filter (fun name => (length (exactMatches allComponents name) =? 0)%nat) names in
  let resolved := resolvedByName allComponents names in
  let warning :=
    Console Stdout Yellow
      ("Warning: The following components were not found: " +:+ Str.join ", " missing) in
  exists closing,
    Legacy.fetchComponents world downloadAll fileId names pageId t =
      (t ++ [startFetch; GetFile fileId] ++ fst extracted ++
         (if (0 <? length missing)%nat then [warning] else []) ++ [closing],
       if (length resolved =? 0)%nat then Exit 1 else Ret resolved).
Proof.
  intros Hfile Hnames extracted allComponents Hunique missing resolved warning.
  unfold Legacy.fetchComponents. unfold_run. fold startFetch. rewrite Hfile.
  cbv beta iota. fold extracted. fold allComponents.
  rewrite (length_pos_neq names Hnames). cbv beta iota.
  rewrite (no_ambiguous_names allComponents names Hunique).
  change (0 <? JsMap.size (@nil (string * list Component)))%nat with false. cbv beta iota.
  rewrite notFound_names.
  replace (List.filter (fun name => negb (uniquelyMatched allComponents name)) names)
    with missing.
  2:{ apply filter_ext_in. intros name Hin. unfold uniquelyMatched.
      pose proof (Hunique name Hin) as Hle.
      destruct (length (exactMatches allComponents name)) as [|[|n]]; [reflexivity|reflexivity|lia]. }
  rewrite matchNames_nameMap. fold (resolvedByName allComponents names). fold resolved.
  fold warning.
  destruct (0 <? length missing)%nat; cbv beta iota;
    destruct (length resolved =? 0)%nat; cbv beta iota;
    eexists; f_equal; rewrite <- ?app_assoc; cbn [app]; reflexivity.
Qed.

(** ** Further instances *)

Lemma X18_witness_prefix_without_path :
  ConfigFile.toConfig (ConfigFile.withDefaults ConfigFile.prefixOnly) = None.
Proof.
  destruct (X18_android_path_defaults_come_with_the_block ConfigFile.prefixOnly)
    as [[_ H] _].
  - split; [reflexivity | left; reflexivity].
  - reflexivity.
  - apply H. left. eexists. split; reflexivity.
Defined.

Lemma X19_witness_minimal_ios :
  exists config,
    ConfigFile.toConfig (ConfigFile.withDefaults (ConfigFile.minimal "ios")) = Some config /\
    icons_path config = Some "Assets.xcassets" /\ images_format config = "png".
Proof.
  destruct (X19_ios_configuration_is_always_complete (ConfigFile.minimal "ios"))
    as (config & Hc & _ & _ & _ & _ & _ & _ & Hicons & Himages).
  - split; [reflexivity | right; reflexivity].
  - reflexivity.
  - exists config. split; [exact Hc|]. split.
    + apply Hicons. reflexivity.
    + apply Himages. reflexivity.
Defined.

Lemma X21_witness_prefix_of_two_icons :
  snd (V100.fetchComponents (Sample.world Docs.sameIconTwice Sample.android) "FILE"
         ["icon/"] []) =
    Ret [Sample.component "1:2" "icon/a" "Document / Page 1";
         Sample.component "1:3" "icon/a" "Document / Page 1"] /\
  sublist [Sample.component "1:2" "icon/a" "Document / Page 1";
           Sample.component "1:3" "icon/a" "Document / Page 1"]
    (V100.extractComponents (Docs.file Docs.sameIconTwice)) /\
  forall component,
    In component [Sample.component "1:2" "icon/a" "Document / Page 1";
                  Sample.component "1:3" "icon/a" "Document / Page 1"] <->
    In component (V100.extractComponents (Docs.file Docs.sameIconTwice)) /\
    exists name, In name ["icon/"] /\ Str.includes (c_name component) name = true.
Proof.
  pose proof (X21_first_release_resolves_by_substring
                (Sample.world Docs.sameIconTwice Sample.android) "FILE" ["icon/"] []
                (Docs.file Docs.sameIconTwice) eq_refl) as H.
  assert (E : snd (V100.fetchComponents (Sample.world Docs.sameIconTwice Sample.android)
                     "FILE" ["icon/"] []) =
              Ret [Sample.component "1:2" "icon/a" "Document / Page 1";
                   Sample.component "1:3" "icon/a" "Document / Page 1"])
    by (vm_compute; reflexivity).
  split; [exact E|].
  cbv zeta in H. rewrite E in H. destruct H as (_ & Hsub & H & _); [discriminate|].
  split; [exact Hsub | exact H].
Defined.

Lemma X26_witness_archived_page_by_id :
  (fst (Legacy.extractComponents (Docs.file hiddenPageDoc) "0:1") =
     [Console Stdout Yellow
        ("Warning: Page with ID " +:+ "0:1" +:+
         " not found. Searching the entire file instead.")] <->
   forall pos node, subtree hiddenPageDoc pos = Some node -> node_id node <> "0:1") /\
  (forall page,
     Legacy.findPage "0:1" hiddenPageDoc = Some page ->
     node_id page = "0:1" /\ (exists pos, subtree hiddenPageDoc pos = Some page) /\
     snd (Legacy.extractComponents (Docs.file hiddenPageDoc) "0:1") =
       traverseNode page
         (collectComponent (traverseNode page collectSet [] 0 ∅)) [] 0 []).
Proof.
  apply (X26_single_page_search_covers_the_document (Docs.file hiddenPageDoc) "0:1").
  discriminate.
Defined.

Lemma X27_witness_one_name_missing :
  exists closing,
    Legacy.fetchComponents (Sample.world Docs.oneIcon Sample.android) false "FILE"
      ["icon/home"; "icon/missing"] "" [] =
    ([] ++ [startFetch; GetFile "FILE"] ++
       fst (Legacy.extractComponents (Docs.file Docs.oneIcon) "") ++
       (if (0 <? length
                   (List.filter
                      (fun name =>
                         (length (exactMatches
                                    (snd (Legacy.extractComponents (Docs.file Docs.oneIcon)
                                            "")) name) =? 0)%nat)
                      ["icon/home"; "icon/missing"]))%nat
        then [Console Stdout Yellow
                ("Warning: The following components were not found: " +:+
                 Str.join ", "
                   (List.filter
                      (fun name =>
                         (length (exactMatches
                                    (snd (Legacy.extractComponents (Docs.file Docs.oneIcon)
                                            "")) name) =? 0)%nat)
                      ["icon/home"; "icon/missing"]))]
        else []) ++ [closing],
     if (length (resolvedByName (snd (Legacy.extractComponents (Docs.file Docs.oneIcon) ""))
                   ["icon/home"; "icon/missing"]) =? 0)%nat
     then Exit 1
     else Ret (resolvedByName (snd (Legacy.extractComponents (Docs.file Docs.oneIcon) ""))
                 ["icon/home"; "icon/missing"])).
Proof.
  apply (X27_single_page_variant_warns_about_missing_names
           (Sample.world Docs.oneIcon Sample.android) false "FILE"
           ["icon/home"; "icon/missing"] "" [] (Docs.file Docs.oneIcon)).
  - reflexivity.
  - discriminate.
  - intros name [<-|[<-|[]]]; vm_compute; lia.
Defined.

(** With the densities [hdpi] to [xxxhdpi] to process and a [sharp] that
    fails from [xxhdpi] on, the first release writes the [hdpi] and the
    [xhdpi] file and nothing else. *)
Example first_release_stops_at_xxhdpi :
  written (fst (V100.processImageComponent (Sample.world Docs.twoImages Sample.android)
                  V100.sharpFailingAbove250 V100.exactSize
                  (Sample.component "1:2" "img/banner" "Document / Page 1")
                  "https://cdn/1:2" Sample.android [])) =
  [["res"; "drawable-hdpi"; "img_banner.webp"];
   ["res"; "drawable-xhdpi"; "img_banner.webp"]].
Proof. vm_compute. reflexivity. Qed.

(** * The script as a whole *)

Lemma processScale_run world config fileId component fileNameBase assetPath imageCounter
    totalImages entry t :
  exists evs o,
    processScale world config fileId component fileNameBase assetPath imageCounter
      totalImages entry t = (t ++ evs, o) /\
    forall code, o <> Exit code.
Proof.
  unfold processScale, bind, emit.
  match goal with |- context [getImageUrls world ?a ?b ?c ?d ?e ?t'] =>
    destruct (getImageUrls_run world a b c d e t') as (e1 & o1 & -> & _ & Hexit) end.
  destruct o1 as [urls|error|code]; [| |exfalso; eapply Hexit; reflexivity].
  - destruct (Str.truthy (urls (c_id component))) as [imageUrl|].
    + unfold try_catch, bind.
      match goal with |- context [downloadImage world ?u ?t'] =>
        destruct (downloadImage_run world u t') as (e2 & o2 & -> & _ & Hexit2) end.
      destruct o2 as [image|error|code]; [| |exfalso; eapply Hexit2; reflexivity].
      * unfold writeFile, fs_op, emit, ret.
        match goal with |- context [fs_writeFile world ?t' ?p ?c] =>
          destruct (fs_writeFile world t' p c) as [error'|[]] end;
          (eexists; eexists; split; [close_trace|discriminate]).
      * unfold emit, ret. eexists. eexists. split; [close_trace|discriminate].
    + unfold ret. eexists. eexists. split; [close_trace|discriminate].
  - eexists. eexists. split; [close_trace|discriminate].
Qed.

Lemma scaleLoop_run world config fileId component fileNameBase assetPath imageCounter
    totalImages entries :
  forall failed t,
  exists evs o,
    scaleLoop world config fileId component fileNameBase assetPath imageCounter totalImages
      entries failed t = (t ++ evs, o) /\
    forall code, o <> Exit code.
Proof.
  induction entries as [|entry entries IH]; intros failed t.
  - exists [], (Ret failed). cbn. unfold ret. rewrite app_nil_r. split; [reflexivity|].
    discriminate.
  - cbn [scaleLoop]. unfold bind.
    destruct (processScale_run world config fileId component fileNameBase assetPath
                imageCounter totalImages entry t) as (e1 & o1 & -> & Hexit).
    destruct o1 as [failedHere|error|code]; [| |exfalso; eapply Hexit; reflexivity].
    + destruct (IH (failed || failedHere) (t ++ e1)) as (e2 & o2 & -> & Hexit2).
      exists (e1 ++ e2), o2. split; [rewrite app_assoc; reflexivity|exact Hexit2].
    + eexists. eexists. split; [reflexivity|discriminate].
Qed.

Lemma processImage_run world config fileId totalImages component imageCounter processed t :
  exists evs o,
    processImage world config fileId totalImages component imageCounter processed t =
      (t ++ evs, o) /\
    forall code, o <> Exit code.
Proof.
  destruct (String.eqb (platform config) "android") eqn:Hplat.
  - apply String.eqb_eq in Hplat.
    destruct (processImage_android_run world config fileId component _ imageCounter
                totalImages processed t Hplat eq_refl) as (evs & names & -> & _).
    eexists. eexists. split; [reflexivity|discriminate].
  - unfold processImage. rewrite Hplat.
    unfold bind, path_join_root, ensureDir, emptyDir, writeFile, fs_op, ret, throw.
    destruct (images_path config) as [root|];
      [|exists [], (Throw pathTypeError); rewrite app_nil_r; split;
        [reflexivity|discriminate]].
    destruct (fs_ensureDir world t _) as [error|[]];
      [eexists; eexists; split; [reflexivity|discriminate]|].
    destruct (fs_emptyDir world _ _) as [error|[]];
      [eexists; eexists; split; [close_trace|discriminate]|].
    match goal with |- context [scaleLoop world ?a ?b ?c ?d ?e ?f ?g ?h ?i ?t'] =>
      destruct (scaleLoop_run world a b c d e f g h i t') as (e1 & o1 & -> & Hexit) end.
    destruct o1 as [failed|error|code]; [| |exfalso; eapply Hexit; reflexivity].
    + match goal with |- context [fs_writeFile world ?t' ?p ?c] =>
        destruct (fs_writeFile world t' p c) as [error'|[]] end.
      * eexists. eexists. split; [close_trace|discriminate].
      * destruct (negb failed); eexists; eexists; (split; [close_trace|discriminate]).
    + eexists. eexists. split; [close_trace|discriminate].
Qed.

Lemma imageLoop_run world config fileId totalImages components :
  forall imageCounter processed t,
  exists evs o,
    imageLoop world config fileId totalImages components imageCounter processed t =
      (t ++ evs, o) /\
    forall code, o <> Exit code.
Proof.
  induction components as [|c cs IH]; intros imageCounter processed t.
  - exists [], (Ret processed). cbn. unfold ret. rewrite app_nil_r.
    split; [reflexivity|discriminate].
  - cbn [imageLoop]. unfold bind.
    destruct (processImage_run world config fileId totalImages c (imageCounter + 1)
                processed t) as (e1 & o1 & -> & Hexit).
    destruct o1 as [names|error|code]; [| |exfalso; eapply Hexit; reflexivity].
    + destruct (IH (imageCounter + 1) names (t ++ e1)) as (e2 & o2 & -> & Hexit2).
      exists (e1 ++ e2), o2. split; [rewrite app_assoc; reflexivity|exact Hexit2].
    + eexists. eexists. split; [reflexivity|discriminate].
Qed.

Lemma processImages_run world components fileId config t :
  exists evs o,
    processImages world components fileId config t = (t ++ evs, o) /\
    forall code, o <> Exit code.
Proof.
  unfold processImages. destruct (length _ =? 0)%nat.
  - exists [], (Ret []). unfold ret. rewrite app_nil_r. split; [reflexivity|discriminate].
  - unfold bind, emit.
    match goal with |- context [imageLoop world ?a ?b ?c ?d ?e ?f ?t'] =>
      destruct (imageLoop_run world a b c d e f t') as (e1 & o1 & -> & Hexit) end.
    eexists. eexists. split; [close_trace|exact Hexit].
Qed.

Lemma findDuplicateComponents_outcome world fileId pageId pageName t :
  (exists found, snd (findDuplicateComponents world fileId pageId pageName t) = Ret found) \/
  snd (findDuplicateComponents world fileId pageId pageName t) = Exit 1.
Proof.
  destruct (figma_get_file world (t ++ [startDuplicates]) fileId) as [error|fileData] eqn:H.
  - destruct (findDuplicateComponents_failed world fileId pageId pageName t error H)
      as [evs [-> _]]. right. reflexivity.
  - rewrite (findDuplicateComponents_found world fileId pageId pageName t fileData H).
    left. eexists. reflexivity.
Qed.

Lemma main_outcome world cli t :
  snd (main world cli t) = Ret tt \/ snd (main world cli t) = Exit 1.
Proof.
  unfold main, try_catch, bind, emit, emit_all, ret, process_exit.
  destruct (loadConfig world) as [config|]; [|right; reflexivity].
  destruct (findDuplicate cli).
  - match goal with |- context [findDuplicateComponents world ?a ?b ?c ?t'] =>
      pose proof (findDuplicateComponents_outcome world a b c t') as Hd;
      destruct (findDuplicateComponents world a b c t') as [t1 o1] end.
    cbn [snd] in Hd. destruct Hd as [[found ->]| ->]; [left|right]; reflexivity.
  - match goal with |- context [fetchComponents world cli ?a ?b ?c ?d ?t'] =>
      pose proof (fetchComponents_outcome world cli a b c d t') as Hf;
      destruct (fetchComponents world cli a b c d t') as [t1 o1] end.
    cbn [snd] in Hf. destruct o1 as [components|error|code]; [|destruct Hf|].
    + destruct (processIcons_run world components (fileId config) config t1)
        as (e2 & icons & ->).
      destruct (processImages_run world components (fileId config) config (t1 ++ e2))
        as (e3 & o3 & -> & Hexit).
      destruct o3 as [images|error|code]; [| |exfalso; eapply Hexit; reflexivity].
      * destruct (0 <? length _)%nat; left; reflexivity.
      * right. reflexivity.
    + subst code. right. reflexivity.
Qed.

(** X28.  The script never ends with an uncaught exception: its exit
    status is 0 or 1.  Without a token it is 1 and nothing but console
    output has happened, whatever the command line.  It leaves with an
    explicit status 0 only when commander answers [--version] or
    [--help], or on the usage screen, that is with no names and no
    flags. *)
Theorem X28_script_ends_with_status_0_or_1 (world : World) (argv : Argv) (t : Trace) :
  (forall error, snd (program world argv t) <> Throw error) /\
  (status (program world argv t) = 0%Z \/ status (program world argv t) = 1%Z) /\
  (Str.is_truthy (FIGMA_TOKEN world) = false ->
   status (program world argv t) = 1%Z /\
   exists evs, fst (program world argv t) = t ++ evs /\ forallb isConsole evs = true) /\
  (snd (program world argv t) = Exit 0 ->
   (exists text, argv = Answered text) \/
   exists cli,
     argv = Parsed cli /\
     componentNames cli = [] /\ downloadAll cli = false /\ findDuplicate cli = false /\
     Str.is_truthy (sectionName cli) = false).
Proof.
  unfold program, status.
  destruct (Str.is_truthy (FIGMA_TOKEN world)) eqn:Htoken; cbn [negb].
  - destruct argv as [cli|text|message].
    + destruct (((length (componentNames cli) =? 0)%nat && negb (downloadAll cli) &&
                 negb (findDuplicate cli) && negb (Str.is_truthy (sectionName cli)))%bool)
        eqn:Husage.
      * unfold_run. cbn [snd]. split; [discriminate|]. split; [left; reflexivity|].
        split; [discriminate|]. intros _. right. exists cli. split; [reflexivity|].
        apply andb_true_iff in Husage as [Husage Hs].
        apply andb_true_iff in Husage as [Husage Hf].
        apply andb_true_iff in Husage as [Hn Ha].
        apply negb_true_iff in Hs, Hf, Ha. apply Nat.eqb_eq in Hn.
        destruct (componentNames cli); [auto|discriminate].
      * destruct (main_outcome world cli t) as [-> | ->].
        -- split; [discriminate|]. split; [left; reflexivity|]. split; discriminate.
        -- split; [discriminate|]. split; [right; reflexivity|]. split; discriminate.
    + unfold_run. cbn [snd]. split; [discriminate|]. split; [left; reflexivity|].
      split; [discriminate|]. intros _. left. eauto.
    + unfold_run. cbn [snd]. split; [discriminate|]. split; [right; reflexivity|].
      split; discriminate.
  - unfold_run. cbn [snd fst]. split; [discriminate|]. split; [right; reflexivity|].
    split; [|discriminate]. intros _. split; [reflexivity|].
    eexists. split; [close_trace|reflexivity].
Qed.

(** X29.  [getImageUrls] of v1.2.0 never leaves the process and touches
    no file: it returns the URLs of the reply, and throws otherwise, the
    error of the request after the diagnostics of [handleApiError], or,
    for a reply without images, an error whose message names the format
    and the scale. *)
Theorem X29_url_request_throws_and_never_exits (world : World) (fileId : string)
    (components : list Component) (format : string) (scale : Q) (platform : string)
    (t : Trace) :
  let ids := Str.join "," (map c_id components) in
  exists evs,
    fst (getImageUrls world fileId components format scale platform t) =
      t ++ GetImages fileId ids format scale :: evs /\
    forallb isConsole evs = true /\
    snd (getImageUrls world fileId components format scale platform t) =
      match figma_get_images world t fileId ids format scale with
      | inr (Some urls) => Ret urls
      | inr None =>
          Throw (Error ("No image URLs returned from Figma API (format: " +:+ format +:+
                        ", scale: " +:+ number_toString world scale +:+ ")"))
      | inl error => Throw error
      end.
Proof.
  intros ids. unfold getImageUrls. unfold_run. fold ids.
  destruct (figma_get_images world t fileId ids format scale) as [error|[urls|]];
    cbv beta iota.
  - match goal with |- context [handleApiError ?e ?t'] =>
      destruct (handleApiError_run e t') as [evs [-> Hevs]] end.
    exists evs. split; [cbn [fst]; close_trace|]. split; [exact Hevs|reflexivity].
  - exists []. split; [reflexivity|]. split; reflexivity.
  - match goal with |- context [handleApiError ?e ?t'] =>
      destruct (handleApiError_run e t') as [evs [-> Hevs]] end.
    exists evs. split; [cbn [fst]; close_trace|]. split; [exact Hevs|reflexivity].
Qed.

(** X30.  A failure of SVGO does not lose an icon.  On Android, when
    [icons.path] is configured, the download and the conversion succeed
    and the filesystem cooperates, an icon whose optimisation fails is
    still exported: the failure is printed, the drawable is converted
    from the SVG as it was downloaded, and the component counts as
    processed. *)
Theorem X30_unoptimised_icon_is_still_exported (world : World) (config : Config)
    (iconUrls : string -> option string) (totalIcons : nat) (component : Component)
    (iconCounter : nat) (processed : list string) (t : Trace)
    (root imageUrl svg xml : string) (error : JsError) :
  platform config = "android" ->
  icons_path config = Some root ->
  Str.truthy (iconUrls (c_id component)) = Some imageUrl ->
  (forall t', axios_get world t' imageUrl = inr svg) ->
  svgo_optimize world svg = inl error ->
  svg2vectordrawable world svg = inr xml ->
  (forall t' p, fs_ensureDir world t' p = inr tt) ->
  (forall t' p content, fs_writeFile world t' p content = inr tt) ->
  let fileName := icons_prefix config +:+ sanitizedName world (c_name component) "icon/" in
  processIcon world config iconUrls totalIcons component iconCounter processed t =
    (t ++ [SpinnerStart ("Processing icon " +:+ progress iconCounter totalIcons +:+ ": " +:+
                         c_name component);
           HttpGet imageUrl;
           Console Stderr Red ("Error optimizing SVG: " +:+ message error);
           EnsureDir [root; "drawable"] true;
           WriteFile [root; "drawable"; fileName +:+ ".xml"] (Utf8 xml) true;
           SpinnerSucceed ("Icon saved " +:+ progress iconCounter totalIcons +:+ ": " +:+
                           fileName)],
     Ret (set_add (c_name component) processed)).
Proof.
  intros Hplat Hroot Hurl Hget Hsvgo Hxml Hdir Hwrite fileName.
  unfold processIcon, downloadSvg, optimizeSvg, convertSvgForPlatform, path_join_root,
    ensureDir, writeFile.
  rewrite Hurl, Hplat, Hroot. unfold_run. rewrite Hget. cbv beta iota. rewrite Hsvgo.
  cbv beta iota. cbn [String.eqb Ascii.eqb Bool.eqb]. rewrite Hxml. cbv beta iota.
  rewrite Hdir. cbv beta iota. rewrite Hwrite. cbv beta iota.
  f_equal. rewrite <- !app_assoc. reflexivity.
Qed.

Lemma X30_witness_svgo_fails :
  processIcon (Cases.worldWithoutSvgo Docs.oneIcon Sample.android) Sample.android
    (fun id => Some ("https://cdn/" +:+ id)) 1
    (Sample.component "1:2" "icon/home" "Document / Page 1") 1 [] [] =
  ([SpinnerStart "Processing icon (1/1): icon/home";
    HttpGet "https://cdn/1:2";
    Console Stderr Red "Error optimizing SVG: svgo failed";
    EnsureDir ["res"; "drawable"] true;
    WriteFile ["res"; "drawable"; "ic_home.xml"]
      (Utf8 "<vector><https://cdn/1:2></vector>") true;
    SpinnerSucceed "Icon saved (1/1): ic_home"],
   Ret ["icon/home"]).
Proof.
  rewrite (X30_unoptimised_icon_is_still_exported
             (Cases.worldWithoutSvgo Docs.oneIcon Sample.android) Sample.android
             (fun id => Some ("https://cdn/" +:+ id)) 1
             (Sample.component "1:2" "icon/home" "Document / Page 1") 1 [] []
             "res" "https://cdn/1:2" "<https://cdn/1:2>" "<vector><https://cdn/1:2></vector>"
             (Error "svgo failed")).
  - vm_compute. reflexivity.
  - reflexivity.
  - reflexivity.
  - reflexivity.
  - intros t'. reflexivity.
  - reflexivity.
  - reflexivity.
  - intros t' p. reflexivity.
  - intros t' p content. reflexivity.
Defined.
